(** * Survey metrics pipeline of course-eval-test: a shallow embedding

    The repository is a collection of pandas scripts.  Each script that the
    properties below talk about is embedded as a Rocq function over lists of
    rows; the pandas calls the scripts rely on ([pd.cut], [mean], [count],
    [groupby], [round], [sort_values], [head]) are embedded next to them, with
    their default arguments as the scripts leave them.

    - integers (row counts) are [Z] or [nat];
    - survey scores are rationals ([Qc], canonical fractions, so that
      "identical" is Leibniz equality); a missing value (NaN) is [None];
    - Python dictionaries are [gmap]s, frames are lists of rows in order. *)

From Stdlib Require Import ZArith QArith Qcanon Lia.
From stdpp Require Import base option list gmap strings sorting pretty.

Local Open Scope string_scope.
Local Open Scope list_scope.
Local Open Scope Z_scope.

(** * Part I: the embedding *)

(** ** The pandas operations the scripts call

    A numeric column (a [Series] after [pd.to_numeric(errors='coerce')]) is a
    list of cells, [None] being NaN.  Reductions skip NaN ([skipna=True]). *)
Module Pandas.

Abbreviation column := (list (option Qc)).

Definition of_nat (n : nat) : Qc := Q2Qc (inject_Z (Z.of_nat n)).

Definition notna (x : option Qc) : bool :=
  match x with Some _ => true | None => false end.

(** [s.dropna()]. *)
Definition dropna (s : column) : list Qc := omap id s.

(** [s.count()]: the number of cells that are not NaN. *)
Definition count (s : column) : nat := length (filter (λ x, notna x = true) s).

(** The sum with every NaN replaced by 0, as [nansum] computes it. *)
Definition nansum (s : column) : Qc := foldr (λ x acc, default 0%Qc x + acc)%Qc 0%Qc s.

(** [s.mean()] (also one row of [df.mean(axis=1)]): the masked sum over
    the count, NaN when nothing is left. *)
Definition mean (s : column) : option Qc :=
  if bool_decide (count s = 0%nat) then None
  else Some (nansum s / of_nat (count s))%Qc.

(** [s.var()] with the default [ddof=1]: NaN unless at least two values
    are present. *)
Definition var (s : column) : option Qc :=
  if bool_decide (count s ≤ 1)%nat then None
  else
    let avg := (nansum s / of_nat (count s))%Qc in
    let sqr := foldr (λ x acc, (x - avg) * (x - avg) + acc)%Qc 0%Qc (dropna s) in
    Some (sqr / of_nat (count s - 1))%Qc.

(** [s.std()]: the square root of [var]; the root itself is the
    numerical library's and is passed in. *)
Definition std (sqrt : Qc → Qc) (s : column) : option Qc := sqrt <$> var s.

(** Rounding to the nearest integer, halves to even ([np.rint]). *)
Definition rint (q : Qc) : Z :=
  let n := Qnum q in
  let d := Z.pos (Qden q) in
  let fl := n / d in
  let r := n mod d in
  if 2 * r <? d then fl
  else if d <? 2 * r then fl + 1
  else if Z.even fl then fl else fl + 1.

(** [x.round(3)] on one number. *)
Definition round3 (q : Qc) : Qc := Q2Qc (rint (q * Q2Qc 1000)%Qc # 1000).

(** A bin edge of [pd.cut]: a number or [float('inf')]. *)
Inductive edge := Fin (b : Z) | Inf.

Definition edge_lt (e : edge) (x : Z) : bool :=
  match e with Fin b => b <? x | Inf => false end.

(** [bins.searchsorted(x, side='left')]: the number of edges strictly
    below [x] (the edges are increasing). *)
Definition searchsorted_left (bins : list edge) (x : Z) : nat :=
  length (filter (λ e, edge_lt e x = true) bins).

(** [pd.cut(x, bins, labels)] with the defaults [right=True],
    [include_lowest=False]: a value at or below the first edge, or above
    the last one, is NaN; otherwise it takes the label of the interval
    (bins[i-1], bins[i]] it falls in. *)
Definition cut (x : Z) (bins : list edge) (labels : list string) : option string :=
  let ids := searchsorted_left bins x in
  if bool_decide (ids = 0%nat) || bool_decide (ids = length bins) then None
  else labels !! (ids - 1)%nat.

(** [groupby(by)] with the defaults [dropna=True]: the rows of each key,
    in frame order; a row whose key is NaN belongs to no group. *)
Section groupby.
Context {Row K : Type} `{Countable K}.
Variable by_key : Row → option K.

Definition add_row (groups : gmap K (list Row)) (r : Row) : gmap K (list Row) :=
  match by_key r with
  | None => groups
  | Some k => <[k := default [] (groups !! k) ++ [r]]> groups
  end.

Definition groupby (rows : list Row) : gmap K (list Row) :=
  foldl add_row ∅ rows.

(** The rows of a frame that carry key [k]. *)
Definition rows_with (k : K) (rows : list Row) : list Row :=
  filter (λ r, by_key r = Some k) rows.
End groupby.

(** [s.nunique()] on a text column: the number of distinct values, NaN
    not counted ([dropna=True]). *)
Definition nunique (s : list (option string)) : nat :=
  length (remove_dups (omap id s)).

End Pandas.

(** ** Class size by fixed thresholds

    [src/dev0104/stats/class_size_analyzer0104.py] and
    [src/dev0104/test_data/calculate_metrics.py]. *)
Module ClassSize.

(** [categorize_size(count)]: an if/elif chain on [count <= bound]. *)
Definition categorize_size (count : Z) : string :=
  if count <=? 15 then "Small"
  else if count <=? 30 then "Medium"
  else if count <=? 75 then "Large"
  else "Very Large".

(** The [bins] and [labels] of [classify_courses_by_size]. *)
Definition bins : list Pandas.edge :=
  [Pandas.Fin 0; Pandas.Fin 15; Pandas.Fin 30; Pandas.Fin 75; Pandas.Inf].
Definition labels : list string := ["Small"; "Medium"; "Large"; "Very Large"].

(** The [Size] entry of a course with [students] rows. *)
Definition classify_size (students : Z) : option string :=
  Pandas.cut students bins labels.

(** [classify_courses_by_size]: per [GroupCode], the number of rows
    ([Students]) and its bin ([Size]).  The argument is the [GroupCode]
    column of the file. *)
Definition classify_courses_by_size (group_codes : list (option string))
    : gmap string (nat * option string) :=
  (λ g, (length g, classify_size (Z.of_nat (length g))))
    <$> Pandas.groupby id group_codes.

(** The table of [analyze_class_sizes]: per [GroupCode], the number of rows
    ([Students]) and [categorize_size] of it ([Size]). *)
Definition class_sizes (group_codes : list (option string))
    : gmap string (nat * string) :=
  (λ g, (length g, categorize_size (Z.of_nat (length g))))
    <$> Pandas.groupby id group_codes.

End ClassSize.

(** ** [analyze_class_sizes]

    [src/dev0104/stats/class_size_analyzer0104.py]. *)
Module ClassSizeAnalyzer.

(** The input file as far as [analyze_class_sizes] looks at it: there is
    no such file, or it has no column [GroupCode], or it has one (an empty
    cell is NaN). *)
Inductive input :=
| NoFile
| NoGroupCode
| GroupCode (codes : list (option string)).

(** The exceptions met in the body; all are caught by [except Exception]. *)
Inductive exn :=
| FileNotFoundError
| KeyError (key : string)
| ZeroDivisionError.

Inductive result (A : Type) :=
| Ok (a : A)
| Raise (e : exn).
Arguments Ok {A} a.
Arguments Raise {A} e.

(** The categories the report runs through. *)
Definition size_categories : list string :=
  ["Small"; "Medium"; "Large"; "Very Large"].

(** [size_distribution.get(size_category, 0)], where [size_distribution]
    is [class_sizes['Size'].value_counts()]. *)
Definition size_count (class_sizes : gmap string (nat * string))
    (size_category : string) : nat :=
  length (filter (λ row, row.2.2 = size_category) (map_to_list class_sizes)).

(** One pass of the loop of the report: the category, its count and its
    percentage; [count / total_classes] raises when there is no class. *)
Definition report_line (class_sizes : gmap string (nat * string))
    (size_category : string) : result (string * nat * Qc) :=
  let count := size_count class_sizes size_category in
  let total_classes := size class_sizes in
  if decide (total_classes = 0%nat) then Raise ZeroDivisionError
  else Ok (size_category, count,
           (Pandas.of_nat count / Pandas.of_nat total_classes * Q2Qc 100)%Qc).

(** The loop of the report: the lines printed, and the exception that
    ended the loop, if any. *)
Fixpoint report_loop (class_sizes : gmap string (nat * string))
    (categories : list string) : list (string * nat * Qc) * option exn :=
  match categories with
  | [] => ([], None)
  | size_category :: rest =>
      match report_line class_sizes size_category with
      | Raise e => ([], Some e)
      | Ok line =>
          let '(lines, e) := report_loop class_sizes rest in
          (line :: lines, e)
      end
  end.

(** What a call leaves: the value returned, the table written to the
    output file (if the call got that far; the order of its rows is not
    represented), the lines of the size distribution printed, and the
    exception caught, if any. *)
Record Outcome := mkOutcome {
  returned : bool;
  saved : option (gmap string (nat * string));
  report : list (string * nat * Qc);
  caught : option exn
}.

Definition analyze_class_sizes (input_file : input) : Outcome :=
  match input_file with
  | NoFile => mkOutcome false None [] (Some FileNotFoundError)
  | NoGroupCode => mkOutcome false None [] (Some (KeyError "GroupCode"))
  | GroupCode codes =>
      let class_sizes := ClassSize.class_sizes codes in
      let '(lines, e) := report_loop class_sizes size_categories in
      mkOutcome (bool_decide (e = None)) (Some class_sizes) lines e
  end.

End ClassSizeAnalyzer.

(** ** Size ranges of the dashboard

    [src/dev0104/scripts_backend/size_range_analyzer.py]. *)
Module SizeRange.

(** [SizeRange.__init__]: bounds, title and colour ([max_size] may be
    [None]).  The fields [data], [percentage] and [count] that
    [process_data] fills in are the [RangeStats] below. *)
Record SizeRange := mkSizeRange {
  min_size : Z;
  max_size : option Z;
  title : string;
  color : string
}.

(** [SizeRangeAnalyzer.__init__]. *)
Definition size_ranges : list SizeRange :=
  [ mkSizeRange 10 (Some 21) "소규모 강좌 (10-20명)" "#2563eb";
    mkSizeRange 21 (Some 51) "중소규모 강좌 (21-50명)" "#059669";
    mkSizeRange 51 (Some 101) "중대규모 강좌 (51-100명)" "#7c3aed";
    mkSizeRange 101 None "대규모 강좌 (100명 이상)" "#dc2626" ].

(** The mask of [process_data]:
    [df['응답자 수'] >= min_size], and [< max_size] when there is one. *)
Definition mask (r : SizeRange) (responses : Z) : bool :=
  (min_size r <=? responses) &&
  match max_size r with
  | Some m => responses <? m
  | None => true
  end.

(** The ranges a response count falls in. *)
Definition ranges_of (ranges : list SizeRange) (responses : Z) : list SizeRange :=
  filter (λ r, mask r responses = true) ranges.

End SizeRange.

(** ** Column names

    [ColumnMapper] of [src/dev0104/scripts_backend/survey_analysis_app.py]. *)
Module ColumnMapper.

(** A dict display or comprehension: the items are stored left to right,
    a later item overwriting an earlier one with the same key. *)
Definition dict_of (items : list (string * string)) : gmap string string :=
  foldl (λ d kv, <[kv.1 := kv.2]> d) ∅ items.

(** The items of the [kr_to_en] display of [__init__], in order. *)
Definition kr_to_en_items : list (string * string) :=
  [ ("년도", "year"); ("학기", "semester"); ("캠퍼스", "campus");
    ("개설단과대학", "college"); ("교과목명", "course_name");
    ("설문1", "q1"); ("설문2", "q2"); ("설문3", "q3"); ("설문4", "q4");
    ("설문5", "q5"); ("설문6", "q6"); ("설문7", "q7") ].

Definition kr_to_en : gmap string string := dict_of kr_to_en_items.

(** [{v: k for k, v in self.kr_to_en.items()}]; the keys of the display
    are distinct, so [items()] yields them in the order written. *)
Definition en_to_kr : gmap string string :=
  dict_of ((λ kv, (kv.2, kv.1)) <$> kr_to_en_items).

(** [d.get(col, col)]. *)
Definition get (d : gmap string string) (col : string) : string :=
  default col (d !! col).

(** The argument of [to_english]/[to_korean]: a [str] or a list. *)
Inductive cols := Name (col : string) | Names (l : list string).

Definition to_english (korean_cols : cols) : cols :=
  match korean_cols with
  | Name col => Name (get kr_to_en col)
  | Names l => Names (get kr_to_en <$> l)
  end.

Definition to_korean (english_cols : cols) : cols :=
  match english_cols with
  | Name col => Name (get en_to_kr col)
  | Names l => Names (get en_to_kr <$> l)
  end.

End ColumnMapper.

(** ** Frames of the analysis scripts (English column names)

    [src/dev0104/stats/survey_statistics_analyzer copy.py] and
    [src/dev0104/stats/survey_score_analyzer0104.py] read the same file:
    one row per response, with the text columns the scripts group by and
    the seven survey columns, already converted by
    [pd.to_numeric(errors='coerce')].  An empty text cell is NaN. *)
Module Survey.

Record Row := mkRow {
  CourseName : option string;
  College : option string;
  Campus : option string;
  surveys : list (option Qc)
}.

(** The columns the scripts group by. *)
Inductive group_col := ByCourseName | ByCollege | ByCampus.

Definition key_of (g : group_col) (r : Row) : option string :=
  match g with
  | ByCourseName => CourseName r
  | ByCollege => College r
  | ByCampus => Campus r
  end.

(** [self.survey_cols = [f'Survey{i}' for i in range(1, 8)]]. *)
Definition survey_cols : list nat := seq 1 7.

(** The cell of column [Survey{i}]. *)
Definition survey_cell (i : nat) (r : Row) : option Qc :=
  mjoin (surveys r !! (i - 1)%nat).

(** [self.data[self.survey_cols]] restricted to one row. *)
Definition items (r : Row) : Pandas.column :=
  (λ i, survey_cell i r) <$> survey_cols.

(** [self.data['SurveyCombined'] = self.data[self.survey_cols].mean(axis=1)]. *)
Definition SurveyCombined (r : Row) : option Qc := Pandas.mean (items r).

(** The columns the statistics are computed on:
    [self.survey_cols + ['SurveyCombined']]. *)
Inductive score_col := Survey (i : nat) | Combined.

Definition cell (c : score_col) (r : Row) : option Qc :=
  match c with
  | Survey i => survey_cell i r
  | Combined => SurveyCombined r
  end.

(** [self.data[col]]. *)
Definition values (c : score_col) (rows : list Row) : Pandas.column :=
  cell c <$> rows.

End Survey.

(** ** [SurveyScoreAnalyzer.calculate_survey_averages] *)
Module SurveyScoreAnalyzer.

(** One row of [.agg(['count', 'mean', 'std']).round(3)]; [count] is an
    integer column, which [round] leaves alone. *)
Record AggRow := mkAggRow {
  agg_count : nat;
  agg_mean : option Qc;
  agg_std : option Qc
}.

Definition agg (sqrt : Qc → Qc) (s : Pandas.column) : AggRow :=
  {| agg_count := Pandas.count s;
     agg_mean := Pandas.round3 <$> Pandas.mean s;
     agg_std := Pandas.round3 <$> Pandas.std sqrt s |}.

(** [self.data.groupby(column)[survey_col].agg([...]).round(3)]: the
    table stored under [f'{level}_{survey_col}'] (or
    [f'{level}_combined']), indexed by the group value. *)
Definition calculate_survey_averages (sqrt : Qc → Qc)
    (column : Survey.group_col) (survey_col : Survey.score_col)
    (data : list Survey.Row) : gmap string AggRow :=
  (λ g, agg sqrt (Survey.values survey_col g))
    <$> Pandas.groupby (Survey.key_of column) data.

(** The sum of the [count] column of such a table. *)
Definition total_count (table : gmap string AggRow) : nat :=
  map_fold (λ _ row acc, agg_count row + acc)%nat 0%nat table.

(** The first four entries of [overall_stats] in [_create_summary_sheet]:
    [Total Records], [Unique Courses], [Unique Colleges] and
    [Campus Count]. *)
Definition total_records (data : list Survey.Row) : nat := length data.

Definition unique_values (column : Survey.group_col) (data : list Survey.Row) : nat :=
  Pandas.nunique (Survey.key_of column <$> data).

End SurveyScoreAnalyzer.

(** ** [SurveyStatisticsAnalyzer]

    [src/dev0104/stats/survey_statistics_analyzer copy.py].  [load_data] adds
    the [SurveyCombined] column, which is [Survey.SurveyCombined] above. *)
Module SurveyStatisticsAnalyzer.

(** The exceptions the statistics raise: positional indexing past the
    end ([.iloc[0]] on an empty result), a call the library does not
    accept ([scipy.stats.t.interval] with the keyword [alpha], from
    scipy 1.11 on), and a method the object does not have (its name is
    kept). *)
Inductive exn :=
| IndexError
| TypeError
| AttributeError (name : string).

Inductive result (A : Type) :=
| Ok (a : A)
| Raise (e : exn).
Arguments Ok {A} a.
Arguments Raise {A} e.

#[export] Instance result_ret : MRet result := λ A a, Ok a.
#[export] Instance result_bind : MBind result := λ A B f m,
  match m with
  | Ok a => f a
  | Raise e => Raise e
  end.

(** [xs.iloc[0]]. *)
Definition iloc0 {A : Type} (xs : list A) : result A :=
  match xs with
  | [] => Raise IndexError
  | x :: _ => Ok x
  end.

(** Floating-point arithmetic on cells: NaN propagates; a division by zero
    gives an infinity or NaN, neither of which is a rational, and is
    reported as [None]. *)
Definition fsub (a b : option Qc) : option Qc :=
  x ← a; y ← b; Some (x - y)%Qc.
Definition fdiv (a b : option Qc) : option Qc :=
  x ← a; y ← b; if decide (y = 0%Qc) then None else Some (x / y)%Qc.
Definition fscale (k : Qc) (a : option Qc) : option Qc := Qcmult k <$> a.

(** How often [x] occurs. *)
Definition freq (l : list Qc) (x : Qc) : nat := length (filter (λ y, y = x) l).

Definition more_frequent (a b : Qc * nat) : Prop := (b.2 ≤ a.2)%nat.
#[export] Instance more_frequent_dec : RelDecision more_frequent :=
  λ a b, decide (b.2 ≤ a.2)%nat.

(** [s.value_counts()]: the distinct values that are present with their
    frequencies, the most frequent first. *)
Definition value_counts (s : Pandas.column) : list (Qc * nat) :=
  let l := Pandas.dropna s in
  merge_sort more_frequent ((λ x, (x, freq l x)) <$> remove_dups l).

(** [s.mode()]: the most frequent values that are present, ascending. *)
Definition mode (s : Pandas.column) : list Qc :=
  let l := Pandas.dropna s in
  let top := foldr Nat.max 0%nat (freq l <$> l) in
  merge_sort Qcle (filter (λ x, freq l x = top) (remove_dups l)).

(** The eight statistics the analysis asks pandas for. *)
Record Agg := mkAgg {
  count : nat;
  mean : option Qc;
  std : option Qc;
  q25 : option Qc;
  median : option Qc;
  q75 : option Qc;
  skewness : option Qc;
  kurtosis : option Qc
}.

(** The entry [self.results[f'distribution_{col}']]. *)
Record StatsDict := mkStatsDict {
  basic : Agg;
  mode_value : Qc;
  mode_freq : nat;
  mode_pct : option Qc;
  iqr : option Qc;
  cv : option Qc;
  ci_lower : option Qc;
  ci_upper : option Qc
}.

(** An entry of the list [calculate_comparative_statistics] gives to
    [SeriesGroupBy.agg]: the name of a reduction (['count'], ['mean'],
    ['std'], ['median'], ['skew'], ['kurtosis']) or the callable
    [lambda x: x.quantile(q)]. *)
Inductive agg_func :=
| Count
| Mean
| Std
| Lambda (q : Qc)
| Median
| Skew
| Kurtosis.

Section numerics.
(** The numerical routines of numpy, pandas and scipy that are not
    rational arithmetic are taken as given: the square root,
    [Series.quantile(q)], [Series.median()], [Series.skew()],
    [Series.kurtosis()], [scipy.stats.sem] and
    [scipy.stats.t.interval(alpha=..., df=..., loc=..., scale=...)].  The
    last one is [None] when the call raises [TypeError]: scipy knows the
    keyword [alpha] up to version 1.10 and not from 1.11 on. *)
Variable sqrt : Qc → Qc.
Variable quantile : Qc → Pandas.column → option Qc.
Variable series_median series_skew series_kurtosis : Pandas.column → option Qc.
Variable sem : list Qc → option Qc.
Variable t_interval :
  Qc → Z → option Qc → option Qc → option (option Qc * option Qc).

(** The body of the loop of [calculate_distribution_statistics] for one
    column: the dictionary display is evaluated entry by entry, then the
    confidence interval is added. *)
Definition distribution_statistics (data : list Survey.Row)
    (col : Survey.score_col) : result StatsDict :=
  let s := Survey.values col data in
  let a :=
    {| count := length (Pandas.dropna s);
       mean := Pandas.mean s;
       std := Pandas.std sqrt s;
       q25 := quantile (Q2Qc (1 # 4)) s;
       median := series_median s;
       q75 := quantile (Q2Qc (3 # 4)) s;
       skewness := series_skew s;
       kurtosis := series_kurtosis s |} in
  mode_first ← iloc0 (mode s);
  freq_first ← iloc0 (value_counts s);
  freq_again ← iloc0 (value_counts s);
  ci ← match t_interval (Q2Qc (95 # 100))
               (Z.of_nat (length (Pandas.dropna s)) - 1)
               (Pandas.mean s) (sem (Pandas.dropna s)) with
       | Some ci => Ok ci
       | None => Raise TypeError
       end;
  mret {| basic := a;
          mode_value := mode_first;
          mode_freq := freq_first.2;
          mode_pct :=
            fscale (Q2Qc 100)
              (fdiv (Some (Pandas.of_nat freq_again.2))
                    (Some (Pandas.of_nat (length data))));
          iqr := fsub (quantile (Q2Qc (3 # 4)) s) (quantile (Q2Qc (1 # 4)) s);
          cv := fscale (Q2Qc 100) (fdiv (Pandas.std sqrt s) (Pandas.mean s));
          ci_lower := ci.1;
          ci_upper := ci.2 |}.

Definition analysis_cols : list Survey.score_col :=
  (Survey.Survey <$> Survey.survey_cols) ++ [Survey.Combined].

(** [calculate_distribution_statistics]: the columns in turn; the first
    exception ends the call. *)
Definition calculate_distribution_statistics (data : list Survey.Row)
    : result (list (Survey.score_col * StatsDict)) :=
  foldr (λ col rest,
           d ← distribution_statistics data col;
           ds ← rest;
           mret ((col, d) :: ds))
        (mret []) analysis_cols.

(** The reduction [SeriesGroupBy.agg] runs for an entry of its list.  A
    callable is applied to the column of each group; a name is looked up
    among the methods of the grouped column, which has [count], [mean],
    [std], [median] and [skew] but none called [kurtosis] (a [Series] has
    one, a [SeriesGroupBy] has not): the lookup raises [AttributeError]. *)
Definition resolve (f : agg_func) : result (Pandas.column → option Qc) :=
  match f with
  | Count => Ok (λ s, Some (Pandas.of_nat (Pandas.count s)))
  | Mean => Ok Pandas.mean
  | Std => Ok (Pandas.std sqrt)
  | Lambda q => Ok (quantile q)
  | Median => Ok series_median
  | Skew => Ok series_skew
  | Kurtosis => Raise (AttributeError "kurtosis")
  end.

(** The list of [calculate_comparative_statistics]. *)
Definition agg_funcs : list agg_func :=
  [Count; Mean; Std; Lambda (Q2Qc (1 # 4)); Median; Lambda (Q2Qc (3 # 4));
   Skew; Kurtosis].

(** [group_stats] of [calculate_comparative_statistics] for one grouping
    column and one score column:
    [self.data.groupby(group_col)[survey_col].agg([...]).round(3)], one row
    per group and one column per entry of the list. *)
Definition group_stats (data : list Survey.Row)
    (group_col : Survey.group_col) (survey_col : Survey.score_col)
    : result (gmap string (list (option Qc))) :=
  match (mapM resolve agg_funcs
           : result (list (Pandas.column → option Qc))) with
  | Raise e => Raise e
  | Ok reductions =>
      Ok ((λ g, (λ f : Pandas.column → option Qc,
                   Pandas.round3 <$> f (Survey.values survey_col g))
                  <$> reductions)
            <$> Pandas.groupby (Survey.key_of group_col) data)
  end.

(** [calculate_comparative_statistics]: the grouping columns [College] and
    [Campus] in turn and, for each, the score columns in turn; the first
    exception ends the call.  (What the function derives from a table once
    it has one, the columns [iqr], [cv] and [z_score] and the effect
    sizes, is not represented.) *)
Definition calculate_comparative_statistics (data : list Survey.Row)
    : result (list (Survey.group_col * Survey.score_col
                    * gmap string (list (option Qc)))) :=
  mapM (λ gc, table ← group_stats data gc.1 gc.2; mret (gc, table))
       ([Survey.ByCollege; Survey.ByCampus]
          ≫= λ group_col, (λ survey_col, (group_col, survey_col)) <$> analysis_cols).
End numerics.

End SurveyStatisticsAnalyzer.

(** [str.__repr__] of a column name (no quote inside) and of a list of them,
    as an f-string prints [{missing_cols}]. *)
Definition repr_str (s : string) : string := "'" +:+ s +:+ "'".
Definition repr_list (l : list string) : string :=
  "[" +:+ String.concat ", " (repr_str <$> l) +:+ "]".

(** ** [SizeRangeAnalyzer.process_data]

    [src/dev0104/scripts_backend/size_range_analyzer.py]. *)
Module SizeRangeAnalyzer.

(** One row of the course-level frame [process_data] is given: the course
    and its college, the count and mean of every survey question, the
    response count ([응답자 수]) and the average score ([평균 점수]). *)
Record CourseRow := mkCourseRow {
  course_id : string;
  course_college : string;
  question_stats : list (string * (nat * option Qc));
  responses : Z;
  average : option Qc
}.

(** The frame with the names of its columns. *)
Record CourseFrame := mkCourseFrame {
  frame_columns : list string;
  frame_rows : list CourseRow
}.

(** [KeyError] with its argument: the name of a column, or a text. *)
Inductive exn := KeyError (key : string).

Inductive result (A : Type) :=
| Ok (a : A)
| Raise (e : exn).
Arguments Ok {A} a.
Arguments Raise {A} e.

#[export] Instance result_ret : MRet result := λ A a, Ok a.
#[export] Instance result_bind : MBind result := λ A B f m,
  match m with
  | Ok a => f a
  | Raise e => Raise e
  end.

(** [df[col]] and [sort_values(col)]: the column must exist; the
    [KeyError] carries its name. *)
Definition getitem (df : CourseFrame) (col : string) : result () :=
  if decide (col ∈ frame_columns df) then Ok () else Raise (KeyError col).

(** [df[[col, ...]]]: every column named must exist; the [KeyError] carries
    a text listing the ones that do not (and another text, naming the whole
    list, when none of them does; its wording is that of pandas 3, which
    names the dtype [str] where pandas 2 names [object]). *)
Definition getitem_list (df : CourseFrame) (cols : list string) : result () :=
  let not_found := filter (λ c, c ∉ frame_columns df) cols in
  if decide (not_found = []) then Ok ()
  else if decide (not_found = cols) then
    Raise (KeyError ("None of [Index(" +:+ repr_list cols
                     +:+ ", dtype='str')] are in the [columns]"))
  else Raise (KeyError (repr_list not_found +:+ " not in index")).

(** The order [sort_values('평균 점수', ascending=False)] puts two scores
    in: the larger first, NaN last ([na_position='last']). *)
Definition score_ge (a b : option Qc) : Prop :=
  match a, b with
  | _, None => True
  | None, Some _ => False
  | Some x, Some y => (y ≤ x)%Qc
  end.

#[export] Instance score_ge_dec : RelDecision score_ge.
Proof. intros [x|] [y|]; cbn; apply _. Defined.

(** [a] goes before-or-with [b] in the sorted frame. *)
Definition before (a b : CourseRow) : Prop := score_ge (average a) (average b).

#[export] Instance before_dec : RelDecision before :=
  λ a b, score_ge_dec (average a) (average b).

(** Sorting by the score alone.  Rows with equal scores are compared by
    nothing else; they are left here in the order of the frame, which is
    what the insertion sort numpy runs on arrays of at most 16 elements
    does (on a longer array the order among equal scores is whatever
    numpy's quicksort leaves). *)
Fixpoint insert_desc (r : CourseRow) (sorted : list CourseRow) : list CourseRow :=
  match sorted with
  | [] => [r]
  | y :: ys =>
      if decide (before r y) then r :: y :: ys else y :: insert_desc r ys
  end.

Definition sort_values_desc (df : list CourseRow) : list CourseRow :=
  foldr insert_desc [] df.

(** What [process_data] stores on a [SizeRange]. *)
Record RangeStats := mkRangeStats {
  count : nat;
  percentage : Qc;
  data : option (list CourseRow)
}.

(** [df[mask]]. *)
Definition in_range (r : SizeRange.SizeRange) (df : list CourseRow) : list CourseRow :=
  filter (λ c, SizeRange.mask r (responses c) = true) df.

(** The body of the loop of [process_data] for one range. *)
Definition range_stats (df : CourseFrame) (r : SizeRange.SizeRange)
    : result RangeStats :=
  let total_courses := length (frame_rows df) in
  let filtered_df := in_range r (frame_rows df) in
  let count := length filtered_df in
  let percentage :=
    if decide (0 < total_courses)%nat
    then (Pandas.of_nat count / Pandas.of_nat total_courses * Q2Qc 100)%Qc
    else 0%Qc in
  match filtered_df with
  | [] => Ok {| count := count; percentage := percentage; data := None |}
  | _ =>
      _ ← getitem df "평균 점수";
      let top := take 10 (sort_values_desc filtered_df) in
      _ ← getitem_list df ["교과목명"; "평균 점수"; "응답자 수"];
      Ok {| count := count; percentage := percentage; data := Some top |}
  end.

(** [process_data(df)]: the ranges in turn; an exception is logged and
    raised again.  (The ranges handled before an exception keep what was
    stored on them; that is not represented.) *)
Definition process_data (df : CourseFrame) : result (list RangeStats) :=
  _ ← getitem df "응답자 수";
  mapM (range_stats df) SizeRange.size_ranges.

(** [keyword in course] on two strings: [keyword] starts at some position
    of [course].  (Strings are sequences of UTF-8 bytes here; on well-formed
    text a byte-wise occurrence is an occurrence of the characters.) *)
Fixpoint contains (keyword course : string) : bool :=
  String.prefix keyword course ||
  match course with
  | EmptyString => false
  | String _ rest => contains keyword rest
  end.

(** The keys of the [keywords] dictionary of [_analyze_course_types], in
    the order written. *)
Definition keywords : list string :=
  ["전공"; "교양"; "실습"; "이론"; "기초"; "심화"; "특강"].

(** The value stored under a keyword after the two loops: the number of
    course names it occurs in. *)
Definition keyword_count (course_names : list string) (keyword : string) : nat :=
  length (filter (λ course, contains keyword course = true) course_names).

(** [[k for k, v in keywords.items() if v > 0]]. *)
Definition relevant_types (course_names : list string) : list string :=
  filter (λ k, (0 < keyword_count course_names k)%nat) keywords.

Definition _analyze_course_types (course_names : list string) : string :=
  match relevant_types course_names with
  | [] => "다양한 유형의 강좌"
  | _ => String.concat ", " (relevant_types course_names)
  end.

End SizeRangeAnalyzer.

(** ** Loading and validation *)

(** [col not in df.columns] for each required column, in order. *)
Definition missing_from (columns required : list string) : list string :=
  filter (λ col, col ∉ columns) required.

(** [MetricsCalculator.__init__] of
    [src/dev0104/test_data/calculate_metrics.py], as far as the header of the
    file decides it. *)
Module MetricsCalculator.

Inductive exn :=
| FileNotFoundError (msg : string)
| ValueError (msg : string)
| AttributeError (name : string).

Inductive result (A : Type) :=
| Ok (a : A)
| Raise (e : exn).
Arguments Ok {A} a.
Arguments Raise {A} e.

Definition survey_cols : list string :=
  ["Survey1"; "Survey2"; "Survey3"; "Survey4"; "Survey5"; "Survey6"; "Survey7"].

Definition required_columns : list string :=
  survey_cols ++ ["College"; "Campus"; "GroupCode"; "CourseCode"; "CourseName"].

(** [__init__(data_file)]: [file] is [None] when the path does not exist,
    and the header of the frame [pd.read_csv] returns otherwise (a file
    [pd.read_csv] itself refuses, such as an empty one, is not
    represented).  The result is the exception raised, if any. *)
Definition init (data_file : string) (file : option (list string)) : option exn :=
  match file with
  | None => Some (FileNotFoundError ("Data file " +:+ data_file +:+ " not found."))
  | Some columns =>
      let missing_cols := missing_from columns required_columns in
      if decide (missing_cols = []) then None
      else Some (ValueError ("Missing required columns: " +:+ repr_list missing_cols))
  end.

(** The rows of [self.df] are those of [Survey.Row]: the survey columns
    [Survey1] to [Survey7] after [pd.to_numeric(errors='coerce')].

    The cell-wise tests of [calculate_evaluation_metrics]; a comparison
    with NaN is [False]. *)
Definition high (x : option Qc) : bool :=
  match x with
  | Some v => bool_decide (Q2Qc (9 # 2) ≤ v)%Qc
  | None => false
  end.

Definition medium (x : option Qc) : bool :=
  match x with
  | Some v => bool_decide (Q2Qc 3 ≤ v)%Qc && bool_decide (v < Q2Qc (9 # 2))%Qc
  | None => false
  end.

Definition low (x : option Qc) : bool :=
  match x with
  | Some v => bool_decide (v < Q2Qc 3)%Qc
  | None => false
  end.

(** [mask.mean()] on one Boolean column: the share of [True], NaN on a
    frame without rows. *)
Definition bool_mean (s : list bool) : option Qc :=
  if decide (s = []) then None
  else Some (Pandas.of_nat (length (filter (λ b, b = true) s))
             / Pandas.of_nat (length s))%Qc.

(** [test(self.df[self.survey_cols]).mean().mean() * 100]: the mean of
    every column of the Boolean frame, then the mean over the columns. *)
Definition share (test : option Qc → bool) (df : list Survey.Row) : option Qc :=
  (λ x, x * Q2Qc 100)%Qc
    <$> Pandas.mean
          ((λ i, bool_mean ((λ r, test (Survey.survey_cell i r)) <$> df))
             <$> Survey.survey_cols).

(** [x.round(2)] on one number. *)
Definition round2 (q : Qc) : Qc := Q2Qc (Pandas.rint (q * Q2Qc 100)%Qc # 100).

(** The entry [overall.response_rate] of [calculate_evaluation_metrics]:
    [(... * 100).round(2)].  On a frame with rows the number is a numpy
    number and has a [round] method; on a frame without rows it is the
    Python float [nan], which has none, and [AttributeError] is raised. *)
Definition response_rate (df : list Survey.Row) : result Qc :=
  match share Pandas.notna df with
  | Some x => Ok (round2 x)
  | None => Raise (AttributeError "round")
  end.

Record ScoreDistribution := mkScoreDistribution {
  sd_high : option Qc;
  sd_medium : option Qc;
  sd_low : option Qc
}.

Definition score_distribution (df : list Survey.Row) : ScoreDistribution :=
  {| sd_high := share high df;
     sd_medium := share medium df;
     sd_low := share low df |}.

(** [calculate_evaluation_metrics] as far as these two entries go: the
    dictionary display is evaluated entry by entry, [overall] before
    [score_distribution]. *)
Definition calculate_evaluation_metrics (df : list Survey.Row)
    : result (Qc * ScoreDistribution) :=
  match response_rate df with
  | Raise e => Raise e
  | Ok rate => Ok (rate, score_distribution df)
  end.

(** [gpa_scale = 4.5 / 5] and the column
    [gpa_equiv = self.df[self.survey_cols].mean(axis=1) * gpa_scale] of
    [calculate_performance_metrics]. *)
Definition gpa_scale : Qc := (Q2Qc (9 # 2) / Q2Qc 5)%Qc.

Definition gpa_equiv (r : Survey.Row) : option Qc :=
  (λ x, x * gpa_scale)%Qc <$> Pandas.mean (Survey.items r).

(** The objects [_convert_keys_to_str] walks through: dictionaries (their
    items in insertion order), lists, and anything else.  The keys are the
    strings and integers the metrics are indexed by. *)
Inductive key := Str (s : string) | Int (n : Z).

#[export] Instance key_eq_dec : EqDecision key.
Proof. solve_decision. Defined.

(** [str(k)]. *)
Definition str (k : key) : string :=
  match k with
  | Str s => s
  | Int n => pretty n
  end.

#[warnings="-register-all"]
Inductive obj (V : Type) :=
| Dict (items : list (key * obj V))
| List (elems : list (obj V))
| Other (v : V).
Arguments Dict {V} items.
Arguments List {V} elems.
Arguments Other {V} v.

(** [d[k] = v]: an existing key keeps its place and gets the new value, a
    new key goes to the end. *)
Fixpoint setitem {A : Type} (d : list (key * A)) (k : key) (v : A) : list (key * A) :=
  match d with
  | [] => [(k, v)]
  | (k', v') :: rest =>
      if decide (k' = k) then (k', v) :: rest else (k', v') :: setitem rest k v
  end.

(** A dictionary comprehension: the items are stored one after the other. *)
Definition dict_of {A : Type} (items : list (key * A)) : list (key * A) :=
  foldl (λ d kv, setitem d kv.1 kv.2) [] items.

Fixpoint _convert_keys_to_str {V : Type} (o : obj V) : obj V :=
  match o with
  | Dict items =>
      Dict (dict_of ((λ kv, (Str (str kv.1), _convert_keys_to_str kv.2)) <$> items))
  | List elems => List (_convert_keys_to_str <$> elems)
  | Other v => Other v
  end.

(** Every key of every dictionary of the object is a string. *)
Fixpoint str_keys {V : Type} (o : obj V) : bool :=
  match o with
  | Dict items =>
      forallb (λ kv, match kv.1 with Str _ => true | Int _ => false end
                     && str_keys kv.2) items
  | List elems => forallb str_keys elems
  | Other _ => true
  end.

End MetricsCalculator.

(** ** The dashboard: [SurveyDataAnalyzer.load_data]

    [src/dev0104/scripts_backend/survey_analysis_app.py]. *)
Module SurveyDataAnalyzer.

(** One row of the uploaded file: the cells of [교과목명] and [강좌번호]
    after [astype(str)], the cell of [개설단과대학], and the cell of every
    other column after [pd.to_numeric(errors='coerce')].  A cell without a
    value is [None].  ([astype(str)] turns an empty cell into the text
    [nan] under pandas 2 and leaves it without a value under pandas 3.) *)
Record Row := mkRow {
  course_name : option string;
  section : option string;
  college : option string;
  answer : string → option Qc
}.

Record Frame := mkFrame {
  columns : list string;
  rows : list Row
}.

Inductive exn :=
| ValueError (msg : string)
| KeyError (key : string).

Inductive result (A : Type) :=
| Ok (a : A)
| Raise (e : exn).
Arguments Ok {A} a.
Arguments Raise {A} e.

Definition required_cols : list string := ["교과목명"; "강좌번호"; "개설단과대학"].

(** [[col for col in df.columns if col.startswith('설문') and col != '설문8']]. *)
Definition survey_cols_of (columns : list string) : list string :=
  filter (λ col, String.prefix "설문" col = true ∧ col ≠ "설문8") columns.

(** The two checks at the head of [load_data]: the exception raised by
    them, if any. *)
Definition validate (columns : list string) : option exn :=
  let missing_cols := missing_from columns required_cols in
  if decide (missing_cols = []) then
    if decide (survey_cols_of columns = []) then
      Some (ValueError "No survey questions found in the data")
    else None
  else Some (ValueError ("Missing required columns: " +:+ repr_list missing_cols)).

#[export] Instance result_ret : MRet result := λ A a, Ok a.
#[export] Instance result_bind : MBind result := λ A B f m,
  match m with
  | Ok a => f a
  | Raise e => Raise e
  end.

(** [df['course_id'] = 교과목명 + ' (' + 강좌번호 + ')']: texts are joined,
    a cell without a value gives none. *)
Definition course_id (r : Row) : option string :=
  name ← course_name r; number ← section r;
  Some (name +:+ " (" +:+ number +:+ ")").

(** The key of [groupby(['course_id', '개설단과대학'])]; a row without a
    course identifier or without a college belongs to no group. *)
Definition group_key (r : Row) : option (string * string) :=
  id ← course_id r; c ← college r; Some (id, c).

(** The groups come out in ascending order of the key. *)
Definition key_le (a b : string * string) : Prop :=
  if decide (a.1 = b.1) then String.le a.2 b.2 else String.le a.1 b.1.

#[export] Instance key_le_dec : RelDecision key_le.
Proof. intros a b. unfold key_le. destruct (decide (a.1 = b.1)); apply _. Defined.

Definition entry_le (a b : string * string * list Row) : Prop := key_le a.1 b.1.

#[export] Instance entry_le_dec : RelDecision entry_le :=
  λ a b, key_le_dec a.1 b.1.

(** [.agg({col: ['count', 'mean'] for col in survey_cols})] on one group. *)
Definition question_stats (survey_cols : list string) (g : list Row)
    : list (string * (nat * option Qc)) :=
  (λ col,
     let s := (λ r, answer r col) <$> g in
     (col, (Pandas.count s, Pandas.mean s))) <$> survey_cols.

(** One row of [course_stats]: [응답자 수] is the column [설문1_count] and
    [평균 점수] the mean over the [_mean] columns. *)
Definition course_row (survey_cols : list string)
    (entry : string * string * list Row) : SizeRangeAnalyzer.CourseRow :=
  let qs := question_stats survey_cols entry.2 in
  {| SizeRangeAnalyzer.course_id := entry.1.1;
     SizeRangeAnalyzer.course_college := entry.1.2;
     SizeRangeAnalyzer.question_stats := qs;
     SizeRangeAnalyzer.responses :=
       Z.of_nat (default 0%nat
         (fst <$> (list_to_map qs : gmap string (nat * option Qc)) !! "설문1"));
     SizeRangeAnalyzer.average := Pandas.mean ((λ q, q.2.2) <$> qs) |}.

(** The column names of [course_stats]: after [reset_index()] every
    column label is a pair, the two key columns having an empty second
    part, and each pair is joined with an underscore; the two computed
    columns are added; [rename(columns={'course_id': '교과목명'})] then
    renames the column called [course_id], if there is one. *)
Definition flat_columns (survey_cols : list string) : list string :=
  ["course_id" +:+ "_" +:+ EmptyString; "개설단과대학" +:+ "_" +:+ EmptyString]
  ++ (survey_cols ≫= λ col, [col +:+ "_" +:+ "count"; col +:+ "_" +:+ "mean"])
  ++ ["응답자 수"; "평균 점수"].

Definition rename (old new col : string) : string :=
  if decide (col = old) then new else col.

(** [load_data] up to and including the [rename]: the frame stored in
    [self.data]. *)
Definition course_stats (df : Frame) : result SizeRangeAnalyzer.CourseFrame :=
  match validate (columns df) with
  | Some e => Raise e
  | None =>
      let survey_cols := survey_cols_of (columns df) in
      let groups :=
        merge_sort entry_le (map_to_list (Pandas.groupby group_key (rows df))) in
      if decide ("설문1" ∈ survey_cols) then
        Ok {| SizeRangeAnalyzer.frame_columns :=
                rename "course_id" "교과목명" <$> flat_columns survey_cols;
              SizeRangeAnalyzer.frame_rows := course_row survey_cols <$> groups |}
      else Raise (KeyError ("설문1" +:+ "_count"))
  end.

(** What a call of [load_data] leaves: the value returned, [self.data],
    and the exception caught and shown with [st.error], if any. *)
Record Outcome := mkOutcome {
  returned : bool;
  data : option SizeRangeAnalyzer.CourseFrame;
  caught : option exn
}.

(** [load_data(file)]: every exception raised in the body is caught, the
    error is shown and [False] is returned. *)
Definition load_data (df : Frame) : Outcome :=
  match course_stats df with
  | Raise e => {| returned := false; data := None; caught := Some e |}
  | Ok stats =>
      match SizeRangeAnalyzer.process_data stats with
      | SizeRangeAnalyzer.Ok _ =>
          {| returned := true; data := Some stats; caught := None |}
      | SizeRangeAnalyzer.Raise (SizeRangeAnalyzer.KeyError key) =>
          {| returned := false; data := Some stats; caught := Some (KeyError key) |}
      end
  end.

End SurveyDataAnalyzer.

(** ** Notions used in the statements, and example data *)

(** A list of ranges is contiguous from [lo] when the first range starts at
    [lo], each upper bound is the next lower bound, bounds increase, and the
    last range (only) has no upper bound. *)
Fixpoint contiguous_from (lo : Z) (rs : list SizeRange.SizeRange) : bool :=
  match rs with
  | [] => false
  | r :: rest =>
      (SizeRange.min_size r =? lo) &&
      match SizeRange.max_size r, rest with
      | None, [] => true
      | Some m, _ :: _ => (lo <? m) && contiguous_from m rest
      | _, _ => false
      end
  end.

(** The arithmetic mean of a list of numbers, undefined on the empty list. *)
Definition arith_mean (l : list Qc) : option Qc :=
  match l with
  | [] => None
  | _ => Some (foldr Qcplus 0%Qc l / Pandas.of_nat (length l))%Qc
  end.

(** The two responses of Scenario A. *)
Definition scenario_A : list Survey.Row :=
  let q (n : Z) : option Qc := Some (Q2Qc (inject_Z n)) in
  [ Survey.mkRow (Some "X") (Some "A") None [q 4; q 5; None; q 4; q 5; q 4; q 5];
    Survey.mkRow (Some "X") (Some "A") None [q 3; q 3; q 3; q 3; q 3; q 3; q 3] ].

(** The first response of Scenario A on its own. *)
Definition example_response : Survey.Row :=
  let q (n : Z) : option Qc := Some (Q2Qc (inject_Z n)) in
  Survey.mkRow (Some "X") (Some "A") None [q 4; q 5; None; q 4; q 5; q 4; q 5].

(** Two responses, the second with an empty college cell. *)
Definition data_missing_college : list Survey.Row :=
  let q (n : Z) : option Qc := Some (Q2Qc (inject_Z n)) in
  [ Survey.mkRow (Some "X") (Some "A") (Some "S") [q 4; q 4; q 4; q 4; q 4; q 4; q 4];
    Survey.mkRow (Some "Y") None (Some "S") [q 5; q 5; q 5; q 5; q 5; q 5; q 5] ].

(** A frame whose only response leaves every survey question unanswered. *)
Definition data_all_missing : list Survey.Row :=
  [ Survey.mkRow (Some "X") (Some "A") (Some "S")
      [None; None; None; None; None; None; None] ].

(** Three responses of college "A" answering question 1 with 1, 2 and 2. *)
Definition data_one_college : list Survey.Row :=
  let q (n : Z) : option Qc := Some (Q2Qc (inject_Z n)) in
  [ Survey.mkRow (Some "X") (Some "A") (Some "S") [q 1; q 1; q 1; q 1; q 1; q 1; q 1];
    Survey.mkRow (Some "X") (Some "A") (Some "S") [q 2; q 2; q 2; q 2; q 2; q 2; q 2];
    Survey.mkRow (Some "X") (Some "A") (Some "S") [q 2; q 2; q 2; q 2; q 2; q 2; q 2] ].

(** [needle] occurs in [hay]. *)
Definition occurs (needle hay : string) : Prop :=
  ∃ pre post, hay = pre +:+ needle +:+ post.

(** The rows of an upload that belong to the course [id] of the college
    [c] and hold an answer to question 1. *)
Definition answered_question_1 (df : SurveyDataAnalyzer.Frame) (id c : string)
    : list SurveyDataAnalyzer.Row :=
  filter (λ r, is_Some (SurveyDataAnalyzer.answer r "설문1") ∧
               SurveyDataAnalyzer.course_id r = Some id ∧
               SurveyDataAnalyzer.college r = Some c)
         (SurveyDataAnalyzer.rows df).

(** An upload with two courses; the only response of course "A" answers
    question 2 and leaves question 1 empty. *)
Definition example_upload : SurveyDataAnalyzer.Frame :=
  let q (n : Z) : option Qc := Some (Q2Qc (inject_Z n)) in
  let answers (q1 q2 : option Qc) (col : string) : option Qc :=
    if decide (col = "설문1") then q1
    else if decide (col = "설문2") then q2 else None in
  SurveyDataAnalyzer.mkFrame
    ["교과목명"; "강좌번호"; "개설단과대학"; "설문1"; "설문2"; "설문8"]
    [ SurveyDataAnalyzer.mkRow (Some "B") (Some "1") (Some "Eng") (answers (q 4) (q 5));
      SurveyDataAnalyzer.mkRow (Some "A") (Some "1") (Some "Eng") (answers None (q 5));
      SurveyDataAnalyzer.mkRow (Some "B") (Some "1") (Some "Eng") (answers (q 3) None) ].

Definition example_stats : SizeRangeAnalyzer.CourseFrame :=
  match SurveyDataAnalyzer.course_stats example_upload with
  | SurveyDataAnalyzer.Ok stats => stats
  | SurveyDataAnalyzer.Raise _ => SizeRangeAnalyzer.mkCourseFrame [] []
  end.

Definition example_course_A : SizeRangeAnalyzer.CourseRow :=
  default (SizeRangeAnalyzer.mkCourseRow EmptyString EmptyString [] 0 None)
    (head (SizeRangeAnalyzer.frame_rows example_stats)).

(** The row of course "B" of section 1 in that frame (the second one). *)
Definition example_course_B : SizeRangeAnalyzer.CourseRow :=
  default (SizeRangeAnalyzer.mkCourseRow EmptyString EmptyString [] 0 None)
    (SizeRangeAnalyzer.frame_rows example_stats !! 1%nat).

(** The thresholds of Scenario B as a list of size ranges: lower bound
    included, upper bound excluded, the last range unbounded. *)
Definition scenario_B : list SizeRange.SizeRange :=
  [ SizeRange.mkSizeRange 0 (Some 15) "Small" EmptyString;
    SizeRange.mkSizeRange 15 (Some 30) "Medium" EmptyString;
    SizeRange.mkSizeRange 30 (Some 75) "Large" EmptyString;
    SizeRange.mkSizeRange 75 None "Very Large" EmptyString ].

(** A course-level frame with four courses of ten to twenty responses. *)
Definition example_courses : SizeRangeAnalyzer.CourseFrame :=
  let q (n : Z) : option Qc := Some (Q2Qc (inject_Z n)) in
  let course id n score := SizeRangeAnalyzer.mkCourseRow id "Eng" [] n score in
  SizeRangeAnalyzer.mkCourseFrame
    ["교과목명"; "개설단과대학"; "응답자 수"; "평균 점수"]
    [ course "B" 12 (q 4); course "A" 12 (q 4); course "C" 15 (q 5);
      course "D" 11 (q 3) ].

(** The identifiers of the courses stored on a range, in order. *)
Definition listed (st : SizeRangeAnalyzer.RangeStats) : option (list string) :=
  (λ top : list SizeRangeAnalyzer.CourseRow, SizeRangeAnalyzer.course_id <$> top)
    <$> SizeRangeAnalyzer.data st.

(** The two responses of Scenario A as an upload of the dashboard (one
    course, section 1). *)
Definition scenario_A_upload : SurveyDataAnalyzer.Frame :=
  let questions := ["설문1"; "설문2"; "설문3"; "설문4"; "설문5"; "설문6"; "설문7"] in
  let answers (r : Survey.Row) (col : string) : option Qc :=
    mjoin ((list_to_map (zip questions (Survey.surveys r))
              : gmap string (option Qc)) !! col) in
  SurveyDataAnalyzer.mkFrame
    (["교과목명"; "강좌번호"; "개설단과대학"] ++ questions)
    ((λ r, SurveyDataAnalyzer.mkRow (Some "X") (Some "1") (Survey.College r)
             (answers r))
       <$> scenario_A).

(** Equality of two canonical rationals, by computation on the fractions. *)
Ltac qc_eq :=
  vm_compute;
  repeat match goal with
         | |- @eq Qc _ _ => apply Qc_is_canon; vm_compute; reflexivity
         | |- Some _ = Some _ => apply (f_equal Some)
         | |- _ :: _ = _ :: _ => apply (f_equal2 cons)
         | |- _ => reflexivity
         end.

(** An upload with one course of ten responses. *)
Definition example_ten_responses : SurveyDataAnalyzer.Frame :=
  let q (n : Z) : option Qc := Some (Q2Qc (inject_Z n)) in
  let answers (col : string) : option Qc :=
    if decide (col = "설문1") then q 4 else None in
  SurveyDataAnalyzer.mkFrame
    ["교과목명"; "강좌번호"; "개설단과대학"; "설문1"]
    (replicate 10
       (SurveyDataAnalyzer.mkRow (Some "B") (Some "1") (Some "Eng") answers)).

(** What [process_data] stores on a range when it raises nothing: the
    number of courses in the range, their share of all courses in percent,
    and the ten best of them (nothing for a range without courses). *)
Definition range_stats_of (df : SizeRangeAnalyzer.CourseFrame)
    (r : SizeRange.SizeRange) : SizeRangeAnalyzer.RangeStats :=
  let courses := SizeRangeAnalyzer.in_range r (SizeRangeAnalyzer.frame_rows df) in
  {| SizeRangeAnalyzer.count := length courses;
     SizeRangeAnalyzer.percentage :=
       if decide (0 < length (SizeRangeAnalyzer.frame_rows df))%nat
       then (Pandas.of_nat (length courses)
             / Pandas.of_nat (length (SizeRangeAnalyzer.frame_rows df))
             * Q2Qc 100)%Qc
       else 0%Qc;
     SizeRangeAnalyzer.data :=
       match courses with
       | [] => None
       | _ => Some (take 10 (SizeRangeAnalyzer.sort_values_desc courses))
       end |}.

(** * Part II: properties *)

(** ** Facts about the pandas operations *)

Lemma count_dropna (s : Pandas.column) :
  Pandas.count s = length (Pandas.dropna s).
Proof.
  unfold Pandas.count, Pandas.dropna.
  induction s as [|[x|] s IH]; [done|..].
  - rewrite filter_cons_True by done. cbn. by f_equal.
  - by rewrite filter_cons_False.
Qed.

Lemma count_app (s1 s2 : Pandas.column) :
  Pandas.count (s1 ++ s2) = (Pandas.count s1 + Pandas.count s2)%nat.
Proof. unfold Pandas.count. by rewrite filter_app, length_app. Qed.

Lemma nansum_dropna (s : Pandas.column) :
  Pandas.nansum s = foldr Qcplus 0%Qc (Pandas.dropna s).
Proof.
  unfold Pandas.nansum, Pandas.dropna.
  induction s as [|[x|] s IH]; cbn; [done|by rewrite IH|].
  rewrite IH. apply Qcplus_0_l.
Qed.

Lemma count_all_missing (s : Pandas.column) :
  Forall (λ x, x = None) s → Pandas.count s = 0%nat.
Proof.
  unfold Pandas.count. induction 1 as [|x s -> _ IH]; [done|].
  by rewrite filter_cons_False.
Qed.

Section groupby_facts.
Context {Row K : Type} `{Countable K}.
Variable by_key : Row → option K.

Lemma groupby_snoc (rows : list Row) (r : Row) :
  Pandas.groupby by_key (rows ++ [r])
  = Pandas.add_row by_key (Pandas.groupby by_key rows) r.
Proof. unfold Pandas.groupby. by rewrite foldl_snoc. Qed.

(** A group holds exactly the rows of the frame with its key, in order;
    a key without rows has no group. *)
Lemma groupby_lookup (rows : list Row) (k : K) :
  Pandas.groupby by_key rows !! k =
  match Pandas.rows_with by_key k rows with
  | [] => None
  | g => Some g
  end.
Proof.
  induction rows as [|r rows IH] using rev_ind; [done|].
  rewrite groupby_snoc. unfold Pandas.rows_with in *.
  rewrite filter_app, filter_cons, filter_nil.
  unfold Pandas.add_row. destruct (by_key r) as [k'|] eqn:Hr.
  - destruct (decide (k' = k)) as [->|Hne].
    + rewrite lookup_insert_eq, decide_True by done. rewrite IH.
      by destruct (filter _ rows).
    + rewrite lookup_insert_ne, decide_False by congruence.
      by rewrite app_nil_r.
  - rewrite decide_False by done. by rewrite app_nil_r.
Qed.

Lemma groupby_lookup_Some (rows : list Row) (k : K) (g : list Row) :
  Pandas.groupby by_key rows !! k = Some g →
  g = Pandas.rows_with by_key k rows ∧ g ≠ [].
Proof.
  rewrite groupby_lookup.
  destruct (Pandas.rows_with by_key k rows); [done|]. by intros [= <-].
Qed.
End groupby_facts.

(** ** Properties of the size classification *)

Lemma categorize_size_cases (count : Z) :
  (count <= 15 ∧ ClassSize.categorize_size count = "Small") ∨
  (15 < count <= 30 ∧ ClassSize.categorize_size count = "Medium") ∨
  (30 < count <= 75 ∧ ClassSize.categorize_size count = "Large") ∨
  (75 < count ∧ ClassSize.categorize_size count = "Very Large").
Proof.
  unfold ClassSize.categorize_size.
  destruct (Z.leb_spec count 15); [left; done|].
  destruct (Z.leb_spec count 30); [right; left; split; [lia|done]|].
  destruct (Z.leb_spec count 75); [right; right; left; split; [lia|done]|].
  right; right; right. split; [lia|done].
Qed.

Lemma searchsorted_left_bins (x : Z) :
  Pandas.searchsorted_left ClassSize.bins x =
  Nat.add (Nat.add (Nat.add (Nat.b2n (0 <? x)) (Nat.b2n (15 <? x)))
                   (Nat.b2n (30 <? x))) (Nat.b2n (75 <? x)).
Proof.
  unfold Pandas.searchsorted_left, ClassSize.bins.
  rewrite !filter_cons, filter_nil. simpl Pandas.edge_lt.
  destruct (0 <? x), (15 <? x), (30 <? x), (75 <? x); reflexivity.
Qed.

Lemma classify_size_cases (students : Z) :
  ClassSize.classify_size students =
  if 0 <? students then Some (ClassSize.categorize_size students) else None.
Proof.
  unfold ClassSize.classify_size, Pandas.cut, ClassSize.categorize_size.
  rewrite searchsorted_left_bins.
  destruct (Z.ltb_spec 0 students), (Z.ltb_spec 15 students),
    (Z.ltb_spec 30 students), (Z.ltb_spec 75 students); try lia;
    destruct (Z.leb_spec students 15), (Z.leb_spec students 30),
      (Z.leb_spec students 75); try lia; reflexivity.
Qed.

(** C1 (as stated, refuted): with the thresholds 15/30/75 of the scripts a
    count of exactly 15 is "Small", not "Medium" -- both in [categorize_size]
    and in the [pd.cut] binning of [classify_courses_by_size]. *)
Lemma boundary_15_is_small :
  ClassSize.categorize_size 15 = "Small" ∧
  ClassSize.classify_size 15 = Some "Small" ∧
  ClassSize.categorize_size 15 ≠ "Medium" ∧
  ClassSize.classify_size 15 ≠ Some "Medium".
Proof. repeat split; (reflexivity || discriminate). Qed.

(** C1 (amended): the buckets of [categorize_size] are upper-inclusive and
    lower-exclusive, the last one unbounded above: a count is "Small" exactly
    up to 15, "Medium" from 16 to 30, "Large" from 31 to 75 and "Very Large"
    above 75; so 14 and 15 are "Small", 16 is "Medium" and 1000 is
    "Very Large"; and the [pd.cut] binning gives the same label for every
    positive count.  (The size ranges of the dashboard, with their own
    bounds, are lower-inclusive and upper-exclusive.) *)
Theorem categorize_size_upper_inclusive :
  (∀ count : Z,
     (ClassSize.categorize_size count = "Small" ↔ count <= 15) ∧
     (ClassSize.categorize_size count = "Medium" ↔ 15 < count <= 30) ∧
     (ClassSize.categorize_size count = "Large" ↔ 30 < count <= 75) ∧
     (ClassSize.categorize_size count = "Very Large" ↔ 75 < count) ∧
     (0 < count ↔
        ClassSize.classify_size count = Some (ClassSize.categorize_size count))) ∧
  ClassSize.categorize_size 14 = "Small" ∧
  ClassSize.categorize_size 15 = "Small" ∧
  ClassSize.categorize_size 16 = "Medium" ∧
  ClassSize.categorize_size 1000 = "Very Large" ∧
  Forall (λ r, SizeRange.mask r (SizeRange.min_size r) = true ∧
               ∀ m, SizeRange.max_size r = Some m →
                    SizeRange.mask r (m - 1) = true ∧ SizeRange.mask r m = false)
    SizeRange.size_ranges.
Proof.
  split; [|split; [done|split; [done|split; [done|split; [done|]]]]].
  2: { unfold SizeRange.size_ranges.
       repeat (apply List.Forall_cons; [split; [done|by intros m [= <-]]|]).
       apply List.Forall_nil. }
  intros count. rewrite classify_size_cases.
  destruct (categorize_size_cases count) as [[H E]|[[H E]|[[H E]|[H E]]]];
    rewrite E; destruct (Z.ltb_spec 0 count);
    repeat split; intros; try lia; try discriminate; try done.
Qed.

Lemma ranges_of_below (lo : Z) (rs : list SizeRange.SizeRange) (n : Z) :
  contiguous_from lo rs = true → n < lo → SizeRange.ranges_of rs n = [].
Proof.
  revert lo. induction rs as [|r rest IH]; intros lo Hc Hn; [done|].
  simpl in Hc. apply andb_true_iff in Hc as [Hmin Hrest].
  apply Z.eqb_eq in Hmin.
  unfold SizeRange.ranges_of. rewrite filter_cons.
  assert (SizeRange.mask r n = false) as ->.
  { unfold SizeRange.mask. rewrite Hmin.
    destruct (Z.leb_spec lo n); [lia|done]. }
  rewrite decide_False by done.
  destruct (SizeRange.max_size r) as [m|], rest as [|r' rest']; try done.
  apply andb_true_iff in Hrest as [Hlt Hrest]. apply Z.ltb_lt in Hlt.
  apply (IH m Hrest). lia.
Qed.

Lemma ranges_of_contiguous (lo : Z) (rs : list SizeRange.SizeRange) (n : Z) :
  contiguous_from lo rs = true → lo <= n →
  ∃ r, SizeRange.ranges_of rs n = [r] ∧ r ∈ rs.
Proof.
  revert lo. induction rs as [|r rest IH]; intros lo Hc Hn; [done|].
  simpl in Hc. apply andb_true_iff in Hc as [Hmin Hrest].
  apply Z.eqb_eq in Hmin.
  unfold SizeRange.ranges_of. rewrite filter_cons.
  destruct (SizeRange.max_size r) as [m|] eqn:Hmax, rest as [|r' rest'];
    try done.
  - apply andb_true_iff in Hrest as [Hlt Hrest]. apply Z.ltb_lt in Hlt.
    destruct (Z.ltb_spec n m) as [Hnm|Hnm].
    + assert (SizeRange.mask r n = true) as ->.
      { unfold SizeRange.mask. rewrite Hmin, Hmax.
        apply andb_true_iff. split; [by apply Z.leb_le|by apply Z.ltb_lt]. }
      rewrite decide_True by done.
      exists r. split; [|by left].
      f_equal. exact (ranges_of_below m _ n Hrest Hnm).
    + assert (SizeRange.mask r n = false) as ->.
      { unfold SizeRange.mask. rewrite Hmax.
        apply andb_false_iff. right. by apply Z.ltb_ge. }
      rewrite decide_False by done.
      destruct (IH m Hrest Hnm) as (r0 & Hr0 & Hin).
      exists r0. split; [done|by right].
  - assert (SizeRange.mask r n = true) as ->.
    { unfold SizeRange.mask. rewrite Hmin, Hmax, andb_true_r. by apply Z.leb_le. }
    rewrite decide_True by done. exists r. split; [done|by left].
Qed.

(** The ranges of [SizeRangeAnalyzer] itself start at 10: they are
    contiguous from 10, not from 0, and a count below 10 is in none. *)
Example size_ranges_start_at_10 :
  contiguous_from 10 SizeRange.size_ranges = true ∧
  contiguous_from 0 SizeRange.size_ranges = false ∧
  SizeRange.ranges_of SizeRange.size_ranges 5 = [].
Proof. repeat split; reflexivity. Qed.



(** ** Column names there and back *)

Section dict_of_lookup.
Import ColumnMapper.

Lemma dict_of_snoc items k v :
  dict_of (items ++ [(k, v)]) = <[k := v]> (dict_of items).
Proof. unfold dict_of. by rewrite foldl_snoc. Qed.

Lemma dict_of_lookup_None items k :
  k ∉ items.*1 → dict_of items !! k = None.
Proof.
  induction items as [|[k' v'] items IH] using rev_ind; [done|].
  rewrite fmap_app, not_elem_of_app, dict_of_snoc. cbn.
  rewrite not_elem_of_cons. intros [Hitems [Hne _]].
  rewrite lookup_insert_ne by done. auto.
Qed.

Lemma dict_of_lookup_Some items k v :
  NoDup items.*1 → dict_of items !! k = Some v ↔ (k, v) ∈ items.
Proof.
  induction items as [|[k' v'] items IH] using rev_ind; intros Hnd.
  { split; [done|]. by intros ?%elem_of_nil. }
  rewrite fmap_app in Hnd. apply NoDup_app in Hnd as (Hnd & Hfresh & _).
  rewrite dict_of_snoc, lookup_insert_Some, elem_of_app, list_elem_of_singleton.
  rewrite (IH Hnd). split.
  - intros [[-> ->]|[_ Hin]]; auto.
  - intros [Hin|[= -> ->]]; [|by left].
    right. split; [|done]. intros ->.
    apply (Hfresh k); [|cbn; by left].
    apply list_elem_of_fmap. by exists (k, v).
Qed.
End dict_of_lookup.

Lemma kr_to_en_keys_distinct : NoDup ColumnMapper.kr_to_en_items.*1.
Proof. apply (bool_decide_unpack _). by vm_compute. Qed.

Lemma kr_to_en_values_distinct :
  NoDup ((λ kv : string * string, (kv.2, kv.1)) <$> ColumnMapper.kr_to_en_items).*1.
Proof. apply (bool_decide_unpack _). by vm_compute. Qed.

Lemma kr_to_en_en_to_kr (k v : string) :
  ColumnMapper.kr_to_en !! k = Some v ↔ ColumnMapper.en_to_kr !! v = Some k.
Proof.
  unfold ColumnMapper.kr_to_en, ColumnMapper.en_to_kr.
  rewrite (dict_of_lookup_Some _ _ _ kr_to_en_keys_distinct).
  rewrite (dict_of_lookup_Some _ _ _ kr_to_en_values_distinct).
  rewrite list_elem_of_fmap. split.
  - intros Hin. by exists (k, v).
  - intros ([k' v'] & [= -> ->] & Hin). done.
Qed.

Lemma get_en_to_kr_get_kr_to_en (col : string) :
  col ∈ dom ColumnMapper.kr_to_en →
  ColumnMapper.get ColumnMapper.en_to_kr
    (ColumnMapper.get ColumnMapper.kr_to_en col) = col.
Proof.
  intros [v Hv]%elem_of_dom. unfold ColumnMapper.get. rewrite Hv.
  change (default col (Some v)) with v.
  apply kr_to_en_en_to_kr in Hv. by rewrite Hv.
Qed.

Lemma get_kr_to_en_get_en_to_kr (col : string) :
  col ∈ dom ColumnMapper.en_to_kr →
  ColumnMapper.get ColumnMapper.kr_to_en
    (ColumnMapper.get ColumnMapper.en_to_kr col) = col.
Proof.
  intros [k Hk]%elem_of_dom. unfold ColumnMapper.get. rewrite Hk.
  change (default col (Some k)) with k.
  apply kr_to_en_en_to_kr in Hk. by rewrite Hk.
Qed.

(** C6: a list of names that are all keys of the table converts to the other
    naming scheme and back to itself (Korean to English to Korean for Korean
    names, English to Korean to English for English names; the same for a
    single name), and a name that is not a key of the table used is returned
    unchanged, in either direction and in both the single and the list
    form. *)
Theorem column_names_round_trip (l : list string) (col : string) :
  (Forall (λ c, c ∈ dom ColumnMapper.kr_to_en) l →
     ColumnMapper.to_korean (ColumnMapper.to_english (ColumnMapper.Names l))
     = ColumnMapper.Names l) ∧
  (Forall (λ c, c ∈ dom ColumnMapper.en_to_kr) l →
     ColumnMapper.to_english (ColumnMapper.to_korean (ColumnMapper.Names l))
     = ColumnMapper.Names l) ∧
  (col ∈ dom ColumnMapper.kr_to_en →
     ColumnMapper.to_korean (ColumnMapper.to_english (ColumnMapper.Name col))
     = ColumnMapper.Name col) ∧
  (col ∈ dom ColumnMapper.en_to_kr →
     ColumnMapper.to_english (ColumnMapper.to_korean (ColumnMapper.Name col))
     = ColumnMapper.Name col) ∧
  (col ∉ dom ColumnMapper.kr_to_en →
     ColumnMapper.to_english (ColumnMapper.Name col) = ColumnMapper.Name col ∧
     ColumnMapper.to_english (ColumnMapper.Names [col]) = ColumnMapper.Names [col]) ∧
  (col ∉ dom ColumnMapper.en_to_kr →
     ColumnMapper.to_korean (ColumnMapper.Name col) = ColumnMapper.Name col ∧
     ColumnMapper.to_korean (ColumnMapper.Names [col]) = ColumnMapper.Names [col]).
Proof.
  split; [|split; [|split; [|split; [|split]]]].
  - intros Hl. cbn. f_equal. rewrite <- list_fmap_compose.
    induction Hl as [|c l Hc _ IH]; [done|]. cbn.
    by rewrite get_en_to_kr_get_kr_to_en, IH.
  - intros Hl. cbn. f_equal. rewrite <- list_fmap_compose.
    induction Hl as [|c l Hc _ IH]; [done|]. cbn.
    by rewrite get_kr_to_en_get_en_to_kr, IH.
  - intros Hc. cbn. by rewrite get_en_to_kr_get_kr_to_en.
  - intros Hc. cbn. by rewrite get_kr_to_en_get_en_to_kr.
  - intros Hc. cbn. unfold ColumnMapper.get.
    by rewrite (not_elem_of_dom_1 _ _ Hc).
  - intros Hc. cbn. unfold ColumnMapper.get.
    by rewrite (not_elem_of_dom_1 _ _ Hc).
Qed.

Example column_names_round_trip_example :
  ColumnMapper.to_english (ColumnMapper.Names ["개설단과대학"; "설문3"; "강좌번호"])
  = ColumnMapper.Names ["college"; "q3"; "강좌번호"] ∧
  ColumnMapper.to_korean (ColumnMapper.Names ["college"; "q3"; "강좌번호"])
  = ColumnMapper.Names ["개설단과대학"; "설문3"; "강좌번호"].
Proof. split; by vm_compute. Qed.

(** ** The combined score *)

Lemma mean_arith_mean (s : Pandas.column) :
  Pandas.mean s = arith_mean (Pandas.dropna s).
Proof.
  unfold Pandas.mean, arith_mean.
  rewrite count_dropna, nansum_dropna.
  destruct (Pandas.dropna s); [done|]. by rewrite bool_decide_false.
Qed.

Lemma dropna_filter_notna (s : Pandas.column) :
  Pandas.dropna (filter (λ x, Pandas.notna x = true) s) = Pandas.dropna s.
Proof.
  unfold Pandas.dropna. induction s as [|[x|] s IH]; [done|..].
  - rewrite filter_cons_True by done. cbn. by f_equal.
  - by rewrite filter_cons_False.
Qed.

(** Rows whose cell is NaN do not take part in a reduction of the column. *)
Lemma values_without_missing (c : Survey.score_col) (rows : list Survey.Row) :
  Pandas.dropna
    (Survey.values c (filter (λ r, Pandas.notna (Survey.cell c r) = true) rows))
  = Pandas.dropna (Survey.values c rows).
Proof.
  unfold Survey.values, Pandas.dropna.
  induction rows as [|r rows IH]; [done|].
  rewrite filter_cons. case_decide as Hr.
  - cbn. destruct (Survey.cell c r); [by f_equal|done].
  - cbn. destruct (Survey.cell c r); [done|]. apply IH.
Qed.

(** The count of a column is the number of rows whose cell is present. *)
Lemma count_values (c : Survey.score_col) (rows : list Survey.Row) :
  Pandas.count (Survey.values c rows)
  = length (filter (λ r, Pandas.notna (Survey.cell c r) = true) rows).
Proof.
  unfold Pandas.count, Survey.values.
  induction rows as [|r rows IH]; [done|].
  rewrite fmap_cons, !filter_cons.
  destruct (decide (Pandas.notna (Survey.cell c r) = true)); cbn; by rewrite IH.
Qed.

(** C3: the combined score of a record is the arithmetic mean of its
    non-missing survey items, undefined when all seven are missing; records
    with an undefined combined score do not take part in the count and the
    mean of the combined score; on Scenario A, aggregating the combined score
    by college gives count 2 and mean 3.75 for college "A" (the two combined
    scores being 4.5 and 3). *)
Theorem combined_score_is_mean_of_answered_items
    (sqrt : Qc → Qc) (r : Survey.Row) (data : list Survey.Row) :
  Survey.SurveyCombined r = arith_mean (Pandas.dropna (Survey.items r)) ∧
  (Survey.SurveyCombined r = None ↔ Forall (λ x, x = None) (Survey.items r)) ∧
  (let answered :=
     filter (λ r, Pandas.notna (Survey.SurveyCombined r) = true) data in
   Pandas.count (Survey.values Survey.Combined data) = length answered ∧
   Pandas.mean (Survey.values Survey.Combined data)
   = Pandas.mean (Survey.values Survey.Combined answered)) ∧
  Survey.SurveyCombined <$> scenario_A
  = [Some (Q2Qc (9 # 2)); Some (Q2Qc (3 # 1))] ∧
  (let table :=
     SurveyScoreAnalyzer.calculate_survey_averages
       sqrt Survey.ByCollege Survey.Combined scenario_A in
   dom table = {["A"]} ∧
   SurveyScoreAnalyzer.agg_count <$> table !! "A" = Some 2%nat ∧
   SurveyScoreAnalyzer.agg_mean <$> table !! "A" = Some (Some (Q2Qc (15 # 4)))).
Proof.
  split; [apply mean_arith_mean|]. split; [|split; [|split]].
  - unfold Survey.SurveyCombined. rewrite mean_arith_mean.
    generalize (Survey.items r). intros s. split.
    + induction s as [|[x|] s IH]; cbn; [by constructor|done|].
      intros Hs. constructor; [done|]. by apply IH.
    + intros Hs. induction Hs as [|x s -> _ IH]; [done|]. exact IH.
  - cbn zeta. split.
    + apply (count_values Survey.Combined).
    + rewrite !mean_arith_mean. f_equal. symmetry.
      apply (values_without_missing Survey.Combined).
  - qc_eq.
  - cbn zeta. split; [|split].
    + apply (bool_decide_unpack _). by vm_compute.
    + by vm_compute.
    + qc_eq.
Qed.

(** ** Counts per group and in total *)

Section groupby_totals.
Context {Row K : Type} `{Countable K}.
Variable by_key : Row → option K.
(** An additive measure of a list of rows, such as the count of a column. *)
Variable weight : list Row → nat.
Hypothesis weight_app :
  ∀ l1 l2, weight (l1 ++ l2) = (weight l1 + weight l2)%nat.

Lemma weight_nil : weight [] = 0%nat.
Proof. pose proof (weight_app [] []) as Hw. cbn in Hw. lia. Qed.

(** Adding up the measure of every group gives the measure of the rows
    that have a key. *)
Lemma groupby_total (rows : list Row) :
  map_fold (λ _ g acc, weight g + acc)%nat 0%nat (Pandas.groupby by_key rows)
  = weight (filter (λ r, is_Some (by_key r)) rows).
Proof.
  induction rows as [|r rows IH] using rev_ind.
  { unfold Pandas.groupby. cbn. by rewrite map_fold_empty, weight_nil. }
  rewrite groupby_snoc, filter_app, weight_app, <- IH.
  rewrite filter_cons, filter_nil.
  unfold Pandas.add_row. destruct (by_key r) as [k|] eqn:Hr.
  - rewrite decide_True by done.
    destruct (Pandas.groupby by_key rows !! k) as [g|] eqn:Hk; cbn.
    + rewrite <- insert_delete_eq.
      rewrite map_fold_insert_L; [|intros; lia|apply lookup_delete_eq].
      rewrite (map_fold_delete_L _ _ k g (Pandas.groupby by_key rows));
        [|intros; lia|done].
      rewrite weight_app. lia.
    + rewrite map_fold_insert_L; [|intros; lia|done]. lia.
  - rewrite decide_False by (by intros [? ?]).
    rewrite weight_nil. lia.
Qed.
End groupby_totals.

Lemma survey_averages_lookup (sqrt : Qc → Qc) (column : Survey.group_col)
    (survey_col : Survey.score_col) (data : list Survey.Row) (k : string) :
  SurveyScoreAnalyzer.calculate_survey_averages sqrt column survey_col data !! k
  = match Pandas.rows_with (Survey.key_of column) k data with
    | [] => None
    | g => Some (SurveyScoreAnalyzer.agg sqrt (Survey.values survey_col g))
    end.
Proof.
  unfold SurveyScoreAnalyzer.calculate_survey_averages.
  rewrite lookup_fmap, groupby_lookup.
  by destruct (Pandas.rows_with _ k data).
Qed.

Lemma survey_averages_total (sqrt : Qc → Qc) (column : Survey.group_col)
    (survey_col : Survey.score_col) (data : list Survey.Row) :
  SurveyScoreAnalyzer.total_count
    (SurveyScoreAnalyzer.calculate_survey_averages sqrt column survey_col data)
  = Pandas.count
      (Survey.values survey_col
         (filter (λ r, is_Some (Survey.key_of column r)) data)).
Proof.
  unfold SurveyScoreAnalyzer.total_count,
    SurveyScoreAnalyzer.calculate_survey_averages.
  rewrite map_fold_fmap.
  apply (groupby_total (Survey.key_of column)
           (λ g, Pandas.count (Survey.values survey_col g))).
  intros l1 l2. unfold Survey.values. by rewrite fmap_app, count_app.
Qed.

(** C8 (as stated, refuted): a row whose college cell is empty (NaN) belongs
    to no group of [groupby('College')], so the per-group counts of
    [Survey1] add up to 1 while the ungrouped count of [Survey1] is 2. *)
Lemma group_counts_miss_rows_without_key :
  (∀ sqrt,
     SurveyScoreAnalyzer.total_count
       (SurveyScoreAnalyzer.calculate_survey_averages
          sqrt Survey.ByCollege (Survey.Survey 1) data_missing_college) = 1%nat) ∧
  Pandas.count (Survey.values (Survey.Survey 1) data_missing_college) = 2%nat.
Proof. split; [intros sqrt|]; by vm_compute. Qed.

(** C8 (amended): the count reported for a group is exactly the number of
    non-missing values of the field among the rows that carry the group's
    key; the per-group counts add up to the count of the field over the rows
    whose grouping key is present, which is the ungrouped count whenever no
    row lacks the key. *)
Theorem group_counts_add_up (sqrt : Qc → Qc) (column : Survey.group_col)
    (survey_col : Survey.score_col) (data : list Survey.Row) :
  let table :=
    SurveyScoreAnalyzer.calculate_survey_averages sqrt column survey_col data in
  (∀ k row, table !! k = Some row →
     SurveyScoreAnalyzer.agg_count row
     = length (filter (λ r, Pandas.notna (Survey.cell survey_col r) = true)
                 (Pandas.rows_with (Survey.key_of column) k data))) ∧
  SurveyScoreAnalyzer.total_count table
  = Pandas.count
      (Survey.values survey_col
         (filter (λ r, is_Some (Survey.key_of column r)) data)) ∧
  (Forall (λ r, is_Some (Survey.key_of column r)) data →
   SurveyScoreAnalyzer.total_count table
   = Pandas.count (Survey.values survey_col data)).
Proof.
  cbn zeta. split; [|split].
  - intros k row. rewrite survey_averages_lookup.
    destruct (Pandas.rows_with _ k data) as [|r g] eqn:Hg; [done|].
    intros [= <-]. apply (count_values survey_col (r :: g)).
  - apply survey_averages_total.
  - intros Hall. rewrite survey_averages_total. do 2 f_equal.
    induction Hall as [|r rows Hr _ IH]; [done|].
    rewrite filter_cons_True by done. by f_equal.
Qed.

(** ** Aggregation of a column without values *)

Lemma dropna_all_missing (s : Pandas.column) :
  Forall (λ x, x = None) s → Pandas.dropna s = [].
Proof. induction 1 as [|x s -> _ IH]; [done|]. exact IH. Qed.

(** The standard deviation is NaN below two values ([ddof=1]). *)
Lemma std_undefined_below_two (sqrt : Qc → Qc) (s : Pandas.column) :
  (Pandas.count s < 2)%nat → Pandas.std sqrt s = None.
Proof.
  intros Hs. unfold Pandas.std, Pandas.var.
  rewrite bool_decide_true by lia. done.
Qed.

(** The grouped aggregation of a column without values: count 0, mean and
    standard deviation NaN. *)
Lemma grouped_agg_all_missing (sqrt : Qc → Qc) (s : Pandas.column) :
  Forall (λ x, x = None) s →
  SurveyScoreAnalyzer.agg sqrt s = SurveyScoreAnalyzer.mkAggRow 0 None None.
Proof.
  intros Hs. unfold SurveyScoreAnalyzer.agg.
  rewrite (std_undefined_below_two sqrt s) by (rewrite count_all_missing; [lia|done]).
  unfold Pandas.mean. rewrite count_all_missing by done. done.
Qed.

Section distribution_facts.
Import SurveyStatisticsAnalyzer.
Variable sqrt : Qc → Qc.
Variable quantile : Qc → Pandas.column → option Qc.
Variable series_median series_skew series_kurtosis : Pandas.column → option Qc.
Variable sem : list Qc → option Qc.
Variable t_interval :
  Qc → Z → option Qc → option Qc → option (option Qc * option Qc).

Local Abbreviation distribution_statistics :=
  (distribution_statistics sqrt quantile series_median series_skew
     series_kurtosis sem t_interval).
Local Abbreviation calculate_distribution_statistics :=
  (calculate_distribution_statistics sqrt quantile series_median series_skew
     series_kurtosis sem t_interval).

Lemma mode_all_missing (s : Pandas.column) :
  Forall (λ x, x = None) s → mode s = [].
Proof. intros Hs. unfold mode. by rewrite (dropna_all_missing s Hs). Qed.

(** Without a value in the column, [.mode().iloc[0]] is out of bounds. *)
Lemma distribution_statistics_all_missing data col :
  Forall (λ x, x = None) (Survey.values col data) →
  distribution_statistics data col = Raise IndexError.
Proof.
  intros Hs. unfold SurveyStatisticsAnalyzer.distribution_statistics.
  by rewrite (mode_all_missing _ Hs).
Qed.

(** The loop starts with [Survey1]: without a value there, the call
    raises before anything else is computed. *)
Lemma calculate_distribution_statistics_raises data :
  Forall (λ x, x = None) (Survey.values (Survey.Survey 1) data) →
  calculate_distribution_statistics data = Raise IndexError.
Proof.
  intros Hs.
  unfold SurveyStatisticsAnalyzer.calculate_distribution_statistics.
  change analysis_cols
    with (Survey.Survey 1%nat
            :: (Survey.Survey <$> seq 2 6) ++ [Survey.Combined]).
  cbn [foldr]. by rewrite (distribution_statistics_all_missing _ _ Hs).
Qed.

End distribution_facts.

(** C4 (the code departs from it): on a frame whose survey columns hold no
    value, the grouped aggregation reports count 0 with mean and standard
    deviation NaN, but the ungrouped [calculate_distribution_statistics]
    raises [IndexError] (from [.mode().iloc[0]]) instead of reporting
    anything. *)
Theorem distribution_statistics_raise_without_values
    (sqrt : Qc → Qc) (quantile : Qc → Pandas.column → option Qc)
    (series_median series_skew series_kurtosis : Pandas.column → option Qc)
    (sem : list Qc → option Qc)
    (t_interval :
       Qc → Z → option Qc → option Qc → option (option Qc * option Qc)) :
  SurveyStatisticsAnalyzer.calculate_distribution_statistics
    sqrt quantile series_median series_skew series_kurtosis sem t_interval
    data_all_missing
  = SurveyStatisticsAnalyzer.Raise SurveyStatisticsAnalyzer.IndexError ∧
  SurveyScoreAnalyzer.calculate_survey_averages
    sqrt Survey.ByCollege (Survey.Survey 1) data_all_missing !! "A"
  = Some (SurveyScoreAnalyzer.mkAggRow 0 None None).
Proof.
  split.
  - apply calculate_distribution_statistics_raises. repeat constructor.
  - rewrite survey_averages_lookup.
    change (Pandas.rows_with _ "A" data_all_missing) with data_all_missing.
    unfold data_all_missing. f_equal.
Qed.

(** ** Grouped against ungrouped statistics *)

(** C9 (the code departs from it): the grouped aggregation of
    [calculate_comparative_statistics] asks [SeriesGroupBy.agg] for
    ['kurtosis'], which a grouped column does not have: the first table,
    and with it the whole call, raises [AttributeError] on every frame and
    whatever the numerical routines give, so no grouped statistics exist
    to be compared with the ungrouped ones; this holds for the three
    responses of [data_one_college], which form one group. *)
Theorem comparative_statistics_raise
    (sqrt : Qc → Qc) (quantile : Qc → Pandas.column → option Qc)
    (series_median series_skew : Pandas.column → option Qc)
    (data : list Survey.Row) :
  (∀ group_col survey_col,
     SurveyStatisticsAnalyzer.group_stats
       sqrt quantile series_median series_skew data group_col survey_col
     = SurveyStatisticsAnalyzer.Raise
         (SurveyStatisticsAnalyzer.AttributeError "kurtosis")) ∧
  SurveyStatisticsAnalyzer.calculate_comparative_statistics
    sqrt quantile series_median series_skew data
  = SurveyStatisticsAnalyzer.Raise
      (SurveyStatisticsAnalyzer.AttributeError "kurtosis") ∧
  SurveyStatisticsAnalyzer.calculate_comparative_statistics
    sqrt quantile series_median series_skew data_one_college
  = SurveyStatisticsAnalyzer.Raise
      (SurveyStatisticsAnalyzer.AttributeError "kurtosis") ∧
  Pandas.rows_with (Survey.key_of Survey.ByCollege) "A" data_one_college
  = data_one_college.
Proof.
  assert (∀ data' group_col survey_col,
     SurveyStatisticsAnalyzer.group_stats
       sqrt quantile series_median series_skew data' group_col survey_col
     = SurveyStatisticsAnalyzer.Raise
         (SurveyStatisticsAnalyzer.AttributeError "kurtosis")) as Htable
    by reflexivity.
  assert (∀ data',
    SurveyStatisticsAnalyzer.calculate_comparative_statistics
      sqrt quantile series_median series_skew data'
    = SurveyStatisticsAnalyzer.Raise
        (SurveyStatisticsAnalyzer.AttributeError "kurtosis")) as Hcall.
  { intros data'. unfold SurveyStatisticsAnalyzer.calculate_comparative_statistics.
    cbn [mbind list_bind fmap list_fmap SurveyStatisticsAnalyzer.analysis_cols
         Survey.survey_cols seq app mapM fst snd].
    by rewrite Htable. }
  split; [apply Htable|]. split; [apply Hcall|]. split; [apply Hcall|].
  reflexivity.
Qed.

(** ** What an error message names *)

Lemma string_app_assoc (s1 s2 s3 : string) :
  s1 +:+ s2 +:+ s3 = (s1 +:+ s2) +:+ s3.
Proof.
  induction s1 as [|a s1 IH]; [reflexivity|].
  change (String a (s1 +:+ s2 +:+ s3) = String a ((s1 +:+ s2) +:+ s3)).
  by rewrite IH.
Qed.

Lemma string_app_nil_r (s : string) : s +:+ EmptyString = s.
Proof.
  induction s as [|a s IH]; [reflexivity|].
  change (String a (s +:+ EmptyString) = String a s). by rewrite IH.
Qed.

Lemma occurs_refl (s : string) : occurs s s.
Proof. exists EmptyString, EmptyString. by rewrite string_app_nil_r. Qed.

Lemma occurs_app_l (needle hay tail : string) :
  occurs needle hay → occurs needle (hay +:+ tail).
Proof.
  intros (pre & post & ->). exists pre, (post +:+ tail).
  by rewrite <- !string_app_assoc.
Qed.

Lemma occurs_app_r (needle head hay : string) :
  occurs needle hay → occurs needle (head +:+ hay).
Proof.
  intros (pre & post & ->). exists (head +:+ pre), post.
  by rewrite <- !string_app_assoc.
Qed.

Lemma occurs_concat (sep c : string) (l : list string) :
  c ∈ l → occurs c (String.concat sep l).
Proof.
  induction l as [|x l IH]; [by intros ?%elem_of_nil|].
  intros [->|Hin]%elem_of_cons.
  - destruct l; [apply occurs_refl|]. cbn. apply occurs_app_l, occurs_refl.
  - destruct l as [|y l]; [by apply elem_of_nil in Hin|].
    change (occurs c (x +:+ sep +:+ String.concat sep (y :: l))).
    by apply occurs_app_r, occurs_app_r, IH.
Qed.

(** The printed list shows every one of its names, quoted. *)
Lemma repr_list_names (c : string) (l : list string) :
  c ∈ l → occurs (repr_str c) (repr_list l).
Proof.
  intros Hin. unfold repr_list.
  apply occurs_app_r, occurs_app_l, occurs_concat.
  apply list_elem_of_fmap. by exists c.
Qed.

Lemma missing_from_spec (columns required : list string) (c : string) :
  c ∈ missing_from columns required ↔ c ∈ required ∧ c ∉ columns.
Proof. unfold missing_from. rewrite list_elem_of_filter. tauto. Qed.

Lemma missing_from_nil (columns required : list string) :
  missing_from columns required = [] ↔ ∀ c, c ∈ required → c ∈ columns.
Proof.
  split.
  - intros Hnil c Hc. destruct (decide (c ∈ columns)) as [|Hn]; [done|].
    assert (c ∈ missing_from columns required) as Hin
      by by apply missing_from_spec.
    rewrite Hnil in Hin. by apply elem_of_nil in Hin.
  - intros Hall. destruct (missing_from columns required) as [|c l] eqn:Hm; [done|].
    assert (c ∈ missing_from columns required) as [Hc Hn]%missing_from_spec
      by (rewrite Hm; by left).
    destruct Hn. by apply Hall.
Qed.

(** C5 (as stated, refuted): a header with the three required columns of
    the dashboard but without any survey column makes [load_data] fail with
    a fixed message that names no column (the same whether or not the
    excluded question 8 is there); and [load_data] does not raise: for a
    header without the college column it catches the error and returns
    [False]. *)
Lemma no_survey_columns_message_is_fixed :
  SurveyDataAnalyzer.validate ["교과목명"; "강좌번호"; "개설단과대학"]
  = Some (SurveyDataAnalyzer.ValueError "No survey questions found in the data") ∧
  SurveyDataAnalyzer.validate ["교과목명"; "강좌번호"; "개설단과대학"; "설문8"]
  = Some (SurveyDataAnalyzer.ValueError "No survey questions found in the data") ∧
  SurveyDataAnalyzer.load_data
    (SurveyDataAnalyzer.mkFrame ["교과목명"; "강좌번호"; "설문1"] [])
  = SurveyDataAnalyzer.mkOutcome false None
      (Some (SurveyDataAnalyzer.ValueError
               "Missing required columns: ['개설단과대학']")).
Proof. repeat split; by vm_compute. Qed.

(** C5 (amended): when the header lacks a required column,
    [MetricsCalculator.__init__] raises [ValueError] and the message shows
    every missing required column (so a file without the college column
    raises an error naming 'College'); [SurveyDataAnalyzer.load_data] raises
    the same error inside when one of its three required columns is missing,
    naming each missing one, and an error with the fixed text
    "No survey questions found in the data" when they are there but no
    survey column is; it catches the error, keeps it for display and returns
    [False]. *)
Theorem missing_columns_are_reported (data_file : string) (columns : list string) :
  ((∃ c, c ∈ MetricsCalculator.required_columns ∧ c ∉ columns) →
   ∃ msg,
     MetricsCalculator.init data_file (Some columns)
     = Some (MetricsCalculator.ValueError msg) ∧
     ∀ c, c ∈ MetricsCalculator.required_columns → c ∉ columns →
          occurs (repr_str c) msg) ∧
  ((∃ c, c ∈ SurveyDataAnalyzer.required_cols ∧ c ∉ columns) →
   ∃ msg,
     SurveyDataAnalyzer.validate columns = Some (SurveyDataAnalyzer.ValueError msg) ∧
     ∀ c, c ∈ SurveyDataAnalyzer.required_cols → c ∉ columns →
          occurs (repr_str c) msg) ∧
  ((∀ c, c ∈ SurveyDataAnalyzer.required_cols → c ∈ columns) →
   SurveyDataAnalyzer.survey_cols_of columns = [] →
   SurveyDataAnalyzer.validate columns
   = Some (SurveyDataAnalyzer.ValueError "No survey questions found in the data")) ∧
  (∀ rows e,
     SurveyDataAnalyzer.validate columns = Some e →
     SurveyDataAnalyzer.load_data (SurveyDataAnalyzer.mkFrame columns rows)
     = SurveyDataAnalyzer.mkOutcome false None (Some e)) ∧
  ("College" ∉ columns →
   ∃ msg,
     MetricsCalculator.init data_file (Some columns)
     = Some (MetricsCalculator.ValueError msg) ∧ occurs "'College'" msg) ∧
  ("개설단과대학" ∉ columns →
   ∃ msg,
     SurveyDataAnalyzer.validate columns = Some (SurveyDataAnalyzer.ValueError msg) ∧
     occurs "'개설단과대학'" msg).
Proof.
  assert (∀ required : list string,
    (∃ c, c ∈ required ∧ c ∉ columns) →
    missing_from columns required ≠ [] ∧
    ∀ c, c ∈ required → c ∉ columns →
      occurs (repr_str c)
        ("Missing required columns: " +:+ repr_list (missing_from columns required)))
    as Hnames.
  { intros required (c & Hc & Hn). split.
    - rewrite missing_from_nil. intros Hall. destruct Hn. by apply Hall.
    - intros c' Hc' Hn'. apply occurs_app_r, repr_list_names.
      by apply missing_from_spec. }
  assert (∀ c, c ∈ MetricsCalculator.required_columns → c ∉ columns →
    ∃ msg, MetricsCalculator.init data_file (Some columns)
           = Some (MetricsCalculator.ValueError msg) ∧
           ∀ c, c ∈ MetricsCalculator.required_columns → c ∉ columns →
                occurs (repr_str c) msg) as Hinit.
  { intros c Hc Hn. destruct (Hnames _ (ex_intro _ c (conj Hc Hn))) as [Hne Hocc].
    eexists. split; [|exact Hocc].
    unfold MetricsCalculator.init. by rewrite decide_False. }
  assert (∀ c, c ∈ SurveyDataAnalyzer.required_cols → c ∉ columns →
    ∃ msg, SurveyDataAnalyzer.validate columns
           = Some (SurveyDataAnalyzer.ValueError msg) ∧
           ∀ c, c ∈ SurveyDataAnalyzer.required_cols → c ∉ columns →
                occurs (repr_str c) msg) as Hval.
  { intros c Hc Hn. destruct (Hnames _ (ex_intro _ c (conj Hc Hn))) as [Hne Hocc].
    eexists. split; [|exact Hocc].
    unfold SurveyDataAnalyzer.validate. by rewrite decide_False. }
  split; [|split; [|split; [|split; [|split]]]].
  - intros (c & Hc & Hn). eauto.
  - intros (c & Hc & Hn). eauto.
  - intros Hall Hnone. unfold SurveyDataAnalyzer.validate.
    rewrite decide_True by by apply missing_from_nil.
    by rewrite decide_True.
  - intros rows e He. unfold SurveyDataAnalyzer.load_data,
      SurveyDataAnalyzer.course_stats. cbn. by rewrite He.
  - intros Hn.
    assert ("College" ∈ MetricsCalculator.required_columns) as Hc
      by (unfold MetricsCalculator.required_columns; cbn; repeat constructor).
    destruct (Hinit _ Hc Hn) as (msg & Hmsg & Hocc).
    exists msg. split; [done|]. by apply (Hocc "College").
  - intros Hn.
    assert ("개설단과대학" ∈ SurveyDataAnalyzer.required_cols) as Hc
      by (unfold SurveyDataAnalyzer.required_cols; repeat constructor).
    destruct (Hval _ Hc Hn) as (msg & Hmsg & Hocc).
    exists msg. split; [done|]. by apply (Hocc "개설단과대학").
Qed.

(** ** The response count of a course *)

Lemma count_fmap_is_Some {A : Type} (f : A → option Qc) (l : list A) :
  Pandas.count (f <$> l) = length (filter (λ r, is_Some (f r)) l).
Proof.
  unfold Pandas.count. induction l as [|r l IH]; [done|].
  rewrite fmap_cons, !filter_cons. destruct (f r) as [x|] eqn:Hr.
  - rewrite decide_True by done. rewrite decide_True by done. cbn. by rewrite IH.
  - rewrite decide_False by done.
    rewrite decide_False by (by intros [? ?]). exact IH.
Qed.

Lemma question_stats_lookup (survey_cols : list string)
    (g : list SurveyDataAnalyzer.Row) (col : string) :
  col ∈ survey_cols →
  (list_to_map (SurveyDataAnalyzer.question_stats survey_cols g)
     : gmap string (nat * option Qc)) !! col
  = Some (Pandas.count ((λ r, SurveyDataAnalyzer.answer r col) <$> g),
          Pandas.mean ((λ r, SurveyDataAnalyzer.answer r col) <$> g)).
Proof.
  intros Hcol. apply elem_of_list_to_map_1'.
  - intros y (c & [= <- <-] & _)%list_elem_of_fmap. done.
  - apply list_elem_of_fmap. by exists col.
Qed.

(** The keys of the groups are the keys the rows carry. *)
Lemma groupby_keys {Row K : Type} `{Countable K} (by_key : Row → option K)
    (rows : list Row) (k : K) :
  is_Some (Pandas.groupby by_key rows !! k) ↔ k ∈ omap id (by_key <$> rows).
Proof.
  rewrite groupby_lookup, list_elem_of_omap.
  split.
  - destruct (Pandas.rows_with by_key k rows) as [|r g] eqn:Hg; [by intros [? ?]|].
    intros _.
    assert (r ∈ Pandas.rows_with by_key k rows) as [Hr Hin]%list_elem_of_filter
      by (rewrite Hg; by left).
    exists (Some k). split; [|done]. apply list_elem_of_fmap. by exists r.
  - intros (x & (r & -> & Hin)%list_elem_of_fmap & Hr). cbn in Hr.
    assert (r ∈ Pandas.rows_with by_key k rows) as Hrk
      by by apply list_elem_of_filter.
    destruct (Pandas.rows_with by_key k rows); [by apply elem_of_nil in Hrk|done].
Qed.

Lemma group_key_Some (r : SurveyDataAnalyzer.Row) (id c : string) :
  SurveyDataAnalyzer.group_key r = Some (id, c)
  ↔ SurveyDataAnalyzer.course_id r = Some id ∧
    SurveyDataAnalyzer.college r = Some c.
Proof.
  unfold SurveyDataAnalyzer.group_key.
  destruct (SurveyDataAnalyzer.course_id r) as [id'|],
    (SurveyDataAnalyzer.college r) as [c'|]; cbn; split;
    try done; try (by intros [? ?]).
  - by intros [= <- <-].
  - by intros [[= <-] [= <-]].
Qed.

(** The rows of [course_stats] are the groups of the file, one each. *)
Lemma course_stats_rows (df : SurveyDataAnalyzer.Frame)
    (stats : SizeRangeAnalyzer.CourseFrame) (row : SizeRangeAnalyzer.CourseRow) :
  SurveyDataAnalyzer.course_stats df = SurveyDataAnalyzer.Ok stats →
  row ∈ SizeRangeAnalyzer.frame_rows stats →
  "설문1" ∈ SurveyDataAnalyzer.survey_cols_of (SurveyDataAnalyzer.columns df) ∧
  ∃ id c,
    row = SurveyDataAnalyzer.course_row
            (SurveyDataAnalyzer.survey_cols_of (SurveyDataAnalyzer.columns df))
            (id, c,
             Pandas.rows_with SurveyDataAnalyzer.group_key (id, c)
               (SurveyDataAnalyzer.rows df)).
Proof.
  unfold SurveyDataAnalyzer.course_stats.
  destruct (SurveyDataAnalyzer.validate _); [done|].
  case_decide as Hq1; [|done]. intros [= <-]. cbn.
  intros ([[id c] g] & -> & Hin)%list_elem_of_fmap.
  rewrite merge_sort_Permutation in Hin.
  apply elem_of_map_to_list in Hin.
  apply groupby_lookup_Some in Hin as [-> _].
  split; [done|]. by exists id, c.
Qed.

(** The response count of a row of the frame is the number of rows of its
    course whose answer to question 1 is present. *)
Lemma course_stats_responses (df : SurveyDataAnalyzer.Frame)
    (stats : SizeRangeAnalyzer.CourseFrame) (row : SizeRangeAnalyzer.CourseRow) :
  SurveyDataAnalyzer.course_stats df = SurveyDataAnalyzer.Ok stats →
  row ∈ SizeRangeAnalyzer.frame_rows stats →
  SizeRangeAnalyzer.responses row
  = Z.of_nat
      (length
         (filter
            (λ r, is_Some (SurveyDataAnalyzer.answer r "설문1") ∧
                  SurveyDataAnalyzer.course_id r
                  = Some (SizeRangeAnalyzer.course_id row) ∧
                  SurveyDataAnalyzer.college r
                  = Some (SizeRangeAnalyzer.course_college row))
            (SurveyDataAnalyzer.rows df))).
Proof.
  intros Hstats Hrow.
  destruct (course_stats_rows df stats row Hstats Hrow) as (Hq1 & id & c & ->).
  cbn. rewrite (question_stats_lookup _ _ _ Hq1). cbn.
  rewrite count_fmap_is_Some. unfold Pandas.rows_with.
  rewrite list_filter_filter. do 2 f_equal.
  apply list_filter_iff. intros r. by rewrite group_key_Some.
Qed.

(** The frame has one row per pair of a course identifier and a college
    carried by a row of the upload, and no other row. *)
Lemma course_stats_keys (df : SurveyDataAnalyzer.Frame)
    (stats : SizeRangeAnalyzer.CourseFrame) :
  SurveyDataAnalyzer.course_stats df = SurveyDataAnalyzer.Ok stats →
  let keys :=
    (λ c, (SizeRangeAnalyzer.course_id c, SizeRangeAnalyzer.course_college c))
      <$> SizeRangeAnalyzer.frame_rows stats in
  NoDup keys ∧
  ∀ id c,
    (id, c) ∈ keys
    ↔ ∃ r, r ∈ SurveyDataAnalyzer.rows df ∧
           SurveyDataAnalyzer.course_id r = Some id ∧
           SurveyDataAnalyzer.college r = Some c.
Proof.
  unfold SurveyDataAnalyzer.course_stats.
  destruct (SurveyDataAnalyzer.validate _); [done|].
  case_decide as Hq1; [|done]. intros [= <-].
  cbn [SizeRangeAnalyzer.frame_rows]. cbn zeta.
  set (groups := Pandas.groupby SurveyDataAnalyzer.group_key
                   (SurveyDataAnalyzer.rows df)).
  set (sorted := merge_sort _ _).
  assert ((λ c, (SizeRangeAnalyzer.course_id c, SizeRangeAnalyzer.course_college c))
            <$> (SurveyDataAnalyzer.course_row
                   (SurveyDataAnalyzer.survey_cols_of (SurveyDataAnalyzer.columns df))
                   <$> sorted)
          = fst <$> sorted) as ->.
  { rewrite <- list_fmap_compose. apply list_fmap_ext.
    intros i [[id c] g] _. reflexivity. }
  unfold sorted. split.
  - rewrite merge_sort_Permutation. apply NoDup_fst_map_to_list.
  - intros id c. rewrite merge_sort_Permutation. split.
    + intros ([k g] & [= <-] & Hin%elem_of_map_to_list)%list_elem_of_fmap.
      assert (is_Some (groups !! (id, c))) as Hsome by by exists g.
      apply groupby_keys, list_elem_of_omap in Hsome
        as (x & (r & -> & Hr)%list_elem_of_fmap & Hk).
      exists r. split; [done|]. by apply group_key_Some.
    + intros (r & Hr & Hkey%group_key_Some).
      assert (is_Some (groups !! (id, c))) as [g Hg].
      { apply groupby_keys, list_elem_of_omap.
        exists (Some (id, c)). split; [|done].
        apply list_elem_of_fmap. by exists r. }
      apply list_elem_of_fmap. exists (id, c, g).
      split; [done|by apply elem_of_map_to_list].
Qed.

Lemma NoDup_fmap_eq {A B : Type} (f : A → B) (l : list A) (x y : A) :
  NoDup (f <$> l) → x ∈ l → y ∈ l → f x = f y → x = y.
Proof.
  induction l as [|a l IH]; [by intros _ ?%elem_of_nil|].
  rewrite fmap_cons, NoDup_cons. intros [Ha Hl].
  intros [->|Hx]%elem_of_cons [->|Hy]%elem_of_cons Hxy; [done| | |by apply IH].
  - destruct Ha. rewrite Hxy. apply list_elem_of_fmap. by exists y.
  - destruct Ha. rewrite <- Hxy. apply list_elem_of_fmap. by exists x.
Qed.

(** C10: in the frame [load_data] builds, every course of the upload (a
    course identifier with its college, carried by some row) has exactly one
    row, every row of the frame is that of a course of the upload, and the
    response count ([응답자 수]) of the row is the number of rows of that
    course whose answer to survey question 1 is present; the answers to the
    other questions play no part in it. *)
Theorem response_count_counts_question_1 (df : SurveyDataAnalyzer.Frame)
    (stats : SizeRangeAnalyzer.CourseFrame) :
  SurveyDataAnalyzer.course_stats df = SurveyDataAnalyzer.Ok stats →
  (∀ row, row ∈ SizeRangeAnalyzer.frame_rows stats →
     SizeRangeAnalyzer.responses row
     = Z.of_nat
         (length (answered_question_1 df (SizeRangeAnalyzer.course_id row)
                    (SizeRangeAnalyzer.course_college row))) ∧
     ∃ r, r ∈ SurveyDataAnalyzer.rows df ∧
          SurveyDataAnalyzer.course_id r = Some (SizeRangeAnalyzer.course_id row) ∧
          SurveyDataAnalyzer.college r
          = Some (SizeRangeAnalyzer.course_college row)) ∧
  (∀ r id c,
     r ∈ SurveyDataAnalyzer.rows df →
     SurveyDataAnalyzer.course_id r = Some id →
     SurveyDataAnalyzer.college r = Some c →
     ∃ row, row ∈ SizeRangeAnalyzer.frame_rows stats ∧
            SizeRangeAnalyzer.course_id row = id ∧
            SizeRangeAnalyzer.course_college row = c ∧
            SizeRangeAnalyzer.responses row
            = Z.of_nat (length (answered_question_1 df id c)) ∧
            ∀ row', row' ∈ SizeRangeAnalyzer.frame_rows stats →
                    SizeRangeAnalyzer.course_id row' = id →
                    SizeRangeAnalyzer.course_college row' = c →
                    row' = row).
Proof.
  intros Hstats.
  destruct (course_stats_keys df stats Hstats) as [Hnodup Hkeys].
  split.
  - intros row Hrow. split; [by apply (course_stats_responses df stats)|].
    apply Hkeys. apply list_elem_of_fmap. by exists row.
  - intros r id c Hr Hid Hc.
    assert ((id, c)
            ∈ (λ c, (SizeRangeAnalyzer.course_id c,
                     SizeRangeAnalyzer.course_college c))
                <$> SizeRangeAnalyzer.frame_rows stats)
      as (row & [= -> ->] & Hrow)%list_elem_of_fmap
      by (apply Hkeys; by exists r).
    exists row. split; [done|]. split; [done|]. split; [done|].
    split; [by apply (course_stats_responses df stats)|].
    intros row' Hrow' Hid' Hc'.
    apply (NoDup_fmap_eq _ _ _ _ Hnodup Hrow' Hrow). by rewrite Hid', Hc'.
Qed.

Lemma response_count_example :
  SurveyDataAnalyzer.course_stats example_upload
  = SurveyDataAnalyzer.Ok example_stats ∧
  example_course_B ∈ SizeRangeAnalyzer.frame_rows example_stats ∧
  SizeRangeAnalyzer.course_id example_course_B = "B (1)" ∧
  length (answered_question_1 example_upload "B (1)" "Eng") = 2%nat ∧
  SizeRangeAnalyzer.responses example_course_B
  = Z.of_nat (length (answered_question_1 example_upload "B (1)" "Eng")).
Proof.
  assert (SurveyDataAnalyzer.course_stats example_upload
          = SurveyDataAnalyzer.Ok example_stats) as Hstats by (by vm_compute).
  assert (example_course_B ∈ SizeRangeAnalyzer.frame_rows example_stats) as Hrow
    by (vm_compute; repeat constructor).
  split; [exact Hstats|]. split; [exact Hrow|].
  split; [by vm_compute|]. split; [by vm_compute|].
  exact (proj1 (proj1 (response_count_counts_question_1
                         example_upload example_stats Hstats)
                  example_course_B Hrow)).
Defined.

(** In the example, course "A" has one response and a response count of 0. *)
Example response_count_ignores_other_questions :
  SizeRangeAnalyzer.course_id example_course_A = "A (1)" ∧
  SizeRangeAnalyzer.responses example_course_A = 0 ∧
  (fst ∘ snd) <$> SizeRangeAnalyzer.question_stats example_course_A
  = [0%nat; 1%nat].
Proof. repeat split; by vm_compute. Qed.

(** ** The top courses of a size range *)

Section sort_values_facts.
Import SizeRangeAnalyzer.

Lemma score_ge_total (a b : option Qc) : score_ge a b ∨ score_ge b a.
Proof.
  destruct a as [x|], b as [y|]; cbn; auto.
  destruct (total Qcle y x); auto.
Qed.

Lemma score_ge_trans (a b c : option Qc) :
  score_ge a b → score_ge b c → score_ge a c.
Proof.
  destruct a as [x|], b as [y|], c as [z|]; cbn; try done.
  intros Hyx Hzy. by apply (Qcle_trans z y x).
Qed.

#[local] Instance before_total : Total before.
Proof. intros a b. apply score_ge_total. Qed.

#[local] Instance before_trans : Transitive before.
Proof. intros a b c. apply score_ge_trans. Qed.

Lemma insert_desc_Permutation (r : CourseRow) (l : list CourseRow) :
  insert_desc r l ≡ₚ r :: l.
Proof.
  induction l as [|y l IH]; [done|]. cbn. case_decide; [done|].
  by rewrite IH, Permutation_swap.
Qed.

Lemma sort_values_desc_Permutation (l : list CourseRow) :
  sort_values_desc l ≡ₚ l.
Proof.
  unfold sort_values_desc. induction l as [|r l IH]; [done|].
  cbn. by rewrite insert_desc_Permutation, IH.
Qed.

Lemma insert_desc_HdRel (x r : CourseRow) (l : list CourseRow) :
  before x r → HdRel before x l → HdRel before x (insert_desc r l).
Proof.
  intros Hxr Hxl. destruct Hxl as [|y l Hxy]; cbn; [by constructor|].
  case_decide; by constructor.
Qed.

Lemma insert_desc_Sorted (r : CourseRow) (l : list CourseRow) :
  Sorted before l → Sorted before (insert_desc r l).
Proof.
  induction 1 as [|y l Hl IH Hhd]; cbn; [by repeat constructor|].
  case_decide as Hry.
  - constructor; [by constructor|by constructor].
  - apply total_not in Hry. constructor; [done|].
    by apply insert_desc_HdRel.
Qed.

Lemma sort_values_desc_Sorted (l : list CourseRow) :
  StronglySorted before (sort_values_desc l).
Proof.
  apply Sorted_StronglySorted; [apply _|].
  unfold sort_values_desc. induction l as [|r l IH]; [constructor|].
  cbn. by apply insert_desc_Sorted.
Qed.

(** The first ten rows of the sorted frame: a descending list of at most ten
    courses, none of which scores below a course left out. *)
Lemma top_ten_spec (courses : list CourseRow) :
  let top := take 10 (sort_values_desc courses) in
  let rest := drop 10 (sort_values_desc courses) in
  length top = (10 `min` length courses)%nat ∧
  StronglySorted before top ∧
  top ++ rest ≡ₚ courses ∧
  (∀ t c, t ∈ top → c ∈ rest → before t c).
Proof.
  cbn zeta.
  pose proof (sort_values_desc_Sorted courses) as Hsorted.
  rewrite <- (take_drop 10 (sort_values_desc courses)) in Hsorted.
  apply StronglySorted_app in Hsorted as (Hcross & Htop & _).
  split; [|split; [done|split; [|done]]].
  - by rewrite length_take, (Permutation_length (sort_values_desc_Permutation _)).
  - by rewrite take_drop, sort_values_desc_Permutation.
Qed.

Lemma getitem_ok (df : CourseFrame) (col : string) :
  col ∈ frame_columns df → getitem df col = Ok ().
Proof. intros Hcol. unfold getitem. by rewrite decide_True. Qed.

Lemma getitem_list_ok (df : CourseFrame) (cols : list string) :
  Forall (λ c, c ∈ frame_columns df) cols → getitem_list df cols = Ok ().
Proof.
  intros Hcols. unfold getitem_list. cbn zeta.
  rewrite decide_True; [done|].
  destruct (filter _ cols) as [|c l] eqn:Hf; [done|].
  assert (c ∈ filter (λ c, c ∉ frame_columns df) cols) as [Hn Hin]%list_elem_of_filter
    by (rewrite Hf; by left).
  rewrite Forall_forall in Hcols. destruct Hn. by apply Hcols.
Qed.

End sort_values_facts.

(** C7 (as stated, refuted): the listing takes no [n] (it is the top ten):
    a range with four courses lists four, more than a requested [n] of 3;
    two courses with the same score come out in the order of the frame
    ("B" before "A"), not by ascending identifier; and a range without
    courses stores no list at all ([None]). *)
Lemma top_courses_ignore_n_and_identifier :
  match SizeRangeAnalyzer.process_data example_courses with
  | SizeRangeAnalyzer.Ok per_range =>
      listed <$> per_range = [Some ["C"; "B"; "A"; "D"]; None; None; None]
  | SizeRangeAnalyzer.Raise _ => False
  end ∧
  ¬ (length ["C"; "B"; "A"; "D"] ≤ 3)%nat.
Proof. split; [by vm_compute|cbn; lia]. Qed.

(** C7 (amended): on a frame that has the columns [교과목명], [평균 점수] and
    [응답자 수], [process_data] returns for every size range, without
    raising; for a range holding courses it stores the top ten of them: at
    most ten courses of the range (all of them when there are ten or fewer),
    in descending order of the average score, none scoring below a course of
    the range left out; for a range holding no course it stores [None].
    The order of courses with equal scores is left open. *)
Theorem top_ten_per_size_range (df : SizeRangeAnalyzer.CourseFrame)
    (r : SizeRange.SizeRange) :
  Forall (λ c, c ∈ SizeRangeAnalyzer.frame_columns df)
    ["교과목명"; "평균 점수"; "응답자 수"] →
  (∃ per_range,
     SizeRangeAnalyzer.process_data df = SizeRangeAnalyzer.Ok per_range ∧
     length per_range = length SizeRange.size_ranges) ∧
  ∃ st,
    SizeRangeAnalyzer.range_stats df r = SizeRangeAnalyzer.Ok st ∧
    let courses := SizeRangeAnalyzer.in_range r (SizeRangeAnalyzer.frame_rows df) in
    SizeRangeAnalyzer.count st = length courses ∧
    match SizeRangeAnalyzer.data st with
    | None => courses = []
    | Some top =>
        courses ≠ [] ∧
        length top = (10 `min` length courses)%nat ∧
        (length top ≤ 10)%nat ∧
        StronglySorted SizeRangeAnalyzer.before top ∧
        ∃ rest,
          top ++ rest ≡ₚ courses ∧
          ∀ t c, t ∈ top → c ∈ rest → SizeRangeAnalyzer.before t c
    end.
Proof.
  intros Hcols.
  assert (SizeRangeAnalyzer.getitem df "평균 점수" = SizeRangeAnalyzer.Ok ()) as Hscore.
  { apply getitem_ok. inversion Hcols as [|? ? _ Hrest]. by inversion Hrest. }
  assert (SizeRangeAnalyzer.getitem df "응답자 수" = SizeRangeAnalyzer.Ok ()) as Hresp.
  { apply getitem_ok. inversion Hcols as [|? ? _ Hrest].
    inversion Hrest as [|? ? _ Hrest']. by inversion Hrest'. }
  pose proof (getitem_list_ok df _ Hcols) as Hall.
  assert (∀ r', ∃ st,
    SizeRangeAnalyzer.range_stats df r' = SizeRangeAnalyzer.Ok st ∧
    SizeRangeAnalyzer.count st
    = length (SizeRangeAnalyzer.in_range r' (SizeRangeAnalyzer.frame_rows df)) ∧
    SizeRangeAnalyzer.data st
    = match SizeRangeAnalyzer.in_range r' (SizeRangeAnalyzer.frame_rows df) with
      | [] => None
      | c :: l => Some (take 10 (SizeRangeAnalyzer.sort_values_desc (c :: l)))
      end) as Hrange.
  { intros r'. unfold SizeRangeAnalyzer.range_stats.
    destruct (SizeRangeAnalyzer.in_range r' _) as [|c l]; [by eexists|].
    rewrite Hscore, Hall. cbn. by eexists. }
  split.
  - unfold SizeRangeAnalyzer.process_data. rewrite Hresp. cbn.
    unfold SizeRange.size_ranges. cbn.
    repeat match goal with
           | |- context [SizeRangeAnalyzer.range_stats df ?r'] =>
               destruct (Hrange r') as (? & -> & _ & _); cbn
           end.
    by eexists.
  - destruct (Hrange r) as (st & Hst & Hcount & Hdata).
    exists st. split; [done|]. cbn zeta. split; [done|]. rewrite Hdata.
    destruct (SizeRangeAnalyzer.in_range r _) as [|c l]; [done|].
    destruct (top_ten_spec (c :: l)) as (Hlen & Hsorted & Hperm & Hcross).
    split; [done|]. split; [done|]. split; [rewrite Hlen; lia|].
    split; [done|]. eauto.
Qed.

Lemma top_ten_per_size_range_example :
  Forall (λ c, c ∈ SizeRangeAnalyzer.frame_columns example_courses)
    ["교과목명"; "평균 점수"; "응답자 수"] ∧
  ∃ st,
    SizeRangeAnalyzer.range_stats example_courses
      (SizeRange.mkSizeRange 10 (Some 21) "소규모 강좌 (10-20명)" "#2563eb")
    = SizeRangeAnalyzer.Ok st.
Proof.
  assert (Forall (λ c, c ∈ SizeRangeAnalyzer.frame_columns example_courses)
            ["교과목명"; "평균 점수"; "응답자 수"]) as Hcols
    by (cbn; repeat constructor).
  split; [exact Hcols|].
  destruct (top_ten_per_size_range example_courses
              (SizeRange.mkSizeRange 10 (Some 21) "소규모 강좌 (10-20명)" "#2563eb")
              Hcols) as (_ & st & Hst & _).
  by exists st.
Defined.

(** ** The dashboard on Scenario A, and on a course with ten responses *)

(** The dashboard has no per-response score: its [평균 점수] is, per course,
    the mean of the per-question means.  On the two responses of Scenario A
    (question 3 answered once) it is 51/14, not 3.75. *)
Example dashboard_average_scenario_A :
  match SurveyDataAnalyzer.course_stats scenario_A_upload with
  | SurveyDataAnalyzer.Ok stats =>
      (λ c, (SizeRangeAnalyzer.course_id c, SizeRangeAnalyzer.responses c,
             SizeRangeAnalyzer.average c))
        <$> SizeRangeAnalyzer.frame_rows stats
      = [("X (1)", 2, Some (Q2Qc (51 # 14)))]
  | SurveyDataAnalyzer.Raise _ => False
  end.
Proof.
  vm_compute. by do 2 f_equal.
Qed.

(** The frame [load_data] hands to [process_data] has the column
    [course_id_] and none called [교과목명]: as soon as a size range holds a
    course, indexing the top courses by [교과목명] raises [KeyError], which
    [load_data] catches, returning [False]. *)
Example load_data_ten_responses :
  SizeRangeAnalyzer.frame_columns
    <$> SurveyDataAnalyzer.data (SurveyDataAnalyzer.load_data example_ten_responses)
  = Some ["course_id_"; "개설단과대학_"; "설문1_count"; "설문1_mean";
          "응답자 수"; "평균 점수"] ∧
  SurveyDataAnalyzer.returned (SurveyDataAnalyzer.load_data example_ten_responses)
  = false ∧
  SurveyDataAnalyzer.caught (SurveyDataAnalyzer.load_data example_ten_responses)
  = Some (SurveyDataAnalyzer.KeyError "['교과목명'] not in index").
Proof. repeat split; by vm_compute. Qed.

(** * Part III: further properties of the scripts *)

(** ** Column names: converting twice, and converting mixed lists *)

(** No name is both a Korean key and an English value of the table. *)
Lemma kr_to_en_values_not_keys (k v : string) :
  ColumnMapper.kr_to_en !! k = Some v →
  ColumnMapper.kr_to_en !! v = None ∧ ColumnMapper.en_to_kr !! k = None.
Proof.
  unfold ColumnMapper.kr_to_en at 1.
  rewrite (dict_of_lookup_Some _ _ _ kr_to_en_keys_distinct).
  unfold ColumnMapper.kr_to_en_items.
  intros Hin.
  repeat (apply elem_of_cons in Hin as [[= -> ->]|Hin]; [split; by vm_compute|]).
  by apply elem_of_nil in Hin.
Qed.

Lemma get_Some (d : gmap string string) (col v : string) :
  d !! col = Some v → ColumnMapper.get d col = v.
Proof. intros Hcol. unfold ColumnMapper.get. by rewrite Hcol. Qed.

Lemma get_None (d : gmap string string) (col : string) :
  d !! col = None → ColumnMapper.get d col = col.
Proof. intros Hcol. unfold ColumnMapper.get. by rewrite Hcol. Qed.

Lemma get_kr_to_en_idemp (col : string) :
  ColumnMapper.get ColumnMapper.kr_to_en (ColumnMapper.get ColumnMapper.kr_to_en col)
  = ColumnMapper.get ColumnMapper.kr_to_en col.
Proof.
  destruct (ColumnMapper.kr_to_en !! col) as [v|] eqn:Hcol.
  - rewrite (get_Some _ _ _ Hcol).
    destruct (kr_to_en_values_not_keys col v Hcol) as [Hnone _].
    by apply get_None.
  - by rewrite !(get_None _ _ Hcol).
Qed.

Lemma get_en_to_kr_idemp (col : string) :
  ColumnMapper.get ColumnMapper.en_to_kr (ColumnMapper.get ColumnMapper.en_to_kr col)
  = ColumnMapper.get ColumnMapper.en_to_kr col.
Proof.
  destruct (ColumnMapper.en_to_kr !! col) as [k|] eqn:Hcol.
  - rewrite (get_Some _ _ _ Hcol). apply kr_to_en_en_to_kr in Hcol.
    destruct (kr_to_en_values_not_keys k col Hcol) as [_ Hnone].
    by apply get_None.
  - by rewrite !(get_None _ _ Hcol).
Qed.

Lemma get_en_to_kr_after_kr_to_en (col : string) :
  ColumnMapper.get ColumnMapper.en_to_kr (ColumnMapper.get ColumnMapper.kr_to_en col)
  = ColumnMapper.get ColumnMapper.en_to_kr col.
Proof.
  destruct (ColumnMapper.kr_to_en !! col) as [v|] eqn:Hcol.
  - rewrite (get_Some _ _ _ Hcol).
    destruct (kr_to_en_values_not_keys col v Hcol) as [_ Hnone].
    apply kr_to_en_en_to_kr in Hcol.
    by rewrite (get_Some _ _ _ Hcol), (get_None _ _ Hnone).
  - by rewrite (get_None _ _ Hcol).
Qed.

Lemma get_kr_to_en_after_en_to_kr (col : string) :
  ColumnMapper.get ColumnMapper.kr_to_en (ColumnMapper.get ColumnMapper.en_to_kr col)
  = ColumnMapper.get ColumnMapper.kr_to_en col.
Proof.
  destruct (ColumnMapper.en_to_kr !! col) as [k|] eqn:Hcol.
  - rewrite (get_Some _ _ _ Hcol). apply kr_to_en_en_to_kr in Hcol.
    destruct (kr_to_en_values_not_keys k col Hcol) as [Hnone _].
    by rewrite (get_Some _ _ _ Hcol), (get_None _ _ Hnone).
  - by rewrite (get_None _ _ Hcol).
Qed.

Lemma fmap_pointwise {A : Type} (f g : A → A) (l : list A) :
  (∀ x, f x = g x) → f <$> l = g <$> l.
Proof. intros Hfg. induction l as [|x l IH]; cbn; [done|]. by rewrite Hfg, IH. Qed.

(** X1: converting a name or a list of names to English twice gives the
    same as converting once, whatever the names are; the same for Korean. *)
Theorem column_conversion_idempotent (names : ColumnMapper.cols) :
  ColumnMapper.to_english (ColumnMapper.to_english names)
  = ColumnMapper.to_english names ∧
  ColumnMapper.to_korean (ColumnMapper.to_korean names)
  = ColumnMapper.to_korean names.
Proof.
  destruct names as [col|l]; cbn.
  - by rewrite get_kr_to_en_idemp, get_en_to_kr_idemp.
  - rewrite <- !list_fmap_compose. split; f_equal; apply fmap_pointwise; intros x; cbn.
    + apply get_kr_to_en_idemp.
    + apply get_en_to_kr_idemp.
Qed.

(** X2: converting to English first and then to Korean gives the same as
    converting to Korean directly, for every name or list of names (known,
    unknown or mixed); and the same with the two directions exchanged. *)
Theorem column_conversion_absorbs (names : ColumnMapper.cols) :
  ColumnMapper.to_korean (ColumnMapper.to_english names)
  = ColumnMapper.to_korean names ∧
  ColumnMapper.to_english (ColumnMapper.to_korean names)
  = ColumnMapper.to_english names.
Proof.
  destruct names as [col|l]; cbn.
  - by rewrite get_en_to_kr_after_kr_to_en, get_kr_to_en_after_en_to_kr.
  - rewrite <- !list_fmap_compose. split; f_equal; apply fmap_pointwise; intros x; cbn.
    + apply get_en_to_kr_after_kr_to_en.
    + apply get_kr_to_en_after_en_to_kr.
Qed.

(** ** The mode of a column *)

Lemma freq_le_top (l : list Qc) (x : Qc) :
  (SurveyStatisticsAnalyzer.freq l x
   ≤ foldr Nat.max 0 (SurveyStatisticsAnalyzer.freq l <$> l))%nat.
Proof.
  destruct (decide (x ∈ l)) as [Hin|Hn].
  - generalize (SurveyStatisticsAnalyzer.freq l). intros f.
    induction Hin as [x l|x y l _ IH]; cbn; lia.
  - unfold SurveyStatisticsAnalyzer.freq at 1.
    assert (filter (λ y, y = x) l = []) as ->; [|cbn; lia].
    clear -Hn. induction l as [|y l IH]; [done|].
    rewrite filter_cons_False.
    + apply IH. intros Hin. apply Hn. by right.
    + intros ->. apply Hn. by left.
Qed.

Lemma top_attained (f : Qc → nat) (l : list Qc) :
  l ≠ [] → ∃ x, x ∈ l ∧ f x = foldr Nat.max 0%nat (f <$> l).
Proof.
  induction l as [|y l IH]; [done|]. intros _. cbn.
  destruct l as [|z l].
  - exists y. split; [by left|cbn; lia].
  - destruct IH as (x & Hin & Hx); [done|].
    destruct (Nat.max_spec (f y) (foldr Nat.max 0%nat (f <$> z :: l)))
      as [[_ ->]|[_ ->]].
    + exists x. split; [by right|done].
    + exists y. split; [by left|done].
Qed.

Lemma freq_pos (l : list Qc) (x : Qc) :
  x ∈ l → (1 ≤ SurveyStatisticsAnalyzer.freq l x)%nat.
Proof.
  intros Hin. unfold SurveyStatisticsAnalyzer.freq.
  induction Hin as [x l|x y l _ IH].
  - rewrite filter_cons_True by done. cbn. lia.
  - rewrite filter_cons. case_decide; cbn; lia.
Qed.

Lemma freq_le_length (l : list Qc) (x : Qc) :
  (SurveyStatisticsAnalyzer.freq l x ≤ length l)%nat.
Proof. apply length_filter. Qed.

#[local] Instance more_frequent_total : Total SurveyStatisticsAnalyzer.more_frequent.
Proof. intros a b. unfold SurveyStatisticsAnalyzer.more_frequent. lia. Qed.

#[local] Instance more_frequent_trans :
  Transitive SurveyStatisticsAnalyzer.more_frequent.
Proof. intros a b c. unfold SurveyStatisticsAnalyzer.more_frequent. lia. Qed.

(** The first entry of a sorted list is related to every entry. *)
Lemma merge_sort_head {A : Type} (R : relation A) `{!RelDecision R}
    `{!Total R} `{!Transitive R} (l : list A) (x y : A) :
  head (merge_sort R l) = Some x → y ∈ l → R x y.
Proof.
  intros Hhd Hy.
  pose proof (StronglySorted_merge_sort R l) as Hs.
  rewrite <- (merge_sort_Permutation R l) in Hy.
  destruct (merge_sort R l) as [|z l']; [done|].
  injection Hhd as ->.
  apply StronglySorted_inv in Hs as [_ Hall].
  apply elem_of_cons in Hy as [->|Hy]; [by destruct (total R x x)|].
  by apply (proj1 (Forall_forall _ _) Hall).
Qed.

Lemma merge_sort_head_elem_of {A : Type} (R : relation A) `{!RelDecision R}
    (l : list A) (x : A) :
  head (merge_sort R l) = Some x → x ∈ l.
Proof.
  intros Hhd. rewrite <- (merge_sort_Permutation R l).
  destruct (merge_sort R l) as [|z l']; [done|].
  injection Hhd as ->. by left.
Qed.

Lemma merge_sort_nil_inv {A : Type} (R : relation A) `{!RelDecision R}
    (l : list A) :
  merge_sort R l = [] ↔ l = [].
Proof.
  split; [|by intros ->].
  intros Hnil. apply Permutation_nil_r. by rewrite <- Hnil, merge_sort_Permutation.
Qed.

Lemma iloc0_head {A : Type} (xs : list A) (x : A) :
  SurveyStatisticsAnalyzer.iloc0 xs = SurveyStatisticsAnalyzer.Ok x
  ↔ head xs = Some x.
Proof. destruct xs; cbn; split; intros [=]; by subst. Qed.

(** [mode] is empty exactly on a column without values; its first entry
    is the smallest of the most frequent values. *)
Lemma mode_nil (s : Pandas.column) :
  SurveyStatisticsAnalyzer.mode s = [] ↔ Pandas.dropna s = [].
Proof.
  unfold SurveyStatisticsAnalyzer.mode. rewrite merge_sort_nil_inv.
  split; [|by intros ->].
  intros Hnil. destruct (Pandas.dropna s) as [|y l] eqn:Hl; [done|].
  destruct (top_attained (SurveyStatisticsAnalyzer.freq (y :: l)) (y :: l))
    as (x & Hin & Hx); [done|].
  assert (x ∈ filter
            (λ x, SurveyStatisticsAnalyzer.freq (y :: l) x
                  = foldr Nat.max 0%nat
                      (SurveyStatisticsAnalyzer.freq (y :: l) <$> y :: l))
            (remove_dups (y :: l))) as Hf.
  { apply list_elem_of_filter. split; [done|]. by apply elem_of_remove_dups. }
  rewrite Hnil in Hf. by apply elem_of_nil in Hf.
Qed.

Lemma mode_head (s : Pandas.column) (m : Qc) :
  head (SurveyStatisticsAnalyzer.mode s) = Some m →
  let l := Pandas.dropna s in
  m ∈ l ∧
  SurveyStatisticsAnalyzer.freq l m
  = foldr Nat.max 0%nat (SurveyStatisticsAnalyzer.freq l <$> l) ∧
  ∀ x, SurveyStatisticsAnalyzer.freq l x = SurveyStatisticsAnalyzer.freq l m →
       x ∈ l → (m ≤ x)%Qc.
Proof.
  cbn zeta. unfold SurveyStatisticsAnalyzer.mode. intros Hhd.
  pose proof (merge_sort_head_elem_of _ _ _ Hhd)
    as [Hm Hin]%list_elem_of_filter.
  rewrite elem_of_remove_dups in Hin.
  split; [done|]. split; [done|].
  intros x Hx Hxin. apply (merge_sort_head Qcle _ _ _ Hhd).
  apply list_elem_of_filter. split; [congruence|by apply elem_of_remove_dups].
Qed.

Lemma value_counts_head (s : Pandas.column) (e : Qc * nat) :
  head (SurveyStatisticsAnalyzer.value_counts s) = Some e →
  let l := Pandas.dropna s in
  e.2 = foldr Nat.max 0%nat (SurveyStatisticsAnalyzer.freq l <$> l).
Proof.
  cbn zeta. unfold SurveyStatisticsAnalyzer.value_counts. intros Hhd.
  pose proof (merge_sort_head_elem_of _ _ _ Hhd)
    as (v & -> & Hv)%list_elem_of_fmap.
  rewrite elem_of_remove_dups in Hv.
  cbn. apply Nat.le_antisymm; [apply freq_le_top|].
  destruct (top_attained (SurveyStatisticsAnalyzer.freq (Pandas.dropna s))
              (Pandas.dropna s)) as (x & Hin & <-).
  { intros Hnil. rewrite Hnil in Hv. by apply elem_of_nil in Hv. }
  apply (merge_sort_head SurveyStatisticsAnalyzer.more_frequent _ _
           (x, SurveyStatisticsAnalyzer.freq (Pandas.dropna s) x) Hhd).
  apply list_elem_of_fmap. exists x. split; [done|by apply elem_of_remove_dups].
Qed.

Lemma value_counts_nil (s : Pandas.column) :
  SurveyStatisticsAnalyzer.value_counts s = [] ↔ Pandas.dropna s = [].
Proof.
  unfold SurveyStatisticsAnalyzer.value_counts. rewrite merge_sort_nil_inv.
  split; [|by intros ->].
  intros Hnil%fmap_nil_inv. destruct (Pandas.dropna s) as [|y l]; [done|].
  assert (y ∈ remove_dups (y :: l)) as Hy by (apply elem_of_remove_dups; by left).
  rewrite Hnil in Hy. by apply elem_of_nil in Hy.
Qed.

Lemma of_nat_eq_0 (n : nat) : Pandas.of_nat n = 0%Qc → n = 0%nat.
Proof.
  unfold Pandas.of_nat. change 0%Qc with (Q2Qc 0). rewrite Q2Qc_eq_iff.
  unfold Qeq. cbn. lia.
Qed.

Lemma length_dropna_le (s : Pandas.column) :
  (length (Pandas.dropna s) ≤ length s)%nat.
Proof. rewrite <- count_dropna. apply length_filter. Qed.

(** X3: the ungrouped statistics of a column raise [IndexError] exactly
    when the column holds no value, and [TypeError] exactly when it holds
    one and the call of [scipy.stats.t.interval] is refused; no other
    exception is raised.  When they are returned, the column holds at least
    one value, [count] is the number of values, [mode] is a value of the
    column, [mode_freq] is the number of times it occurs, no value occurs
    more often, [mode] is the smallest of the values occurring that often,
    [mode_pct] is that frequency as a percentage of all the rows of the
    frame (with or without a value), and the confidence bounds are the two
    numbers [scipy.stats.t.interval] gave. *)
Theorem distribution_statistics_mode
    (sqrt : Qc → Qc) (quantile : Qc → Pandas.column → option Qc)
    (series_median series_skew series_kurtosis : Pandas.column → option Qc)
    (sem : list Qc → option Qc)
    (t_interval :
       Qc → Z → option Qc → option Qc → option (option Qc * option Qc))
    (data : list Survey.Row) (col : Survey.score_col) :
  let l := Pandas.dropna (Survey.values col data) in
  let interval :=
    t_interval (Q2Qc (95 # 100)) (Z.of_nat (length l) - 1)
      (Pandas.mean (Survey.values col data)) (sem l) in
  match SurveyStatisticsAnalyzer.distribution_statistics
          sqrt quantile series_median series_skew series_kurtosis sem t_interval
          data col with
  | SurveyStatisticsAnalyzer.Raise SurveyStatisticsAnalyzer.IndexError => l = []
  | SurveyStatisticsAnalyzer.Raise SurveyStatisticsAnalyzer.TypeError =>
      l ≠ [] ∧ interval = None
  | SurveyStatisticsAnalyzer.Raise (SurveyStatisticsAnalyzer.AttributeError _) =>
      False
  | SurveyStatisticsAnalyzer.Ok d =>
      l ≠ [] ∧
      interval
      = Some (SurveyStatisticsAnalyzer.ci_lower d,
              SurveyStatisticsAnalyzer.ci_upper d) ∧
      SurveyStatisticsAnalyzer.count (SurveyStatisticsAnalyzer.basic d) = length l ∧
      (1 ≤ SurveyStatisticsAnalyzer.mode_freq d ≤ length l)%nat ∧
      (length l ≤ length data)%nat ∧
      SurveyStatisticsAnalyzer.mode_value d ∈ l ∧
      SurveyStatisticsAnalyzer.mode_freq d
      = SurveyStatisticsAnalyzer.freq l (SurveyStatisticsAnalyzer.mode_value d) ∧
      (∀ x, SurveyStatisticsAnalyzer.freq l x
            ≤ SurveyStatisticsAnalyzer.mode_freq d)%nat ∧
      (∀ x, x ∈ l →
            SurveyStatisticsAnalyzer.freq l x = SurveyStatisticsAnalyzer.mode_freq d →
            (SurveyStatisticsAnalyzer.mode_value d ≤ x)%Qc) ∧
      SurveyStatisticsAnalyzer.mode_pct d
      = Some (Q2Qc 100 * (Pandas.of_nat (SurveyStatisticsAnalyzer.mode_freq d)
                          / Pandas.of_nat (length data)))%Qc
  end.
Proof.
  cbn zeta. unfold SurveyStatisticsAnalyzer.distribution_statistics.
  set (s := Survey.values col data).
  destruct (SurveyStatisticsAnalyzer.mode s) as [|m ms] eqn:Hmode.
  { by apply mode_nil. }
  destruct (SurveyStatisticsAnalyzer.value_counts s) as [|e es] eqn:Hvc.
  { by apply value_counts_nil. }
  assert (head (SurveyStatisticsAnalyzer.mode s) = Some m) as Hm by by rewrite Hmode.
  assert (head (SurveyStatisticsAnalyzer.value_counts s) = Some e) as He
    by by rewrite Hvc.
  apply mode_head in Hm as (Hin & Htop & Hleast).
  apply value_counts_head in He. cbn zeta in He. rewrite <- Htop in He.
  assert (length (Pandas.dropna s) ≤ length data)%nat as Hlen.
  { etrans; [apply length_dropna_le|]. unfold s, Survey.values.
    by rewrite length_fmap. }
  assert (Pandas.dropna s ≠ []) as Hne.
  { intros Hnil. rewrite Hnil in Hin. by apply elem_of_nil in Hin. }
  cbn [SurveyStatisticsAnalyzer.iloc0 mbind SurveyStatisticsAnalyzer.result_bind].
  destruct (t_interval _ _ _ _) as [[lower upper]|] eqn:Hci;
    cbn [mbind SurveyStatisticsAnalyzer.result_bind mret
         SurveyStatisticsAnalyzer.result_ret]; [|by split].
  cbn [SurveyStatisticsAnalyzer.basic SurveyStatisticsAnalyzer.count
       SurveyStatisticsAnalyzer.mode_value SurveyStatisticsAnalyzer.mode_freq
       SurveyStatisticsAnalyzer.mode_pct SurveyStatisticsAnalyzer.ci_lower
       SurveyStatisticsAnalyzer.ci_upper fst snd].
  split; [done|]. split; [done|]. split; [done|]. rewrite He.
  split; [split; [by apply freq_pos|apply freq_le_length]|].
  split; [done|]. split; [done|]. split; [done|].
  split; [intros x; rewrite Htop; apply freq_le_top|].
  split; [intros x Hx Hfx; by apply Hleast|].
  unfold SurveyStatisticsAnalyzer.fdiv, SurveyStatisticsAnalyzer.fscale. cbn.
  rewrite decide_False; [done|].
  intros H0%of_nat_eq_0. destruct data; [|done].
  by apply elem_of_nil in Hin.
Qed.

(** ** When the ungrouped statistics are returned *)

Lemma SurveyCombined_None (r : Survey.Row) :
  Survey.SurveyCombined r = None ↔ Forall (λ x, x = None) (Survey.items r).
Proof.
  unfold Survey.SurveyCombined. rewrite mean_arith_mean.
  generalize (Survey.items r). intros s. split.
  - induction s as [|[x|] s IH]; cbn; [by constructor|done|].
    intros Hs. constructor; [done|]. by apply IH.
  - intros Hs. induction Hs as [|x s -> _ IH]; [done|]. exact IH.
Qed.

Lemma dropna_nil (s : Pandas.column) :
  Pandas.dropna s = [] ↔ Forall (λ x, x = None) s.
Proof.
  split; [|apply dropna_all_missing].
  induction s as [|[x|] s IH]; cbn; [by constructor|done|].
  intros Hs. constructor; [done|]. by apply IH.
Qed.

(** A frame with a value in the column of some question has a value in
    the combined column. *)
Lemma combined_has_value (data : list Survey.Row) (i : nat) :
  i ∈ Survey.survey_cols →
  Pandas.dropna (Survey.values (Survey.Survey i) data) ≠ [] →
  Pandas.dropna (Survey.values Survey.Combined data) ≠ [].
Proof.
  intros Hi Hne Hnil. apply Hne. apply dropna_nil. apply dropna_nil in Hnil.
  unfold Survey.values in *. rewrite Forall_fmap in *.
  eapply Forall_impl; [exact Hnil|]. intros r Hr. cbn in *.
  apply SurveyCombined_None in Hr. rewrite Forall_forall in Hr.
  apply Hr. unfold Survey.items. apply list_elem_of_fmap. by exists i.
Qed.

Section distribution_returns.
Import SurveyStatisticsAnalyzer.
Variable sqrt : Qc → Qc.
Variable quantile : Qc → Pandas.column → option Qc.
Variable series_median series_skew series_kurtosis : Pandas.column → option Qc.
Variable sem : list Qc → option Qc.
Variable t_interval :
  Qc → Z → option Qc → option Qc → option (option Qc * option Qc).
Variable data : list Survey.Row.

Local Abbreviation distribution_statistics :=
  (distribution_statistics sqrt quantile series_median series_skew
     series_kurtosis sem t_interval).

(** What [scipy.stats.t.interval] is called with for a column. *)
Local Abbreviation interval col :=
  (t_interval (Q2Qc (95 # 100))
     (Z.of_nat (length (Pandas.dropna (Survey.values col data))) - 1)
     (Pandas.mean (Survey.values col data))
     (sem (Pandas.dropna (Survey.values col data)))).

Lemma distribution_statistics_cases col :
  match distribution_statistics data col with
  | Ok d =>
      Pandas.dropna (Survey.values col data) ≠ [] ∧
      interval col = Some (ci_lower d, ci_upper d)
  | Raise IndexError => Pandas.dropna (Survey.values col data) = []
  | Raise TypeError =>
      Pandas.dropna (Survey.values col data) ≠ [] ∧ interval col = None
  | Raise (AttributeError _) => False
  end.
Proof.
  unfold SurveyStatisticsAnalyzer.distribution_statistics.
  destruct (mode (Survey.values col data)) as [|m ms] eqn:Hmode.
  { by apply mode_nil. }
  destruct (value_counts (Survey.values col data)) as [|e es] eqn:Hvc.
  { by apply value_counts_nil. }
  assert (Pandas.dropna (Survey.values col data) ≠ []) as Hne.
  { intros Hnil%mode_nil. by rewrite Hnil in Hmode. }
  cbn [iloc0 mbind result_bind].
  destruct (t_interval _ _ _ _) as [[lower upper]|] eqn:Hci;
    cbn [mbind result_bind mret result_ret ci_lower ci_upper fst snd];
    by split.
Qed.

(** The loop over a list of columns returns an entry for each column, in
    order, when every column holds a value and no call of
    [scipy.stats.t.interval] is refused; it raises otherwise. *)
Lemma distribution_statistics_loop (cols : list Survey.score_col) :
  match foldr (λ col rest,
                 d ← distribution_statistics data col;
                 ds ← rest;
                 mret ((col, d) :: ds))
              (mret []) cols with
  | Ok ds =>
      ds.*1 = cols ∧
      Forall (λ col, Pandas.dropna (Survey.values col data) ≠ []) cols ∧
      Forall (λ entry, interval entry.1
                       = Some (ci_lower entry.2, ci_upper entry.2)) ds
  | Raise IndexError =>
      Exists (λ col, Pandas.dropna (Survey.values col data) = []) cols
  | Raise TypeError =>
      Exists (λ col, Pandas.dropna (Survey.values col data) ≠ [] ∧
                     interval col = None) cols
  | Raise (AttributeError _) => False
  end.
Proof.
  induction cols as [|col cols IH]; cbn [foldr].
  { cbn. by repeat split. }
  pose proof (distribution_statistics_cases col) as Hcol.
  destruct (distribution_statistics data col) as [d|[| |name]];
    cbn [mbind result_bind]; [|by left|by left|done].
  destruct (foldr _ _ cols) as [ds|[| |name]];
    cbn [mbind result_bind mret result_ret].
  - destruct IH as (Hkeys & Hall & Hci). destruct Hcol as [Hne Hd].
    split; [by rewrite fmap_cons, Hkeys|]. split; by constructor.
  - by right.
  - by right.
  - done.
Qed.
End distribution_returns.

(** X4: [calculate_distribution_statistics] returns exactly when each of
    the seven survey columns holds at least one value and
    [scipy.stats.t.interval] accepts the call made for each of the eight
    columns; it then returns one entry per column, the seven questions in
    order and the combined score last, each with the two bounds that call
    gave.  It raises [IndexError] only when some question has no answer at
    all in the frame, [TypeError] only when a column with a value has its
    call of [scipy.stats.t.interval] refused, and nothing else.  With a
    library that refuses the keyword [alpha] on every call (SciPy from
    1.11), the function therefore returns on no frame. *)
Theorem calculate_distribution_statistics_returns
    (sqrt : Qc → Qc) (quantile : Qc → Pandas.column → option Qc)
    (series_median series_skew series_kurtosis : Pandas.column → option Qc)
    (sem : list Qc → option Qc)
    (t_interval :
       Qc → Z → option Qc → option Qc → option (option Qc * option Qc))
    (data : list Survey.Row) :
  let interval col :=
    t_interval (Q2Qc (95 # 100))
      (Z.of_nat (length (Pandas.dropna (Survey.values col data))) - 1)
      (Pandas.mean (Survey.values col data))
      (sem (Pandas.dropna (Survey.values col data))) in
  match SurveyStatisticsAnalyzer.calculate_distribution_statistics
          sqrt quantile series_median series_skew series_kurtosis sem t_interval
          data with
  | SurveyStatisticsAnalyzer.Ok ds =>
      ds.*1 = SurveyStatisticsAnalyzer.analysis_cols ∧
      (∀ i, i ∈ Survey.survey_cols →
            (1 ≤ Pandas.count (Survey.values (Survey.Survey i) data))%nat) ∧
      (1 ≤ Pandas.count (Survey.values Survey.Combined data))%nat ∧
      (∀ col d, (col, d) ∈ ds →
                interval col
                = Some (SurveyStatisticsAnalyzer.ci_lower d,
                        SurveyStatisticsAnalyzer.ci_upper d)) ∧
      ¬ (∀ col, interval col = None)
  | SurveyStatisticsAnalyzer.Raise SurveyStatisticsAnalyzer.IndexError =>
      ∃ i, i ∈ Survey.survey_cols ∧
           Pandas.count (Survey.values (Survey.Survey i) data) = 0%nat
  | SurveyStatisticsAnalyzer.Raise SurveyStatisticsAnalyzer.TypeError =>
      ∃ col, col ∈ SurveyStatisticsAnalyzer.analysis_cols ∧
             (1 ≤ Pandas.count (Survey.values col data))%nat ∧
             interval col = None
  | SurveyStatisticsAnalyzer.Raise (SurveyStatisticsAnalyzer.AttributeError _) =>
      False
  end.
Proof.
  cbn zeta.
  unfold SurveyStatisticsAnalyzer.calculate_distribution_statistics.
  pose proof (distribution_statistics_loop sqrt quantile series_median
                series_skew series_kurtosis sem t_interval data
                SurveyStatisticsAnalyzer.analysis_cols) as Hloop.
  assert (∀ s : Pandas.column,
            Pandas.dropna s ≠ [] → (1 ≤ Pandas.count s)%nat) as Hpos.
  { intros s Hs. rewrite count_dropna. destruct (Pandas.dropna s); [done|cbn; lia]. }
  destruct (foldr _ _ SurveyStatisticsAnalyzer.analysis_cols) as [ds|[| |name]].
  - destruct Hloop as (Hkeys & Hall & Hci). split; [done|].
    rewrite Forall_forall in Hall. rewrite Forall_forall in Hci.
    split; [|split; [|split]].
    + intros i Hi. apply Hpos, Hall.
      unfold SurveyStatisticsAnalyzer.analysis_cols.
      apply elem_of_app. left. apply list_elem_of_fmap. by exists i.
    + apply Hpos, Hall. unfold SurveyStatisticsAnalyzer.analysis_cols.
      apply elem_of_app. right. by left.
    + intros col d Hin. exact (Hci (col, d) Hin).
    + intros Hnone. destruct ds as [|[col d] ds]; [done|].
      specialize (Hci (col, d)). rewrite Hnone in Hci.
      by specialize (Hci ltac:(by left)).
  - apply Exists_exists in Hloop as (col & Hcol & Hnil).
    unfold SurveyStatisticsAnalyzer.analysis_cols in Hcol.
    apply elem_of_app in Hcol as [(i & -> & Hi)%list_elem_of_fmap|Hcol].
    + exists i. split; [done|]. by rewrite count_dropna, Hnil.
    + apply list_elem_of_singleton in Hcol as ->.
      exists 1%nat. split; [unfold Survey.survey_cols; cbn; by left|].
      rewrite count_dropna.
      destruct (Pandas.dropna (Survey.values (Survey.Survey 1) data)) eqn:H1;
        [done|].
      destruct (combined_has_value data 1);
        [unfold Survey.survey_cols; cbn; by left|by rewrite H1|done].
  - apply Exists_exists in Hloop as (col & Hcol & Hne & Hnone).
    exists col. split; [done|]. split; [by apply Hpos|done].
  - done.
Qed.

(** ** Invariants of the grouped tables *)

Lemma mean_None (s : Pandas.column) :
  Pandas.mean s = None ↔ Pandas.count s = 0%nat.
Proof. unfold Pandas.mean. case_bool_decide; split; done. Qed.

Lemma count_le_length (s : Pandas.column) : (Pandas.count s ≤ length s)%nat.
Proof. apply length_filter. Qed.

Lemma length_filter_impl {A : Type} (P Q : A → Prop)
    `{!∀ x, Decision (P x)} `{!∀ x, Decision (Q x)} (l : list A) :
  (∀ x, P x → Q x) → (length (filter P l) ≤ length (filter Q l))%nat.
Proof.
  intros HPQ. induction l as [|x l IH]; [done|].
  rewrite !filter_cons. destruct (decide (P x)) as [HP|HP].
  - rewrite decide_True by auto. cbn. lia.
  - case_decide; cbn; lia.
Qed.

(** X6: in the tables of [calculate_survey_averages], a group has a row
    for the combined score exactly when it has one for a question; the
    [count] of the combined score is at least the [count] of each of the
    seven questions and at most the number of rows of the group; and a
    [count] of 0 goes with a NaN mean, a [count] below 2 with a NaN
    standard deviation. *)
Theorem combined_count_bounds (sqrt : Qc → Qc) (column : Survey.group_col)
    (data : list Survey.Row) (k : string) (i : nat) :
  let g := Pandas.rows_with (Survey.key_of column) k data in
  match SurveyScoreAnalyzer.calculate_survey_averages
          sqrt column Survey.Combined data !! k,
        SurveyScoreAnalyzer.calculate_survey_averages
          sqrt column (Survey.Survey i) data !! k with
  | Some combined, Some question =>
      g ≠ [] ∧
      (i ∈ Survey.survey_cols →
       (SurveyScoreAnalyzer.agg_count question
        ≤ SurveyScoreAnalyzer.agg_count combined)%nat) ∧
      (SurveyScoreAnalyzer.agg_count combined ≤ length g)%nat ∧
      (SurveyScoreAnalyzer.agg_count question ≤ length g)%nat ∧
      (SurveyScoreAnalyzer.agg_mean combined = None
       ↔ SurveyScoreAnalyzer.agg_count combined = 0%nat) ∧
      ((SurveyScoreAnalyzer.agg_count combined < 2)%nat →
       SurveyScoreAnalyzer.agg_std combined = None)
  | None, None => g = []
  | _, _ => False
  end.
Proof.
  cbn zeta. rewrite !survey_averages_lookup.
  destruct (Pandas.rows_with _ k data) as [|r g] eqn:Hg; [done|].
  cbn -[Pandas.count Pandas.mean Pandas.std Survey.values length].
  assert (∀ c, length (Survey.values c (r :: g)) = length (r :: g)) as Hlen.
  { intros c. unfold Survey.values. by rewrite length_fmap. }
  split; [done|]. split; [|split; [|split; [|split]]].
  - intros Hi. unfold Survey.values. rewrite !count_fmap_is_Some.
    apply length_filter_impl. intros r' [x Hx]. cbn in *.
    destruct (Survey.SurveyCombined r') as [y|] eqn:Hy; [done|].
    apply SurveyCombined_None in Hy. rewrite Forall_forall in Hy.
    rewrite (Hy (Survey.survey_cell i r')) in Hx; [done|].
    unfold Survey.items. apply list_elem_of_fmap. by exists i.
  - rewrite <- (Hlen Survey.Combined). apply count_le_length.
  - rewrite <- (Hlen (Survey.Survey i)). apply count_le_length.
  - rewrite fmap_None. apply mean_None.
  - intros Hlt. by rewrite (std_undefined_below_two sqrt _ Hlt).
Qed.

(** ** The summary sheet against the tables *)

Lemma groupby_size {Row K : Type} `{Countable K} (by_key : Row → option K)
    (rows : list Row) :
  size (Pandas.groupby by_key rows) = length (remove_dups (omap id (by_key <$> rows))).
Proof.
  rewrite <- length_map_to_list, <- (length_fmap fst).
  apply Permutation_length, NoDup_Permutation.
  - apply NoDup_fst_map_to_list.
  - apply NoDup_remove_dups.
  - intros k. rewrite elem_of_remove_dups, <- groupby_keys. split.
    + intros ([k' g] & -> & Hin%elem_of_map_to_list)%list_elem_of_fmap.
      by exists g.
    + intros [g Hg]. apply list_elem_of_fmap. exists (k, g).
      split; [done|by apply elem_of_map_to_list].
Qed.

Lemma length_remove_dups_le {A : Type} `{EqDecision A} (l : list A) :
  (length (remove_dups l) ≤ length l)%nat.
Proof. induction l as [|x l IH]; cbn; [done|]. case_decide; cbn; lia. Qed.

Lemma length_omap_le {A B : Type} (f : A → option B) (l : list A) :
  (length (omap f l) ≤ length l)%nat.
Proof. induction l as [|x l IH]; cbn; [done|]. destruct (f x); cbn; lia. Qed.

(** X7: the [Unique Courses], [Unique Colleges] and [Campus Count] of the
    summary sheet are the numbers of rows of the course, college and campus
    tables of [calculate_survey_averages] (whichever question the table is
    for); none exceeds [Total Records]. *)
Theorem unique_values_are_table_rows (sqrt : Qc → Qc)
    (column : Survey.group_col) (survey_col : Survey.score_col)
    (data : list Survey.Row) :
  SurveyScoreAnalyzer.unique_values column data
  = size (SurveyScoreAnalyzer.calculate_survey_averages
            sqrt column survey_col data) ∧
  (SurveyScoreAnalyzer.unique_values column data
   ≤ SurveyScoreAnalyzer.total_records data)%nat.
Proof.
  unfold SurveyScoreAnalyzer.unique_values, Pandas.nunique,
    SurveyScoreAnalyzer.calculate_survey_averages,
    SurveyScoreAnalyzer.total_records.
  split.
  - by rewrite map_size_fmap, groupby_size.
  - etrans; [apply length_remove_dups_le|].
    etrans; [apply length_omap_le|]. by rewrite length_fmap.
Qed.

(** ** When [process_data] raises *)

Section process_data_facts.
Import SizeRangeAnalyzer.

(** A list of columns of which only the first may be missing. *)
Lemma getitem_list_first (df : CourseFrame) (c : string) (cols : list string) :
  cols ≠ [] →
  Forall (λ c, c ∈ frame_columns df) cols →
  getitem_list df (c :: cols)
  = if decide (c ∈ frame_columns df) then Ok ()
    else Raise (KeyError (repr_list [c] +:+ " not in index")).
Proof.
  intros Hne Hcols. unfold getitem_list. rewrite filter_cons.
  assert (filter (λ c, c ∉ frame_columns df) cols = []) as Hnil.
  { induction Hcols as [|c' cols Hc _ IH]; [done|].
    rewrite filter_cons_False by (intros Hn; by apply Hn).
    destruct cols; [done|]. by apply IH. }
  rewrite Hnil.
  destruct (decide (c ∈ frame_columns df)) as [Hin|Hn].
  - rewrite (decide_False (P := c ∉ frame_columns df))
      by (intros Hn; by apply Hn).
    by rewrite decide_True.
  - rewrite (decide_True (P := c ∉ frame_columns df)) by done.
    rewrite decide_False by done.
    rewrite decide_False; [done|]. intros [= Hc]. by apply Hne.
Qed.

(** No course with fewer than ten responses is in a size range, and every
    other course is in one. *)
Lemma in_range_nil (rows : list CourseRow) :
  Forall (λ r, in_range r rows = []) SizeRange.size_ranges
  ↔ Forall (λ c, responses c < 10) rows.
Proof.
  unfold in_range. split.
  - intros Hall. apply Forall_forall. intros c Hc.
    assert (∀ r, r ∈ SizeRange.size_ranges →
                 SizeRange.mask r (responses c) ≠ true) as Hmask.
    { intros r Hr Hm. rewrite Forall_forall in Hall.
      assert (c ∈ filter (λ c, SizeRange.mask r (responses c) = true) rows) as Hin
        by by apply list_elem_of_filter.
      rewrite (Hall r Hr) in Hin. by apply elem_of_nil in Hin. }
    destruct (Z.lt_ge_cases (responses c) 10) as [|Hge]; [done|].
    destruct (ranges_of_contiguous 10 SizeRange.size_ranges (responses c))
      as (r & Hr & Hin); [done|lia|].
    destruct (Hmask r Hin).
    assert (r ∈ SizeRange.ranges_of SizeRange.size_ranges (responses c)) as Hr'
      by (rewrite Hr; by left).
    by apply list_elem_of_filter in Hr' as [? _].
  - intros Hall. apply Forall_forall. intros r Hr.
    induction Hall as [|c rows Hc _ IH]; [done|].
    rewrite filter_cons_False; [done|].
    unfold SizeRange.mask. intros [Hmin _]%andb_true_iff. apply Z.leb_le in Hmin.
    unfold SizeRange.size_ranges in Hr.
    repeat (apply elem_of_cons in Hr as [->|Hr]; [cbn in Hmin; lia|]).
    by apply elem_of_nil in Hr.
Qed.

(** What [range_stats] does with a range, by the columns of the frame. *)
Lemma range_stats_cases (df : CourseFrame) (r : SizeRange.SizeRange) :
  "응답자 수" ∈ frame_columns df →
  let courses := in_range r (frame_rows df) in
  let percentage :=
    if decide (0 < length (frame_rows df))%nat
    then (Pandas.of_nat (length courses)
          / Pandas.of_nat (length (frame_rows df)) * Q2Qc 100)%Qc
    else 0%Qc in
  range_stats df r
  = match courses with
    | [] => Ok (mkRangeStats 0 percentage None)
    | _ =>
        if decide ("평균 점수" ∈ frame_columns df) then
          if decide ("교과목명" ∈ frame_columns df) then
            Ok (mkRangeStats (length courses) percentage
                  (Some (take 10 (sort_values_desc courses))))
          else Raise (KeyError "['교과목명'] not in index")
        else Raise (KeyError "평균 점수")
    end.
Proof.
  intros Hresp. cbn zeta. unfold range_stats.
  destruct (in_range r (frame_rows df)) as [|c l] eqn:Hc; [done|].
  unfold getitem at 1.
  destruct (decide ("평균 점수" ∈ frame_columns df)) as [Hscore|Hscore]; [|done].
  cbn [mbind result_bind].
  rewrite getitem_list_first by (done || by repeat constructor).
  destruct (decide ("교과목명" ∈ frame_columns df)); done.
Qed.

Lemma mapM_Ok {A B : Type} (f : A → result B) (l : list A) (g : A → B) :
  Forall (λ x, f x = Ok (g x)) l → mapM f l = Ok (g <$> l).
Proof.
  induction 1 as [|x l Hx _ IH]; [done|]. cbn. rewrite Hx. cbn.
  by rewrite IH.
Qed.

Lemma mapM_Raise {A B : Type} (f : A → result B) (l : list A) (e : exn) :
  Forall (λ x, (∃ y, f x = Ok y) ∨ f x = Raise e) l →
  Exists (λ x, f x = Raise e) l →
  mapM f l = Raise e.
Proof.
  induction 1 as [|x l Hx _ IH]; [by intros ?%Exists_nil|].
  intros Hex. cbn. destruct Hx as [[y Hy]|Hx].
  - rewrite Hy. cbn. rewrite IH; [done|].
    apply Exists_cons in Hex as [Hex|Hex]; [congruence|done].
  - by rewrite Hx.
Qed.

Lemma mapM_Ok_inv {A B : Type} (f : A → result B) (l : list A) (k : list B) :
  mapM f l = Ok k → Forall2 (λ x y, f x = Ok y) l k.
Proof.
  revert k. induction l as [|x l IH]; intros k; cbn.
  - intros [= <-]. constructor.
  - destruct (f x) as [y|e] eqn:Hx; cbn; [|done].
    destruct (mapM f l) as [k'|e] eqn:Hl; cbn; [|done].
    intros [= <-]. constructor; [done|by apply IH].
Qed.

Lemma process_data_cases (df : CourseFrame) :
  process_data df
  = if decide ("응답자 수" ∈ frame_columns df) then
      if decide (Forall (λ c, responses c < 10) (frame_rows df)) then
        Ok (range_stats_of df <$> SizeRange.size_ranges)
      else if decide ("평균 점수" ∈ frame_columns df) then
        if decide ("교과목명" ∈ frame_columns df) then
          Ok (range_stats_of df <$> SizeRange.size_ranges)
        else Raise (KeyError "['교과목명'] not in index")
      else Raise (KeyError "평균 점수")
    else Raise (KeyError "응답자 수").
Proof.
  unfold process_data, getitem.
  destruct (decide ("응답자 수" ∈ frame_columns df)) as [Hresp|]; [|done].
  match goal with
  | |- _ = ?rhs => change (mapM (range_stats df) SizeRange.size_ranges = rhs)
  end.
  pose proof (λ r, range_stats_cases df r Hresp) as Hrange. cbn zeta in Hrange.
  assert (∀ e,
    (∀ r, in_range r (frame_rows df) ≠ [] → range_stats df r = Raise e) →
    ¬ Forall (λ c, responses c < 10) (frame_rows df) →
    mapM (range_stats df) SizeRange.size_ranges = Raise e) as Hraise.
  { intros e He Hsome. apply mapM_Raise.
    - apply Forall_forall. intros r _.
      destruct (in_range r (frame_rows df)) as [|c l] eqn:Hc.
      + left. rewrite Hrange, Hc. by eexists.
      + right. apply He. by rewrite Hc.
    - rewrite <- in_range_nil in Hsome.
      apply not_Forall_Exists in Hsome; [|apply _].
      eapply Exists_impl; [exact Hsome|]. intros r Hr. by apply He. }
  destruct (decide (Forall (λ c, responses c < 10) (frame_rows df))) as [Hall|Hsome].
  - apply mapM_Ok. apply in_range_nil in Hall.
    eapply Forall_impl; [exact Hall|]. intros r Hr. cbn in Hr.
    rewrite Hrange. unfold range_stats_of. by rewrite Hr.
  - destruct (decide ("평균 점수" ∈ frame_columns df)) as [Hscore|Hscore].
    + destruct (decide ("교과목명" ∈ frame_columns df)) as [Hname|Hname].
      * apply mapM_Ok. apply Forall_forall. intros r _.
        rewrite Hrange. unfold range_stats_of.
        by destruct (in_range r (frame_rows df)).
      * apply Hraise; [|done]. intros r Hr. rewrite Hrange.
        by destruct (in_range r (frame_rows df)).
    + apply Hraise; [|done]. intros r Hr. rewrite Hrange.
      by destruct (in_range r (frame_rows df)).
Qed.

End process_data_facts.

(** X11: [process_data] raises [KeyError] for a column the frame lacks,
    and only then: with the name [응답자 수] whenever that column is
    missing; with the name [평균 점수] when that column is missing and some
    course has ten or more responses; with the text
    ['교과목명'] not in index when only [교과목명] is missing and some
    course has ten or more responses.  A frame with [응답자 수] in which no
    course reaches ten responses is processed whatever its other columns
    are, and a processed frame gives one result per size range. *)
Theorem process_data_raises (df : SizeRangeAnalyzer.CourseFrame) :
  let cols := SizeRangeAnalyzer.frame_columns df in
  let small :=
    Forall (λ c, SizeRangeAnalyzer.responses c < 10)
      (SizeRangeAnalyzer.frame_rows df) in
  match SizeRangeAnalyzer.process_data df with
  | SizeRangeAnalyzer.Ok per_range =>
      "응답자 수" ∈ cols ∧
      (small ∨ ("평균 점수" ∈ cols ∧ "교과목명" ∈ cols)) ∧
      length per_range = length SizeRange.size_ranges
  | SizeRangeAnalyzer.Raise (SizeRangeAnalyzer.KeyError key) =>
      (key = "응답자 수" ∧ "응답자 수" ∉ cols) ∨
      ("응답자 수" ∈ cols ∧ (¬ small) ∧
       ((key = "평균 점수" ∧ "평균 점수" ∉ cols) ∨
        (key = "['교과목명'] not in index" ∧
         "평균 점수" ∈ cols ∧ "교과목명" ∉ cols)))
  end.
Proof.
  cbn zeta. rewrite process_data_cases.
  repeat case_decide; rewrite ?length_fmap; repeat split; auto 10.
Qed.

(** ** What [process_data] counts *)

Lemma of_nat_add (a b : nat) :
  Pandas.of_nat (a + b) = (Pandas.of_nat a + Pandas.of_nat b)%Qc.
Proof.
  unfold Pandas.of_nat, Qcplus. apply Q2Qc_eq_iff. cbn [this Q2Qc].
  rewrite !Qred_correct, Nat2Z.inj_add, inject_Z_plus. reflexivity.
Qed.

Lemma length_ranges_of (rs : list SizeRange.SizeRange) (n : Z) :
  length (SizeRange.ranges_of rs n)
  = sum_list ((λ r, Nat.b2n (SizeRange.mask r n)) <$> rs).
Proof.
  unfold SizeRange.ranges_of. induction rs as [|r rs IH]; [done|].
  rewrite filter_cons, fmap_cons. cbn [sum_list_with id].
  destruct (SizeRange.mask r n).
  - rewrite decide_True by done. cbn. by rewrite IH.
  - rewrite decide_False by done. cbn. by rewrite IH.
Qed.

(** Counting per range and adding up counts every course once for each
    range it is in. *)
Lemma in_range_double_count (rs : list SizeRange.SizeRange)
    (rows : list SizeRangeAnalyzer.CourseRow) :
  sum_list ((λ r, length (SizeRangeAnalyzer.in_range r rows)) <$> rs)
  = sum_list ((λ c, length (SizeRange.ranges_of rs (SizeRangeAnalyzer.responses c)))
                <$> rows).
Proof.
  induction rows as [|c rows IH].
  - cbn. induction rs as [|r rs IHrs]; [done|]. by rewrite fmap_cons.
  - rewrite fmap_cons. cbn [sum_list_with id]. rewrite <- IH, length_ranges_of.
    clear IH. induction rs as [|r rs IHrs]; [done|].
    rewrite !fmap_cons. cbn [sum_list_with id]. rewrite IHrs.
    unfold SizeRangeAnalyzer.in_range at 1. rewrite filter_cons.
    destruct (SizeRange.mask r (SizeRangeAnalyzer.responses c)).
    + rewrite decide_True by done. cbn. unfold SizeRangeAnalyzer.in_range. lia.
    + rewrite decide_False by done. cbn. unfold SizeRangeAnalyzer.in_range. lia.
Qed.

Lemma in_range_total (rows : list SizeRangeAnalyzer.CourseRow) :
  sum_list ((λ r, length (SizeRangeAnalyzer.in_range r rows))
              <$> SizeRange.size_ranges)
  = length (filter (λ c, 10 ≤ SizeRangeAnalyzer.responses c) rows).
Proof.
  rewrite in_range_double_count.
  induction rows as [|c rows IH]; [done|].
  rewrite fmap_cons, filter_cons. cbn [sum_list_with id]. rewrite IH.
  destruct (decide (10 ≤ SizeRangeAnalyzer.responses c)) as [Hge|Hlt].
  - destruct (ranges_of_contiguous 10 SizeRange.size_ranges
                (SizeRangeAnalyzer.responses c)) as (r & -> & _); done.
  - rewrite (ranges_of_below 10) by (done || lia). done.
Qed.

Lemma sort_values_desc_elem_of (l : list SizeRangeAnalyzer.CourseRow)
    (c : SizeRangeAnalyzer.CourseRow) :
  c ∈ SizeRangeAnalyzer.sort_values_desc l ↔ c ∈ l.
Proof. by rewrite sort_values_desc_Permutation. Qed.



(** ** The frame [load_data] builds *)

Lemma survey_cols_of_spec (columns : list string) (c : string) :
  c ∈ SurveyDataAnalyzer.survey_cols_of columns
  ↔ c ∈ columns ∧ String.prefix "설문" c = true ∧ c ≠ "설문8".
Proof.
  unfold SurveyDataAnalyzer.survey_cols_of. rewrite list_elem_of_filter. tauto.
Qed.

Lemma question_1_survey_col (columns : list string) :
  "설문1" ∈ SurveyDataAnalyzer.survey_cols_of columns ↔ "설문1" ∈ columns.
Proof.
  rewrite survey_cols_of_spec. split; [by intros [? _]|].
  intros Hin. split; [done|]. split; [reflexivity|discriminate].
Qed.

Lemma validate_None (columns : list string) :
  SurveyDataAnalyzer.validate columns = None
  ↔ (∀ c, c ∈ SurveyDataAnalyzer.required_cols → c ∈ columns) ∧
    SurveyDataAnalyzer.survey_cols_of columns ≠ [].
Proof.
  unfold SurveyDataAnalyzer.validate. rewrite <- missing_from_nil.
  repeat case_decide; split; try done; try tauto.
Qed.

Lemma prefix_app (p s : string) :
  String.prefix p s = true → ∃ rest, s = p +:+ rest.
Proof.
  revert s. induction p as [|a p IH]; intros s Hp; [exists s; reflexivity|].
  destruct s as [|b s]; [done|]. cbn in Hp.
  destruct (Ascii.ascii_dec a b) as [<-|]; [|done].
  apply IH in Hp as [rest ->]. exists rest. reflexivity.
Qed.

(** A survey column starts with [설문]. *)
Lemma survey_col_head (columns : list string) (col : string) :
  col ∈ SurveyDataAnalyzer.survey_cols_of columns →
  ∃ rest, col = "설문" +:+ rest.
Proof. intros (_ & Hprefix & _)%survey_cols_of_spec. by apply prefix_app. Qed.

(** The flattened column names: none is [course_id], so the [rename] of
    [load_data] changes nothing, and none is [교과목명]. *)
Lemma flat_columns_names (columns : list string) (c : string) :
  c ∈ SurveyDataAnalyzer.flat_columns (SurveyDataAnalyzer.survey_cols_of columns) →
  c ≠ "course_id" ∧ c ≠ "교과목명".
Proof.
  unfold SurveyDataAnalyzer.flat_columns.
  rewrite !elem_of_app, list_elem_of_bind.
  intros [Hc|[(col & Hc & Hcol)|Hc]].
  - repeat (apply elem_of_cons in Hc as [->|Hc]; [by split|]).
    by apply elem_of_nil in Hc.
  - apply survey_col_head in Hcol as [rest ->].
    repeat (apply elem_of_cons in Hc as [->|Hc]; [by split|]).
    by apply elem_of_nil in Hc.
  - repeat (apply elem_of_cons in Hc as [->|Hc]; [by split|]).
    by apply elem_of_nil in Hc.
Qed.

Lemma rename_flat_columns (columns : list string) :
  SurveyDataAnalyzer.rename "course_id" "교과목명"
    <$> SurveyDataAnalyzer.flat_columns (SurveyDataAnalyzer.survey_cols_of columns)
  = SurveyDataAnalyzer.flat_columns (SurveyDataAnalyzer.survey_cols_of columns).
Proof.
  pose proof (flat_columns_names columns) as Hnames.
  induction (SurveyDataAnalyzer.flat_columns _) as [|c l IH]; [done|].
  rewrite fmap_cons, IH by (intros c' Hc'; apply Hnames; by right).
  unfold SurveyDataAnalyzer.rename. rewrite decide_False; [done|].
  apply Hnames. by left.
Qed.

(** What [course_stats] does, by the header of the file. *)
Lemma course_stats_cases (df : SurveyDataAnalyzer.Frame) :
  SurveyDataAnalyzer.course_stats df
  = match SurveyDataAnalyzer.validate (SurveyDataAnalyzer.columns df) with
    | Some e => SurveyDataAnalyzer.Raise e
    | None =>
        let survey_cols :=
          SurveyDataAnalyzer.survey_cols_of (SurveyDataAnalyzer.columns df) in
        if decide ("설문1" ∈ SurveyDataAnalyzer.columns df) then
          SurveyDataAnalyzer.Ok
            {| SizeRangeAnalyzer.frame_columns :=
                 SurveyDataAnalyzer.flat_columns survey_cols;
               SizeRangeAnalyzer.frame_rows :=
                 SurveyDataAnalyzer.course_row survey_cols
                   <$> @merge_sort _ SurveyDataAnalyzer.entry_le
                         SurveyDataAnalyzer.entry_le_dec
                         (map_to_list
                            (Pandas.groupby SurveyDataAnalyzer.group_key
                               (SurveyDataAnalyzer.rows df))) |}
        else SurveyDataAnalyzer.Raise (SurveyDataAnalyzer.KeyError "설문1_count")
    end.
Proof.
  unfold SurveyDataAnalyzer.course_stats.
  destruct (SurveyDataAnalyzer.validate _); [done|]. cbn zeta.
  rewrite rename_flat_columns.
  destruct (decide ("설문1" ∈ SurveyDataAnalyzer.columns df)) as [Hin|Hn].
  - by rewrite decide_True by by apply question_1_survey_col.
  - by rewrite decide_False by by rewrite question_1_survey_col.
Qed.

(** X8: [load_data] gets as far as the course-level frame exactly when
    the header has the three required columns and the column [설문1].  The
    frame then has the columns [course_id_] and [개설단과대학_], a [_count]
    and a [_mean] column for every survey column, [응답자 수] and
    [평균 점수], and no column [교과목명].  A header with the required
    columns and survey columns but without [설문1] gives
    [KeyError] for [설문1_count]; every other header gives [ValueError]. *)
Theorem course_stats_header (df : SurveyDataAnalyzer.Frame) :
  let cols := SurveyDataAnalyzer.columns df in
  let required := ∀ c, c ∈ SurveyDataAnalyzer.required_cols → c ∈ cols in
  match SurveyDataAnalyzer.course_stats df with
  | SurveyDataAnalyzer.Ok stats =>
      required ∧ "설문1" ∈ cols ∧
      SizeRangeAnalyzer.frame_columns stats
      = ["course_id_"; "개설단과대학_"]
        ++ (SurveyDataAnalyzer.survey_cols_of cols
              ≫= λ col, [col +:+ "_count"; col +:+ "_mean"])
        ++ ["응답자 수"; "평균 점수"] ∧
      "교과목명" ∉ SizeRangeAnalyzer.frame_columns stats
  | SurveyDataAnalyzer.Raise (SurveyDataAnalyzer.KeyError key) =>
      key = "설문1_count" ∧ required ∧ ("설문1" ∉ cols) ∧
      SurveyDataAnalyzer.survey_cols_of cols ≠ []
  | SurveyDataAnalyzer.Raise (SurveyDataAnalyzer.ValueError msg) =>
      ¬ required ∨ SurveyDataAnalyzer.survey_cols_of cols = []
  end.
Proof.
  cbn zeta. rewrite course_stats_cases.
  destruct (SurveyDataAnalyzer.validate _) as [e|] eqn:Hval.
  - assert (¬ ((∀ c, c ∈ SurveyDataAnalyzer.required_cols
                     → c ∈ SurveyDataAnalyzer.columns df) ∧
               SurveyDataAnalyzer.survey_cols_of (SurveyDataAnalyzer.columns df) ≠ []))
      as Hnot by (rewrite <- validate_None, Hval; done).
    unfold SurveyDataAnalyzer.validate in Hval.
    repeat case_decide; simplify_eq; [by right|].
    left. intros Hreq. apply Hnot. split; [done|]. 
    by rewrite missing_from_nil in *.
  - apply validate_None in Hval as [Hreq Hsurvey]. cbn zeta.
    case_decide as Hq1; [|done].
    split; [done|]. split; [done|]. cbn [SizeRangeAnalyzer.frame_columns].
    split; [done|]. intros Hin. by apply flat_columns_names in Hin as [_ ?].
Qed.

Lemma course_stats_columns (df : SurveyDataAnalyzer.Frame)
    (stats : SizeRangeAnalyzer.CourseFrame) :
  SurveyDataAnalyzer.course_stats df = SurveyDataAnalyzer.Ok stats →
  "응답자 수" ∈ SizeRangeAnalyzer.frame_columns stats ∧
  "평균 점수" ∈ SizeRangeAnalyzer.frame_columns stats ∧
  "교과목명" ∉ SizeRangeAnalyzer.frame_columns stats.
Proof.
  rewrite course_stats_cases.
  destruct (SurveyDataAnalyzer.validate _); [done|]. cbn zeta.
  case_decide; [|done]. intros [= <-]. cbn [SizeRangeAnalyzer.frame_columns].
  split; [|split].
  - unfold SurveyDataAnalyzer.flat_columns. rewrite !elem_of_app.
    right. right. by left.
  - unfold SurveyDataAnalyzer.flat_columns. rewrite !elem_of_app.
    right. right. right. by left.
  - intros Hin. by apply flat_columns_names in Hin as [_ ?].
Qed.

(** X10: [load_data] returns [True] only for an upload in which no course
    reaches ten responses.  Once the course-level frame is built, it is
    kept in [self.data]; if every course has fewer than ten responses the
    call returns [True]; otherwise listing the top courses of a size range
    asks for the column [교과목명], which the frame does not have, the
    [KeyError] (whose text is ['교과목명'] not in index) is caught and the
    call returns [False].  When the frame
    cannot be built the error is caught, nothing is stored and the call
    returns [False]. *)
Theorem load_data_outcome (df : SurveyDataAnalyzer.Frame) :
  match SurveyDataAnalyzer.course_stats df with
  | SurveyDataAnalyzer.Raise e =>
      SurveyDataAnalyzer.load_data df
      = SurveyDataAnalyzer.mkOutcome false None (Some e)
  | SurveyDataAnalyzer.Ok stats =>
      SurveyDataAnalyzer.load_data df
      = if decide (Forall (λ c, SizeRangeAnalyzer.responses c < 10)
                     (SizeRangeAnalyzer.frame_rows stats))
        then SurveyDataAnalyzer.mkOutcome true (Some stats) None
        else SurveyDataAnalyzer.mkOutcome false (Some stats)
               (Some (SurveyDataAnalyzer.KeyError "['교과목명'] not in index"))
  end.
Proof.
  unfold SurveyDataAnalyzer.load_data.
  destruct (SurveyDataAnalyzer.course_stats df) as [stats|e] eqn:Hstats; [|done].
  destruct (course_stats_columns df stats Hstats) as (Hresp & Hscore & Hname).
  rewrite process_data_cases.
  rewrite (decide_True _ _ Hresp).
  case_decide; [done|].
  by rewrite (decide_True _ _ Hscore), (decide_False _ _ Hname).
Qed.

(** ** One row per course *)

#[local] Instance key_le_total : Total SurveyDataAnalyzer.key_le.
Proof.
  intros a b. unfold SurveyDataAnalyzer.key_le.
  destruct (decide (a.1 = b.1)) as [Heq|Hne].
  - rewrite decide_True by done. apply (total String.le).
  - rewrite decide_False by (intros ?; by apply Hne). apply (total String.le).
Qed.

#[local] Instance key_le_trans : Transitive SurveyDataAnalyzer.key_le.
Proof.
  intros [a1 a2] [b1 b2] [c1 c2]. unfold SurveyDataAnalyzer.key_le. cbn.
  destruct (decide (a1 = b1)) as [->|Hab], (decide (b1 = c1)) as [->|Hbc];
    intros H1 H2.
  - by etrans.
  - done.
  - by rewrite decide_False.
  - destruct (decide (a1 = c1)) as [->|Hac]; [|by etrans].
    destruct Hbc. by apply (anti_symm String.le).
Qed.

#[local] Instance entry_le_total : Total SurveyDataAnalyzer.entry_le.
Proof. intros a b. apply (total SurveyDataAnalyzer.key_le). Qed.

#[local] Instance entry_le_trans : Transitive SurveyDataAnalyzer.entry_le.
Proof. intros a b c. apply (transitivity (R := SurveyDataAnalyzer.key_le)). Qed.

(** X9: the course-level frame of [load_data] has exactly one row for
    every pair of a course identifier and a college that occurs in a row of
    the upload in which the course name, the section number and the college
    are all present (a row that lacks one of them has no course identifier
    or no college, and belongs to no course); the rows are in ascending
    order of that pair (course identifier first), no pair occurs twice, and
    there are at most as many courses as rows in the upload. *)
Theorem course_stats_one_row_per_course (df : SurveyDataAnalyzer.Frame)
    (stats : SizeRangeAnalyzer.CourseFrame) :
  SurveyDataAnalyzer.course_stats df = SurveyDataAnalyzer.Ok stats →
  let keys :=
    (λ c, (SizeRangeAnalyzer.course_id c, SizeRangeAnalyzer.course_college c))
      <$> SizeRangeAnalyzer.frame_rows stats in
  NoDup keys ∧
  StronglySorted SurveyDataAnalyzer.key_le keys ∧
  (∀ id c,
     (id, c) ∈ keys
     ↔ ∃ r name number,
         r ∈ SurveyDataAnalyzer.rows df ∧
         SurveyDataAnalyzer.course_name r = Some name ∧
         SurveyDataAnalyzer.section r = Some number ∧
         id = name +:+ " (" +:+ number +:+ ")" ∧
         SurveyDataAnalyzer.college r = Some c) ∧
  (length (SizeRangeAnalyzer.frame_rows stats)
   ≤ length (SurveyDataAnalyzer.rows df))%nat.
Proof.
  intros Hstats. destruct (course_stats_keys df stats Hstats) as [Hnodup Hkeys].
  cbn zeta. split; [done|]. split; [|split].
  - revert Hstats. rewrite course_stats_cases.
    destruct (SurveyDataAnalyzer.validate _); [done|]. cbn zeta.
    case_decide; [|done]. intros [= <-]. cbn [SizeRangeAnalyzer.frame_rows].
    set (sorted := merge_sort _ _).
    assert ((λ c, (SizeRangeAnalyzer.course_id c, SizeRangeAnalyzer.course_college c))
              <$> (SurveyDataAnalyzer.course_row
                     (SurveyDataAnalyzer.survey_cols_of (SurveyDataAnalyzer.columns df))
                     <$> sorted)
            = fst <$> sorted) as ->.
    { rewrite <- list_fmap_compose. apply list_fmap_ext.
      intros i [[id c] g] _. reflexivity. }
    apply (StronglySorted_fmap _ SurveyDataAnalyzer.entry_le); [done|].
    apply StronglySorted_merge_sort; apply _.
  - intros id c. rewrite Hkeys. split.
    + intros (r & Hr & Hid & Hc). unfold SurveyDataAnalyzer.course_id in Hid.
      destruct (SurveyDataAnalyzer.course_name r) as [name|] eqn:Hname; [|done].
      destruct (SurveyDataAnalyzer.section r) as [number|] eqn:Hnumber; [|done].
      cbn in Hid. injection Hid as <-. by exists r, name, number.
    + intros (r & name & number & Hr & Hname & Hnumber & -> & Hc).
      exists r. split; [done|]. split; [|done].
      unfold SurveyDataAnalyzer.course_id. by rewrite Hname, Hnumber.
  - revert Hstats. rewrite course_stats_cases.
    destruct (SurveyDataAnalyzer.validate _); [done|]. cbn zeta.
    case_decide; [|done]. intros [= <-]. cbn [SizeRangeAnalyzer.frame_rows].
    rewrite length_fmap, merge_sort_Permutation, length_map_to_list.
    rewrite groupby_size.
    etrans; [apply length_remove_dups_le|].
    etrans; [apply length_omap_le|]. by rewrite length_fmap.
Qed.

Lemma course_stats_one_row_per_course_example :
  SurveyDataAnalyzer.course_stats example_upload
  = SurveyDataAnalyzer.Ok example_stats ∧
  NoDup ((λ c, (SizeRangeAnalyzer.course_id c, SizeRangeAnalyzer.course_college c))
           <$> SizeRangeAnalyzer.frame_rows example_stats).
Proof.
  assert (SurveyDataAnalyzer.course_stats example_upload
          = SurveyDataAnalyzer.Ok example_stats) as Hstats by (by vm_compute).
  split; [exact Hstats|].
  exact (proj1 (course_stats_one_row_per_course example_upload example_stats Hstats)).
Defined.

(** ** The class size report *)

Lemma class_sizes_lookup (codes : list (option string)) (code : string) :
  ClassSize.class_sizes codes !! code
  = match Pandas.rows_with id code codes with
    | [] => None
    | g => Some (length g, ClassSize.categorize_size (Z.of_nat (length g)))
    end.
Proof.
  unfold ClassSize.class_sizes. rewrite lookup_fmap, groupby_lookup.
  by destruct (Pandas.rows_with id code codes).
Qed.

Lemma class_sizes_size (codes : list (option string)) :
  size (ClassSize.class_sizes codes) = 0%nat ↔ ∀ code, Some code ∉ codes.
Proof.
  unfold ClassSize.class_sizes. rewrite map_size_fmap, groupby_size.
  rewrite list_fmap_id. split.
  - intros Hlen code Hin.
    assert (code ∈ remove_dups (omap id codes)) as Hc.
    { apply elem_of_remove_dups, list_elem_of_omap. by exists (Some code). }
    destruct (remove_dups (omap id codes)); [by apply elem_of_nil in Hc|done].
  - intros Hnone. destruct (remove_dups (omap id codes)) as [|code l] eqn:Hl; [done|].
    assert (code ∈ remove_dups (omap id codes)) as Hc by (rewrite Hl; by left).
    apply elem_of_remove_dups, list_elem_of_omap in Hc as ([c|] & Hin & [= ->]).
    by destruct (Hnone code).
Qed.

Lemma class_sizes_pos (codes : list (option string)) :
  size (ClassSize.class_sizes codes) ≠ 0%nat → ∃ code, Some code ∈ codes.
Proof.
  unfold ClassSize.class_sizes. rewrite map_size_fmap, groupby_size.
  rewrite list_fmap_id.
  destruct (remove_dups (omap id codes)) as [|code l] eqn:Hl; [done|]. intros _.
  assert (code ∈ remove_dups (omap id codes)) as Hc by (rewrite Hl; by left).
  apply elem_of_remove_dups, list_elem_of_omap in Hc as ([c|] & Hin & [= ->]).
  by exists code.
Qed.

(** Every row of the table is counted under exactly one category. *)
Lemma size_counts_total (rows : list (string * (nat * string))) :
  Forall (λ row, row.2.2 ∈ ClassSizeAnalyzer.size_categories) rows →
  sum_list ((λ cat, length (filter (λ row, row.2.2 = cat) rows))
              <$> ClassSizeAnalyzer.size_categories)
  = length rows.
Proof.
  unfold ClassSizeAnalyzer.size_categories. cbn [fmap list_fmap sum_list_with id].
  induction 1 as [|row rows Hrow _ IH]; [done|].
  rewrite !filter_cons. cbn [length]. rewrite <- IH.
  destruct row as [code [students sz]]. cbn [snd] in Hrow |- *.
  repeat (apply elem_of_cons in Hrow as [->|Hrow];
          [repeat case_decide; try done; cbn [length]; lia|]).
  by apply elem_of_nil in Hrow.
Qed.

Lemma report_loop_cases (class_sizes : gmap string (nat * string))
    (categories : list string) :
  ClassSizeAnalyzer.report_loop class_sizes categories
  = if decide (size class_sizes = 0%nat) then
      ([], match categories with
           | [] => None
           | _ => Some ClassSizeAnalyzer.ZeroDivisionError
           end)
    else
      ((λ cat,
          (cat, ClassSizeAnalyzer.size_count class_sizes cat,
           (Pandas.of_nat (ClassSizeAnalyzer.size_count class_sizes cat)
            / Pandas.of_nat (size class_sizes) * Q2Qc 100)%Qc))
         <$> categories, None).
Proof.
  induction categories as [|cat categories IH]; cbn.
  - by case_decide.
  - unfold ClassSizeAnalyzer.report_line. rewrite IH.
    by destruct (decide (size class_sizes = 0%nat)).
Qed.

Lemma of_nat_div_self (n : nat) :
  n ≠ 0%nat → (Pandas.of_nat n / Pandas.of_nat n)%Qc = Q2Qc 1.
Proof.
  intros Hn. unfold Qcdiv. apply Qcmult_inv_r. by intros ?%of_nat_eq_0.
Qed.


(** ** Course types by keyword *)

Lemma prefix_app_r (p s : string) : String.prefix p (p +:+ s) = true.
Proof.
  induction p as [|a p IH].
  - change (EmptyString +:+ s) with s. by destruct s.
  - change (String a p +:+ s) with (String a (p +:+ s)). cbn [String.prefix].
    destruct (Ascii.ascii_dec a a); [exact IH|done].
Qed.

(** [contains] decides whether the keyword occurs in the name. *)
Lemma contains_occurs (keyword course : string) :
  SizeRangeAnalyzer.contains keyword course = true ↔ occurs keyword course.
Proof.
  split.
  - induction course as [|a course IH].
    + cbn [SizeRangeAnalyzer.contains]. rewrite orb_false_r.
      intros [rest Hrest]%prefix_app.
      exists EmptyString, rest. exact Hrest.
    + cbn [SizeRangeAnalyzer.contains].
      intros [[rest Hrest]%prefix_app|Hc]%orb_true_iff.
      * exists EmptyString, rest. exact Hrest.
      * destruct (IH Hc) as (pre & post & ->).
        exists (String a pre), post. reflexivity.
  - intros (pre & post & ->). induction pre as [|a pre IH].
    + change (EmptyString +:+ keyword +:+ post) with (keyword +:+ post).
      destruct (keyword +:+ post) eqn:Hk; cbn [SizeRangeAnalyzer.contains];
        rewrite <- Hk, prefix_app_r; done.
    + change (String a pre +:+ keyword +:+ post)
        with (String a (pre +:+ keyword +:+ post)).
      cbn [SizeRangeAnalyzer.contains]. rewrite IH. apply orb_true_r.
Qed.

Lemma keyword_count_pos (course_names : list string) (keyword : string) :
  (0 < SizeRangeAnalyzer.keyword_count course_names keyword)%nat
  ↔ ∃ course, course ∈ course_names ∧ occurs keyword course.
Proof.
  unfold SizeRangeAnalyzer.keyword_count. split.
  - destruct (filter _ course_names) as [|course l] eqn:Hf; [cbn; lia|].
    intros _.
    assert (course ∈ filter
              (λ course, SizeRangeAnalyzer.contains keyword course = true)
              course_names) as [Hc Hin]%list_elem_of_filter
      by (rewrite Hf; by left).
    exists course. split; [done|]. by apply contains_occurs.
  - intros (course & Hin & Hc%contains_occurs).
    assert (course ∈ filter
              (λ course, SizeRangeAnalyzer.contains keyword course = true)
              course_names) as Hf by by apply list_elem_of_filter.
    destruct (filter _ course_names); [by apply elem_of_nil in Hf|cbn; lia].
Qed.

(** A list of keywords joined by commas starts like its first keyword,
    and none of the keywords starts like the fallback text. *)
Lemma join_keywords_not_fallback (k : string) (rest : list string) :
  k ∈ SizeRangeAnalyzer.keywords →
  String.concat ", " (k :: rest) ≠ "다양한 유형의 강좌" ∧
  String.concat ", " (k :: rest) ≠ EmptyString.
Proof.
  unfold SizeRangeAnalyzer.keywords. intros Hk.
  repeat (apply elem_of_cons in Hk as [->|Hk];
          [by destruct rest|]).
  by apply elem_of_nil in Hk.
Qed.

(** X14: [_analyze_course_types] lists exactly the keywords that occur in
    at least one of the course names, in the order of the keyword
    dictionary and joined by commas; it gives the fallback text exactly
    when no keyword occurs in any name (so for an empty list of names);
    and it never gives the empty string. *)
Theorem analyze_course_types_keywords (course_names : list string) :
  let types := SizeRangeAnalyzer.relevant_types course_names in
  let result := SizeRangeAnalyzer._analyze_course_types course_names in
  (∀ keyword,
     keyword ∈ types
     ↔ keyword ∈ SizeRangeAnalyzer.keywords ∧
       ∃ course, course ∈ course_names ∧ occurs keyword course) ∧
  types `sublist_of` SizeRangeAnalyzer.keywords ∧
  (result = "다양한 유형의 강좌" ↔ types = []) ∧
  (types ≠ [] → result = String.concat ", " types) ∧
  result ≠ EmptyString.
Proof.
  cbn zeta.
  assert (∀ k rest, SizeRangeAnalyzer.relevant_types course_names = k :: rest →
                    k ∈ SizeRangeAnalyzer.keywords) as Hhead.
  { intros k rest Hk.
    assert (k ∈ SizeRangeAnalyzer.relevant_types course_names) as Hin
      by (rewrite Hk; by left).
    by apply list_elem_of_filter in Hin as [_ ?]. }
  split; [|split; [|split; [|split]]].
  - intros keyword. unfold SizeRangeAnalyzer.relevant_types.
    rewrite list_elem_of_filter, keyword_count_pos. tauto.
  - apply sublist_filter.
  - unfold SizeRangeAnalyzer._analyze_course_types.
    destruct (SizeRangeAnalyzer.relevant_types course_names) as [|k rest] eqn:Hk;
      [done|].
    split; [|done]. intros Hfallback.
    by destruct (join_keywords_not_fallback k rest (Hhead k rest eq_refl)) as [? _].
  - unfold SizeRangeAnalyzer._analyze_course_types.
    by destruct (SizeRangeAnalyzer.relevant_types course_names).
  - unfold SizeRangeAnalyzer._analyze_course_types.
    destruct (SizeRangeAnalyzer.relevant_types course_names) as [|k rest] eqn:Hk;
      [done|].
    by destruct (join_keywords_not_fallback k rest (Hhead k rest eq_refl)) as [_ ?].
Qed.

(** ** The score distribution and the response rate *)

Lemma qsum_add {A : Type} (f g : A → Qc) (l : list A) :
  foldr Qcplus 0%Qc ((λ i, f i + g i)%Qc <$> l)
  = (foldr Qcplus 0%Qc (f <$> l) + foldr Qcplus 0%Qc (g <$> l))%Qc.
Proof.
  induction l as [|i l IH]; cbn; [ring|]. rewrite IH. ring.
Qed.

Lemma dropna_fmap_Some (l : list Qc) : Pandas.dropna (Some <$> l) = l.
Proof. induction l as [|x l IH]; [done|]. cbn. by f_equal. Qed.

(** The number of rows whose cell of question [i] passes a test. *)
Lemma share_Some (test : option Qc → bool) (df : list Survey.Row) :
  df ≠ [] →
  MetricsCalculator.share test df
  = Some (foldr Qcplus 0%Qc
            ((λ i, Pandas.of_nat
                     (length (filter (λ r, test (Survey.survey_cell i r) = true) df))
                   / Pandas.of_nat (length df))%Qc <$> Survey.survey_cols)
          / Pandas.of_nat (length Survey.survey_cols) * Q2Qc 100)%Qc.
Proof.
  intros Hdf. unfold MetricsCalculator.share. rewrite mean_arith_mean.
  assert ((λ i, MetricsCalculator.bool_mean
                  ((λ r, test (Survey.survey_cell i r)) <$> df))
            <$> Survey.survey_cols
          = Some <$> ((λ i, Pandas.of_nat
                              (length (filter (λ r, test (Survey.survey_cell i r) = true) df))
                            / Pandas.of_nat (length df))%Qc <$> Survey.survey_cols))
    as ->.
  { rewrite <- list_fmap_compose. apply list_fmap_ext. intros _ i _. cbn.
    unfold MetricsCalculator.bool_mean.
    rewrite decide_False by (by destruct df).
    rewrite length_fmap. do 3 f_equal.
    clear Hdf. induction df as [|r df IH]; [done|].
    rewrite fmap_cons, !filter_cons.
    destruct (test (Survey.survey_cell i r)).
    - rewrite !decide_True by done. cbn. by rewrite IH.
    - rewrite !decide_False by done. exact IH. }
  rewrite dropna_fmap_Some. reflexivity.
Qed.

Lemma share_None (test : option Qc → bool) :
  MetricsCalculator.share test [] = None.
Proof. reflexivity. Qed.

(** A cell that holds a value passes exactly one of the three tests; an
    empty cell passes none. *)
Lemma tests_partition (x : option Qc) :
  (Nat.b2n (MetricsCalculator.high x) + Nat.b2n (MetricsCalculator.medium x)
   + Nat.b2n (MetricsCalculator.low x))%nat
  = Nat.b2n (Pandas.notna x).
Proof.
  destruct x as [v|]; [|done]. cbn.
  destruct (Qclt_le_dec v (Q2Qc 3)) as [Hlow|Hlow].
  - rewrite (bool_decide_true (v < Q2Qc 3)%Qc) by done.
    rewrite (bool_decide_false (Q2Qc 3 ≤ v)%Qc) by by apply Qclt_not_le.
    rewrite (bool_decide_false (Q2Qc (9 # 2) ≤ v)%Qc); [done|].
    apply Qclt_not_le. by apply (Qclt_trans _ (Q2Qc 3)).
  - rewrite (bool_decide_false (v < Q2Qc 3)%Qc) by by apply Qcle_not_lt.
    rewrite (bool_decide_true (Q2Qc 3 ≤ v)%Qc) by done.
    destruct (Qclt_le_dec v (Q2Qc (9 # 2))) as [Hmed|Hmed].
    + rewrite (bool_decide_true (v < Q2Qc (9 # 2))%Qc) by done.
      by rewrite (bool_decide_false (Q2Qc (9 # 2) ≤ v)%Qc) by by apply Qclt_not_le.
    + rewrite (bool_decide_false (v < Q2Qc (9 # 2))%Qc) by by apply Qcle_not_lt.
      by rewrite (bool_decide_true (Q2Qc (9 # 2) ≤ v)%Qc) by done.
Qed.

Lemma length_filter_b2n {A : Type} (test : A → bool) (l : list A) :
  length (filter (λ r, test r = true) l) = sum_list ((λ r, Nat.b2n (test r)) <$> l).
Proof.
  induction l as [|r l IH]; [done|]. rewrite filter_cons, fmap_cons.
  cbn [sum_list_with id]. destruct (test r).
  - rewrite decide_True by done. cbn. by rewrite IH.
  - rewrite decide_False by done. cbn. by rewrite IH.
Qed.

Lemma tests_partition_counts (i : nat) (df : list Survey.Row) :
  (length (filter (λ r, MetricsCalculator.high (Survey.survey_cell i r) = true) df)
   + length (filter (λ r, MetricsCalculator.medium (Survey.survey_cell i r) = true) df)
   + length (filter (λ r, MetricsCalculator.low (Survey.survey_cell i r) = true) df))%nat
  = length (filter (λ r, Pandas.notna (Survey.survey_cell i r) = true) df).
Proof.
  rewrite !(length_filter_b2n (λ r, _ (Survey.survey_cell i r))).
  induction df as [|r df IH]; [done|]. rewrite !fmap_cons.
  cbn [sum_list_with id]. rewrite <- IH, <- (tests_partition (Survey.survey_cell i r)).
  lia.
Qed.


(** ** Bounds of the combined score and of its GPA equivalent *)

Lemma of_nat_pos (n : nat) : (0 < n)%nat → (0 < Pandas.of_nat n)%Qc.
Proof.
  intros Hn. unfold Qclt, Pandas.of_nat. cbn [this Q2Qc].
  rewrite !Qred_correct. unfold Qlt. cbn. lia.
Qed.

Lemma of_nat_S (n : nat) : Pandas.of_nat (S n) = (Q2Qc 1 + Pandas.of_nat n)%Qc.
Proof. change (S n) with (1 + n)%nat. rewrite of_nat_add. f_equal. Qed.

Lemma qsum_bounds (l : list Qc) (lo hi : Qc) :
  Forall (λ v, lo ≤ v ≤ hi)%Qc l →
  (lo * Pandas.of_nat (length l) ≤ foldr Qcplus 0%Qc l
   ≤ hi * Pandas.of_nat (length l))%Qc.
Proof.
  induction 1 as [|v l [Hlo Hhi] _ [IHlo IHhi]].
  - cbn. change (Pandas.of_nat 0) with 0%Qc. rewrite !Qcmult_0_r. done.
  - cbn [length foldr]. rewrite of_nat_S. split.
    + replace (lo * (Q2Qc 1 + Pandas.of_nat (length l)))%Qc
        with (lo + lo * Pandas.of_nat (length l))%Qc by ring.
      by apply Qcplus_le_compat.
    + replace (hi * (Q2Qc 1 + Pandas.of_nat (length l)))%Qc
        with (hi + hi * Pandas.of_nat (length l))%Qc by ring.
      by apply Qcplus_le_compat.
Qed.

(** The mean of numbers between two bounds lies between the bounds. *)
Lemma arith_mean_bounds (l : list Qc) (lo hi m : Qc) :
  Forall (λ v, lo ≤ v ≤ hi)%Qc l → arith_mean l = Some m → (lo ≤ m ≤ hi)%Qc.
Proof.
  intros Hl Hm. destruct l as [|v l]; [done|].
  unfold arith_mean in Hm.
  pose proof (qsum_bounds _ lo hi Hl) as [Hlo Hhi].
  assert (0 < Pandas.of_nat (length (v :: l)))%Qc as Hn
    by (apply of_nat_pos; cbn; lia).
  revert Hm Hlo Hhi Hn.
  generalize (foldr Qcplus 0%Qc (v :: l)) (Pandas.of_nat (length (v :: l))).
  intros s n [= <-] Hlo Hhi Hn.
  assert (n ≠ 0%Qc) as Hn0.
  { intros H0. rewrite H0 in Hn. by apply Qclt_not_le in Hn. }
  assert ((s / n * n)%Qc = s) as Hdiv.
  { unfold Qcdiv. rewrite <- Qcmult_assoc, (Qcmult_comm (/ n)), Qcmult_inv_r by done.
    apply Qcmult_1_r. }
  split.
  - apply (Qcmult_lt_0_le_reg_r _ _ n Hn). by rewrite Hdiv.
  - apply (Qcmult_lt_0_le_reg_r _ _ n Hn). by rewrite Hdiv.
Qed.

(** X16: the GPA equivalent of a response is the combined score (the
    mean of its answered questions) times 0.9, and is NaN exactly when no
    question is answered.  When every answer lies between two bounds, so
    does the combined score, and the GPA equivalent lies between 0.9 times
    the bounds: between 0 and 4.5 for answers between 0 and 5. *)
Theorem gpa_equiv_bounds (r : Survey.Row) (lo hi : Qc) :
  Forall (λ v, lo ≤ v ≤ hi)%Qc (Pandas.dropna (Survey.items r)) →
  match MetricsCalculator.gpa_equiv r, Survey.SurveyCombined r with
  | Some gpa, Some combined =>
      gpa = (combined * Q2Qc (9 # 10))%Qc ∧
      (lo ≤ combined ≤ hi)%Qc ∧
      (lo * Q2Qc (9 # 10) ≤ gpa ≤ hi * Q2Qc (9 # 10))%Qc
  | None, None => Forall (λ x, x = None) (Survey.items r)
  | _, _ => False
  end.
Proof.
  intros Hitems. unfold MetricsCalculator.gpa_equiv.
  pose proof (SurveyCombined_None r) as Hnone.
  unfold Survey.SurveyCombined in *.
  destruct (Pandas.mean (Survey.items r)) as [c|] eqn:Hc; cbn; [|by apply Hnone].
  rewrite mean_arith_mean in Hc.
  pose proof (arith_mean_bounds _ lo hi c Hitems Hc) as [Hlo Hhi].
  assert (MetricsCalculator.gpa_scale = Q2Qc (9 # 10)) as -> by qc_eq.
  assert (0 ≤ Q2Qc (9 # 10))%Qc as Hscale by done.
  split; [done|]. split; [done|].
  split; by apply Qcmult_le_compat_r.
Qed.

Lemma gpa_equiv_bounds_example :
  Forall (λ v, Q2Qc 0 ≤ v ≤ Q2Qc 5)%Qc
    (Pandas.dropna (Survey.items example_response)) ∧
  ∃ gpa,
    MetricsCalculator.gpa_equiv example_response = Some gpa ∧
    (Q2Qc 0 * Q2Qc (9 # 10) ≤ gpa ≤ Q2Qc 5 * Q2Qc (9 # 10))%Qc.
Proof.
  assert (Forall (λ v, Q2Qc 0 ≤ v ≤ Q2Qc 5)%Qc
            (Pandas.dropna (Survey.items example_response))) as Hitems.
  { cbn. repeat constructor; by vm_compute. }
  split; [exact Hitems|].
  pose proof (gpa_equiv_bounds example_response _ _ Hitems) as Hgpa.
  assert (MetricsCalculator.gpa_equiv example_response = Some (Q2Qc (81 # 20)))
    as Hval by qc_eq.
  assert (Survey.SurveyCombined example_response = Some (Q2Qc (9 # 2)))
    as Hcombined by qc_eq.
  rewrite Hval, Hcombined in Hgpa.
  exists (Q2Qc (81 # 20)). split; [exact Hval|]. by destruct Hgpa as (_ & _ & ?).
Defined.

(** ** Keys converted to strings *)

Section convert_keys.
Import MetricsCalculator.
Context {V : Type}.

(** Induction on objects, with the property known for what they hold. *)
Lemma obj_ind' (P : obj V → Prop) :
  (∀ items, Forall (λ kv, P kv.2) items → P (Dict items)) →
  (∀ elems, Forall P elems → P (List elems)) →
  (∀ v, P (Other v)) →
  ∀ o, P o.
Proof.
  intros HDict HList HOther. fix IH 1. intros [items|elems|v].
  - apply HDict. induction items as [|[k o] items IHitems]; constructor.
    + apply IH.
    + exact IHitems.
  - apply HList. induction elems as [|o elems IHelems]; constructor.
    + apply IH.
    + exact IHelems.
  - apply HOther.
Qed.

Lemma setitem_Forall {A : Type} (P : key * A → Prop) (d : list (key * A))
    (k : key) (v : A) :
  Forall P d → P (k, v) → Forall P (setitem d k v).
Proof.
  intros Hd Hkv. induction Hd as [|[k' v'] d Hk' Hd IH]; cbn.
  - by repeat constructor.
  - case_decide as Hk; [subst k'|]; by constructor.
Qed.

Lemma dict_of_Forall {A : Type} (P : key * A → Prop) (items : list (key * A)) :
  Forall P items → Forall P (dict_of items).
Proof.
  unfold dict_of. assert (Forall P ([] : list (key * A))) as Hacc by constructor.
  revert Hacc. generalize ([] : list (key * A)). intros acc Hacc Hitems.
  revert acc Hacc. induction Hitems as [|[k v] items Hkv _ IH]; intros acc Hacc; [done|].
  cbn. apply IH. by apply setitem_Forall.
Qed.

Lemma setitem_fresh {A : Type} (d : list (key * A)) (k : key) (v : A) :
  k ∉ d.*1 → setitem d k v = d ++ [(k, v)].
Proof.
  induction d as [|[k' v'] d IH]; [done|]. cbn. intros Hk.
  rewrite decide_False by (intros ->; apply Hk; by left).
  rewrite IH; [done|]. intros Hin. apply Hk. by right.
Qed.

Lemma setitem_keys {A : Type} (d : list (key * A)) (k : key) (v : A) :
  (setitem d k v).*1 = if decide (k ∈ d.*1) then d.*1 else d.*1 ++ [k].
Proof.
  induction d as [|[k' v'] d IH]; [done|]. cbn.
  destruct (decide (k' = k)) as [->|Hne].
  - by rewrite decide_True by by left.
  - cbn. rewrite IH. destruct (decide (k ∈ d.*1)) as [Hin|Hn].
    + by rewrite decide_True by by right.
    + rewrite decide_False; [done|].
      intros [?|?]%elem_of_cons; [by destruct Hne|done].
Qed.

Lemma setitem_NoDup {A : Type} (d : list (key * A)) (k : key) (v : A) :
  NoDup d.*1 → NoDup (setitem d k v).*1.
Proof.
  intros Hd. rewrite setitem_keys. case_decide as Hk; [done|].
  apply NoDup_app. split; [done|]. split; [|by apply NoDup_singleton].
  intros x Hx ->%list_elem_of_singleton. done.
Qed.

(** A dictionary never holds a key twice. *)
Lemma dict_of_NoDup {A : Type} (items : list (key * A)) :
  NoDup (dict_of items).*1.
Proof.
  unfold dict_of. assert (NoDup ([] : list (key * A)).*1) as Hacc by constructor.
  revert Hacc. generalize ([] : list (key * A)).
  induction items as [|[k v] items IH]; intros acc Hacc; [done|].
  cbn. apply IH. by apply setitem_NoDup.
Qed.

(** Items with distinct keys are stored as they are. *)
Lemma dict_of_distinct {A : Type} (items : list (key * A)) :
  NoDup items.*1 → dict_of items = items.
Proof.
  unfold dict_of.
  assert (∀ acc : list (key * A),
            NoDup (acc ++ items).*1 →
            foldl (λ d kv, setitem d kv.1 kv.2) acc items = acc ++ items) as Hgen.
  { induction items as [|[k v] items IH]; intros acc Hnd.
    - by rewrite app_nil_r.
    - cbn. rewrite setitem_fresh.
      + rewrite IH; [by rewrite <- app_assoc|]. by rewrite <- app_assoc.
      + rewrite fmap_app in Hnd. apply NoDup_app in Hnd as (_ & Hdisj & _).
        intros Hin. apply (Hdisj k Hin). by left. }
  intros Hnd. by apply (Hgen []).
Qed.

Lemma forallb_Forall {A : Type} (f : A → bool) (l : list A) :
  forallb f l = true ↔ Forall (λ x, f x = true) l.
Proof.
  induction l as [|x l IH]; cbn; [by split|].
  rewrite andb_true_iff, IH. split.
  - intros [? ?]. by constructor.
  - by inversion 1.
Qed.

Lemma convert_keys_str_keys (o : obj V) :
  str_keys (_convert_keys_to_str o) = true.
Proof.
  induction o as [items IH|elems IH|v] using obj_ind'; [| |done].
  - cbn [_convert_keys_to_str str_keys]. apply forallb_Forall, dict_of_Forall.
    rewrite Forall_fmap. eapply Forall_impl; [exact IH|].
    intros [k o] Ho. cbn in *. exact Ho.
  - cbn [_convert_keys_to_str str_keys]. apply forallb_Forall.
    by rewrite Forall_fmap.
Qed.

Lemma convert_keys_idemp (o : obj V) :
  _convert_keys_to_str (_convert_keys_to_str o) = _convert_keys_to_str o.
Proof.
  induction o as [items IH|elems IH|v] using obj_ind'; [| |done].
  - cbn. f_equal.
    set (g := λ kv : key * obj V, (Str (str kv.1), _convert_keys_to_str kv.2)).
    assert (Forall (λ kv, g kv = kv) (dict_of (g <$> items))) as Hfix.
    { apply dict_of_Forall. rewrite Forall_fmap.
      eapply Forall_impl; [exact IH|]. intros [k o] Ho. unfold g. cbn in *.
      by rewrite Ho. }
    assert (g <$> dict_of (g <$> items) = dict_of (g <$> items)) as ->.
    { induction Hfix as [|kv d Hkv _ IHd]; [done|].
      by rewrite fmap_cons, Hkv, IHd. }
    apply dict_of_distinct, dict_of_NoDup.
  - cbn. f_equal. rewrite <- list_fmap_compose.
    induction IH as [|o elems Ho _ IHelems]; [done|].
    rewrite !fmap_cons. cbn. by rewrite Ho, IHelems.
Qed.

End convert_keys.

Section dict_of_facts.
Import MetricsCalculator.
Context {A : Type}.

Lemma setitem_length (d : list (key * A)) (k : key) (v : A) :
  (length (setitem d k v) ≤ S (length d))%nat.
Proof.
  induction d as [|[k' v'] d IH]; cbn; [lia|]. case_decide; cbn; lia.
Qed.

Lemma setitem_elem_of_keys (d : list (key * A)) (k x : key) (v : A) :
  x ∈ (setitem d k v).*1 ↔ x ∈ d.*1 ∨ x = k.
Proof.
  rewrite setitem_keys. case_decide as Hk.
  - split; [by left|]. by intros [?| ->].
  - rewrite elem_of_app, list_elem_of_singleton. done.
Qed.

Lemma dict_of_length (items : list (key * A)) :
  (length (dict_of items) ≤ length items)%nat.
Proof.
  unfold dict_of.
  assert (∀ acc : list (key * A),
            (length (foldl (λ d kv, setitem d kv.1 kv.2) acc items)
             ≤ length acc + length items)%nat) as Hgen.
  { induction items as [|[k v] items IH]; intros acc; cbn; [lia|].
    etrans; [apply IH|]. pose proof (setitem_length acc k v). lia. }
  apply (Hgen []).
Qed.

Lemma dict_of_elem_of_keys (items : list (key * A)) (x : key) :
  x ∈ (dict_of items).*1 ↔ x ∈ items.*1.
Proof.
  unfold dict_of.
  assert (∀ acc : list (key * A),
            x ∈ (foldl (λ d kv, setitem d kv.1 kv.2) acc items).*1
            ↔ x ∈ acc.*1 ∨ x ∈ items.*1) as Hgen.
  { induction items as [|[k v] items IH]; intros acc; cbn.
    - split; [by left|]. intros [?|Hx]; [done|]. by apply elem_of_nil in Hx.
    - rewrite IH, setitem_elem_of_keys, elem_of_cons. tauto. }
  rewrite (Hgen []). split; [|by right].
  intros [Hx|?]; [|done]. by apply elem_of_nil in Hx.
Qed.

End dict_of_facts.

(** X17: after [_convert_keys_to_str] every key of every dictionary of the
    object, at any depth, is a string; converting a second time changes
    nothing; a list keeps its length and a dictionary never gains entries,
    but it loses one when two keys have the same string: the dictionary
    with the keys [1] and ['1'] comes out with the single key ['1'] and the
    value stored last. *)
Theorem convert_keys_to_str_strings (V : Type) (o : MetricsCalculator.obj V) :
  MetricsCalculator.str_keys (MetricsCalculator._convert_keys_to_str o) = true ∧
  MetricsCalculator._convert_keys_to_str (MetricsCalculator._convert_keys_to_str o)
  = MetricsCalculator._convert_keys_to_str o ∧
  match o, MetricsCalculator._convert_keys_to_str o with
  | MetricsCalculator.Dict items, MetricsCalculator.Dict items' =>
      (length items' ≤ length items)%nat ∧ NoDup items'.*1 ∧
      ∀ k, k ∈ items'.*1 ↔ ∃ k0, k0 ∈ items.*1 ∧ k = MetricsCalculator.Str (MetricsCalculator.str k0)
  | MetricsCalculator.List elems, MetricsCalculator.List elems' =>
      length elems' = length elems
  | MetricsCalculator.Other v, MetricsCalculator.Other v' => v' = v
  | _, _ => False
  end ∧
  ∀ a b : V,
    MetricsCalculator._convert_keys_to_str
      (MetricsCalculator.Dict
         [(MetricsCalculator.Int 1, MetricsCalculator.Other a);
          (MetricsCalculator.Str "1", MetricsCalculator.Other b)])
    = MetricsCalculator.Dict [(MetricsCalculator.Str "1", MetricsCalculator.Other b)].
Proof.
  split; [apply convert_keys_str_keys|]. split; [apply convert_keys_idemp|].
  split; [|done].
  destruct o as [items|elems|v]; cbn [MetricsCalculator._convert_keys_to_str];
    [|by rewrite length_fmap|done].
  split; [|split].
  - etrans; [apply dict_of_length|]. by rewrite length_fmap.
  - apply dict_of_NoDup.
  - intros k. rewrite dict_of_elem_of_keys. split.
    + intros ([k1 v1] & -> & ([k0 v0] & [= -> ->] & Hin)%list_elem_of_fmap)%list_elem_of_fmap.
      exists k0. split; [|done]. apply list_elem_of_fmap. by exists (k0, v0).
    + intros (k0 & ([k0' v0] & -> & Hin)%list_elem_of_fmap & ->).
      apply list_elem_of_fmap.
      exists (MetricsCalculator.Str (MetricsCalculator.str k0'),
              MetricsCalculator._convert_keys_to_str v0).
      split; [done|]. apply list_elem_of_fmap. by exists (k0', v0).
Qed.

(** ** When [MetricsCalculator] is constructed *)

Lemma missing_from_iff (columns columns' required : list string) :
  (∀ c, c ∈ required → c ∈ columns ↔ c ∈ columns') →
  missing_from columns required = missing_from columns' required.
Proof.
  unfold missing_from. induction required as [|c required IH]; intros Hsame; [done|].
  rewrite !filter_cons, IH by (intros c' Hc'; apply Hsame; by right).
  destruct (decide (c ∉ columns)) as [Hc|Hc].
  - rewrite decide_True; [done|]. by rewrite <- (Hsame c) by by left.
  - rewrite decide_False; [done|]. by rewrite <- (Hsame c) by by left.
Qed.

(** X18: on a file that [pd.read_csv] reads into a frame,
    [MetricsCalculator.__init__] raises nothing exactly when the header
    holds each of the twelve required columns, and [ValueError] otherwise,
    with the missing columns listed once each in the order of the required
    list; it raises nothing else there.  Only the set of column names of
    the header matters: their order, repetitions and further columns change
    nothing.  On a path that does not exist it raises [FileNotFoundError]
    with the path in the message.  (What [pd.read_csv] itself raises on a
    file it cannot parse, an empty one for instance, is not part of this
    statement.) *)
Theorem init_outcome (data_file : string) (columns : list string) :
  match MetricsCalculator.init data_file (Some columns) with
  | None => ∀ c, c ∈ MetricsCalculator.required_columns → c ∈ columns
  | Some (MetricsCalculator.ValueError msg) =>
      ∃ missing,
        msg = "Missing required columns: " +:+ repr_list missing ∧
        missing ≠ [] ∧ NoDup missing ∧
        missing `sublist_of` MetricsCalculator.required_columns ∧
        ∀ c, c ∈ missing ↔ c ∈ MetricsCalculator.required_columns ∧ c ∉ columns
  | Some (MetricsCalculator.FileNotFoundError _)
  | Some (MetricsCalculator.AttributeError _) => False
  end ∧
  MetricsCalculator.init data_file None
  = Some (MetricsCalculator.FileNotFoundError
            ("Data file " +:+ data_file +:+ " not found.")) ∧
  length MetricsCalculator.required_columns = 12%nat ∧
  ∀ columns' : list string,
    (∀ c, c ∈ MetricsCalculator.required_columns → c ∈ columns ↔ c ∈ columns') →
    MetricsCalculator.init data_file (Some columns)
    = MetricsCalculator.init data_file (Some columns').
Proof.
  split; [|split; [done|split; [done|]]].
  - unfold MetricsCalculator.init.
    case_decide as Hmissing.
    + by apply missing_from_nil.
    + exists (missing_from columns MetricsCalculator.required_columns).
      split; [done|]. split; [done|].
      split; [|split; [apply sublist_filter|intros c; apply missing_from_spec]].
      apply NoDup_filter. unfold MetricsCalculator.required_columns.
      apply (bool_decide_unpack _). by vm_compute.
  - intros columns' Hsame. unfold MetricsCalculator.init.
    by rewrite (missing_from_iff columns columns' _ Hsame).
Qed.

(** ** Rounding to three decimals *)

(** [rint] gives an integer at most one half away. *)
Lemma rint_spec (q : Qc) :
  2 * Z.abs (Pandas.rint q * Z.pos (Qden q) - Qnum q) <= Z.pos (Qden q).
Proof.
  unfold Pandas.rint.
  pose proof (Z.div_mod (Qnum q) (Z.pos (Qden q))) as Hdiv.
  pose proof (Z.mod_pos_bound (Qnum q) (Z.pos (Qden q))) as Hmod.
  assert (0 < Z.pos (Qden q)) as Hd by lia.
  revert Hdiv Hmod Hd.
  generalize (Qnum q / Z.pos (Qden q)). intros fl.
  generalize (Qnum q mod Z.pos (Qden q)). intros r.
  generalize (Qnum q). intros n.
  generalize (Z.pos (Qden q)). intros d Hdiv Hmod Hd.
  specialize (Hdiv ltac:(lia)). specialize (Hmod ltac:(lia)).
  assert (fl * d - n = - r) as Hdown by (rewrite Hdiv; ring).
  assert ((fl + 1) * d - n = d - r) as Hup by (rewrite Hdiv; ring).
  destruct (Z.ltb_spec (2 * r) d); [rewrite Hdown; lia|].
  destruct (Z.ltb_spec d (2 * r)); [rewrite Hup; lia|].
  destruct (Z.even fl); [rewrite Hdown|rewrite Hup]; lia.
Qed.

Lemma rint_bounds (q : Qc) :
  (q ≤ Q2Qc (Pandas.rint q # 1) + Q2Qc (1 # 2))%Qc ∧
  (Q2Qc (Pandas.rint q # 1) ≤ q + Q2Qc (1 # 2))%Qc.
Proof.
  pose proof (rint_spec q) as Hspec. revert Hspec.
  generalize (Pandas.rint q). intros m Hspec.
  unfold Qcle, Qcplus. cbn [this Q2Qc]. rewrite !Qred_correct.
  destruct q as [[n d] Hcanon]. cbn [this Qnum Qden] in *.
  unfold Qle, Qplus. cbn [Qnum Qden].
  rewrite !Pos2Z.inj_mul. split; nia.
Qed.

Lemma round3_scaled (q : Qc) :
  Pandas.round3 q
  = (Q2Qc (Pandas.rint (q * Q2Qc 1000) # 1) * Q2Qc (1 # 1000))%Qc.
Proof.
  unfold Pandas.round3. generalize (Pandas.rint (q * Q2Qc 1000)). intros m.
  unfold Qcmult. apply Q2Qc_eq_iff. cbn [this Q2Qc]. rewrite !Qred_correct.
  unfold Qeq, Qmult. cbn [Qnum Qden]. lia.
Qed.

Lemma round3_bounds (q : Qc) :
  (q ≤ Pandas.round3 q + Q2Qc (1 # 2000))%Qc ∧
  (Pandas.round3 q ≤ q + Q2Qc (1 # 2000))%Qc.
Proof.
  rewrite round3_scaled.
  destruct (rint_bounds (q * Q2Qc 1000)) as [Hlo Hhi]. revert Hlo Hhi.
  generalize (Q2Qc (Pandas.rint (q * Q2Qc 1000) # 1)). intros m Hlo Hhi.
  assert (Q2Qc 1000 * Q2Qc (1 # 1000) = Q2Qc 1)%Qc as Hunit
    by (apply Qc_is_canon; reflexivity).
  assert (Q2Qc (1 # 2) * Q2Qc (1 # 1000) = Q2Qc (1 # 2000))%Qc as Hhalf
    by (apply Qc_is_canon; reflexivity).
  assert (0 ≤ Q2Qc (1 # 1000))%Qc as Hpos by done.
  assert (q = q * Q2Qc 1000 * Q2Qc (1 # 1000))%Qc as Hq.
  { rewrite <- Qcmult_assoc, Hunit. ring. }
  split.
  - rewrite Hq at 1. rewrite <- Hhalf.
    replace (m * Q2Qc (1 # 1000) + Q2Qc (1 # 2) * Q2Qc (1 # 1000))%Qc
      with ((m + Q2Qc (1 # 2)) * Q2Qc (1 # 1000))%Qc by ring.
    by apply Qcmult_le_compat_r.
  - rewrite Hq at 1. rewrite <- Hhalf.
    replace (q * Q2Qc 1000 * Q2Qc (1 # 1000) + Q2Qc (1 # 2) * Q2Qc (1 # 1000))%Qc
      with ((q * Q2Qc 1000 + Q2Qc (1 # 2)) * Q2Qc (1 # 1000))%Qc by ring.
    by apply Qcmult_le_compat_r.
Qed.

Lemma rint_integer (m : Z) : Pandas.rint (Q2Qc (m # 1)) = m.
Proof.
  unfold Pandas.rint. cbn [this Q2Qc].
  rewrite (Qred_identity (m # 1)) by apply Z.gcd_1_r.
  cbn [Qnum Qden]. rewrite Z.div_1_r, Z.mod_1_r. reflexivity.
Qed.

Lemma round3_idemp (q : Qc) : Pandas.round3 (Pandas.round3 q) = Pandas.round3 q.
Proof.
  unfold Pandas.round3 at 2 3. generalize (Pandas.rint (q * Q2Qc 1000)). intros m.
  unfold Pandas.round3.
  assert (Q2Qc (m # 1000) * Q2Qc 1000 = Q2Qc (m # 1))%Qc as ->; [|by rewrite rint_integer].
  unfold Qcmult. apply Q2Qc_eq_iff. cbn [this Q2Qc]. rewrite !Qred_correct.
  unfold Qeq, Qmult. cbn [Qnum Qden]. lia.
Qed.

(** X19: the mean reported for a group, rounded to three decimals, is a
    multiple of 0.001 that is at most 0.0005 away from the mean of the
    group's values; rounding it again changes nothing; and it is NaN
    exactly when the group holds no value. *)
Theorem agg_mean_rounding (sqrt : Qc → Qc) (s : Pandas.column) :
  match SurveyScoreAnalyzer.agg_mean (SurveyScoreAnalyzer.agg sqrt s),
        Pandas.mean s with
  | Some reported, Some exact =>
      (exact ≤ reported + Q2Qc (1 # 2000))%Qc ∧
      (reported ≤ exact + Q2Qc (1 # 2000))%Qc ∧
      Pandas.round3 reported = reported ∧
      (∃ thousandths : Z, reported = Q2Qc (thousandths # 1000)) ∧
      (1 ≤ SurveyScoreAnalyzer.agg_count (SurveyScoreAnalyzer.agg sqrt s))%nat
  | None, None =>
      SurveyScoreAnalyzer.agg_count (SurveyScoreAnalyzer.agg sqrt s) = 0%nat
  | _, _ => False
  end.
Proof.
  unfold SurveyScoreAnalyzer.agg.
  cbn [SurveyScoreAnalyzer.agg_mean SurveyScoreAnalyzer.agg_count].
  pose proof (mean_None s) as Hnone.
  destruct (Pandas.mean s) as [exact|]; cbn [fmap option_fmap option_map].
  - destruct (round3_bounds exact) as [Hlo Hhi].
    split; [done|]. split; [done|]. split; [apply round3_idemp|].
    split; [by eexists|].
    destruct (Pandas.count s); [|lia]. by pose proof (proj2 Hnone eq_refl).
  - by apply Hnone.
Qed.
